(** * BatchSizeFinder: a shallow embedding of
      [pytorch_lightning/callbacks/batch_size_finder.py]

    The callback searches for the largest batch size that a model can run
    without an out-of-memory error.  It mutates a live [Trainer], runs short
    trials of one of the trainer's loops, and puts the trainer back afterwards.

    The embedding keeps the shape of the Python code:

    - Python ints are [Z]; the float [factor] of [_adjust_batch_size] is a
      rational [Q], the product [batch_size * factor] is taken exactly and
      [int(...)] truncates toward zero.  The source multiplies in binary64:
      the two agree wherever the binary64 product is exact ([exact_product]),
      as for the factors [1.0] and [2.0] that the callers pass, on every batch
      size below 2^53; what is stated about the product is stated there;
    - dicts ([hparams], [state_dict()], the checkpoint directory) are [gmap]s;
    - every method is a computation in a state-and-exception monad [M] over a
      [World] (trainer, finder object, checkpoint files, log of calls to the
      collaborators);
    - the collaborators that the callback only calls ([loop.run()], the
      [reset_*_dataloader] hooks, [uuid.uuid4()]) form an environment [Env];
    - [while True] of [_run_binary_scaling] runs on fuel. *)

From Stdlib Require Import ZArith QArith Qround Lia.
From stdpp Require Import gmap strings list fin_maps functions.

Local Open Scope string_scope.
Local Open Scope Z_scope.

(** ** Exceptions and outcomes *)

Inductive exn : Type :=
| MisconfigurationException (msg : string)
| _TunerExitException
| RuntimeError (oom : bool)      (* [oom] is what [is_oom_error] answers *)
| AttributeError (name : string)
| KeyError (key : string)
| IndexError
| FileNotFoundError (path : string)
| OtherException (msg : string).

(** Modelled from the spec: [is_oom_error] comes from
    [pytorch_lightning.utilities.memory], which is not part of the sources; it
    tells the out-of-memory condition from every other failure. *)
Definition is_oom_error (e : exn) : bool :=
  match e with RuntimeError oom => oom | _ => false end.

Inductive Outcome (A : Type) : Type :=
| Returned (a : A)
| Raised (e : exn)
| OutOfFuel.
Arguments Returned {A} a.
Arguments Raised {A} e.
Arguments OutOfFuel {A}.

(** ** Data model *)

Module TrainerFn.
Inductive t := FITTING | VALIDATING | TESTING | PREDICTING | TUNING.
#[global] Instance eq_dec : EqDecision t.
Proof. solve_decision. Defined.
End TrainerFn.

(** The dataloader prefixes ["train"], ["val"], ["test"], ["predict"] that
    name the per-phase trainer attributes [limit_<p>_batches],
    [<p>_dataloaders] and [reset_<p>_dataloader]. *)
Inductive Prefix := train | val | test | predict.

#[global] Instance Prefix_eq_dec : EqDecision Prefix.
Proof. solve_decision. Defined.

Inductive LoopId := fit_loop | validate_loop | test_loop | predict_loop.

#[global] Instance LoopId_eq_dec : EqDecision LoopId.
Proof. solve_decision. Defined.

Module RunningStage.
Inductive t := TRAINING | SANITY_CHECKING | VALIDATING | TESTING | PREDICTING | TUNING.
#[global] Instance eq_dec : EqDecision t.
Proof. solve_decision. Defined.

(** Modelled from the spec: the enum [RunningStage] is not part of the
    sources.  The spec names three evaluation phases (validate, test,
    predict); [getattr(trainer, f"{stage}_loop")] finds a loop for these and
    raises [AttributeError] for any other stage. *)
Definition loop (s : t) : exn + LoopId :=
  match s with
  | VALIDATING => inr validate_loop
  | TESTING => inr test_loop
  | PREDICTING => inr predict_loop
  | TRAINING => inl (AttributeError "train_loop")
  | SANITY_CHECKING => inl (AttributeError "sanity_check_loop")
  | TUNING => inl (AttributeError "tune_loop")
  end.

(** Modelled from the spec: the property [dataloader_prefix] of the enum is
    not part of the sources.  It names the dataloaders of the four phases of
    the spec (fit, validate, test, predict) and is [None] on the two stages
    that own no dataloader. *)
Definition dataloader_prefix (s : t) : option Prefix :=
  match s with
  | TRAINING => Some train
  | VALIDATING => Some val
  | TESTING => Some test
  | PREDICTING => Some predict
  | SANITY_CHECKING | TUNING => None
  end.
End RunningStage.

Inductive Logger := UserLogger (name : string) | DummyLogger.
Definition Callback := string.

(** [Union[int, float]] limits. *)
Inductive Limit := IntLimit (n : Z) | FloatLimit (q : Q).

(** A loop of the trainer: its progress ([state_dict()]), the [restarting]
    flag, [max_steps] (read on the fit loop), and [verbose] when the loop has
    that attribute. *)
Record Loop := mkLoop {
  progress : gmap string Z;
  restarting : bool;
  max_steps : Z;
  verbose : option bool
}.

Definition state_dict (l : Loop) : gmap string Z := progress l.

(** Modelled from the spec: the loop classes are not part of the sources.
    Loading a progress state puts the loop in the resuming state, which the
    callback clears after each load. *)
Definition load_state_dict (sd : gmap string Z) (l : Loop) : Loop :=
  {| progress := sd; restarting := true; max_steps := max_steps l; verbose := verbose l |}.

Definition set_restarting (b : bool) (l : Loop) : Loop :=
  {| progress := progress l; restarting := b; max_steps := max_steps l; verbose := verbose l |}.

Definition set_max_steps (n : Z) (l : Loop) : Loop :=
  {| progress := progress l; restarting := restarting l; max_steps := n; verbose := verbose l |}.

Definition set_verbose (b : bool) (l : Loop) : Loop :=
  {| progress := progress l; restarting := restarting l; max_steps := max_steps l; verbose := Some b |}.

(** A dataloader as the callback sees it: whether its length is known on all
    ranks (the answer of [has_len_all_ranks], a helper outside the sources),
    [len(dataloader)] and [len(dataloader.dataset)]. *)
Record DataLoader := mkDataLoader {
  has_len_all_ranks : bool;
  dl_len : Z;
  dataset_len : Z
}.

(** The LightningModule: attributes set directly on the model, the optional
    [hparams] namespace, and the model/optimizer state that a checkpoint
    holds. *)
Record LightningModule := mkModule {
  attrs : gmap string Z;
  hparams : option (gmap string Z);
  weights : list Z
}.

Definition Checkpoint := list Z.

Record Trainer := mkTrainer {
  fn : TrainerFn.t;                          (* trainer.state.fn *)
  stage : RunningStage.t;                    (* trainer.state.stage *)
  fast_dev_run : bool;
  is_distributed : bool;                     (* _accelerator_connector.is_distributed *)
  train_source_is_module : bool;             (* _train_dataloader_source.is_module() *)
  source_dataloaders : Prefix -> nat;        (* length of the list dl_source.dataloader() gives *)
  default_root_dir : string;
  logger : option Logger;
  callbacks : list Callback;
  progress_bar_callback : option bool;       (* Some enabled, or no progress bar *)
  limit_batches : Prefix -> Limit;           (* limit_<p>_batches *)
  loops : LoopId -> Loop;
  train_dataloader : DataLoader;
  eval_dataloaders : Prefix -> list DataLoader;   (* <p>_dataloaders, p other than train *)
  lightning_module : LightningModule
}.

Definition set_logger (v : option Logger) (t : Trainer) : Trainer :=
  {| fn := fn t; stage := stage t; fast_dev_run := fast_dev_run t;
     is_distributed := is_distributed t; train_source_is_module := train_source_is_module t;
     source_dataloaders := source_dataloaders t; default_root_dir := default_root_dir t;
     logger := v; callbacks := callbacks t; progress_bar_callback := progress_bar_callback t;
     limit_batches := limit_batches t; loops := loops t; train_dataloader := train_dataloader t;
     eval_dataloaders := eval_dataloaders t; lightning_module := lightning_module t |}.

Definition set_callbacks (v : list Callback) (t : Trainer) : Trainer :=
  {| fn := fn t; stage := stage t; fast_dev_run := fast_dev_run t;
     is_distributed := is_distributed t; train_source_is_module := train_source_is_module t;
     source_dataloaders := source_dataloaders t; default_root_dir := default_root_dir t;
     logger := logger t; callbacks := v; progress_bar_callback := progress_bar_callback t;
     limit_batches := limit_batches t; loops := loops t; train_dataloader := train_dataloader t;
     eval_dataloaders := eval_dataloaders t; lightning_module := lightning_module t |}.

Definition set_progress_bar (v : option bool) (t : Trainer) : Trainer :=
  {| fn := fn t; stage := stage t; fast_dev_run := fast_dev_run t;
     is_distributed := is_distributed t; train_source_is_module := train_source_is_module t;
     source_dataloaders := source_dataloaders t; default_root_dir := default_root_dir t;
     logger := logger t; callbacks := callbacks t; progress_bar_callback := v;
     limit_batches := limit_batches t; loops := loops t; train_dataloader := train_dataloader t;
     eval_dataloaders := eval_dataloaders t; lightning_module := lightning_module t |}.

Definition set_limit_batches (p : Prefix) (v : Limit) (t : Trainer) : Trainer :=
  {| fn := fn t; stage := stage t; fast_dev_run := fast_dev_run t;
     is_distributed := is_distributed t; train_source_is_module := train_source_is_module t;
     source_dataloaders := source_dataloaders t; default_root_dir := default_root_dir t;
     logger := logger t; callbacks := callbacks t; progress_bar_callback := progress_bar_callback t;
     limit_batches := <[p := v]> (limit_batches t); loops := loops t;
     train_dataloader := train_dataloader t;
     eval_dataloaders := eval_dataloaders t; lightning_module := lightning_module t |}.

Definition set_loop (i : LoopId) (v : Loop) (t : Trainer) : Trainer :=
  {| fn := fn t; stage := stage t; fast_dev_run := fast_dev_run t;
     is_distributed := is_distributed t; train_source_is_module := train_source_is_module t;
     source_dataloaders := source_dataloaders t; default_root_dir := default_root_dir t;
     logger := logger t; callbacks := callbacks t; progress_bar_callback := progress_bar_callback t;
     limit_batches := limit_batches t; loops := <[i := v]> (loops t);
     train_dataloader := train_dataloader t;
     eval_dataloaders := eval_dataloaders t; lightning_module := lightning_module t |}.

Definition set_lightning_module (v : LightningModule) (t : Trainer) : Trainer :=
  {| fn := fn t; stage := stage t; fast_dev_run := fast_dev_run t;
     is_distributed := is_distributed t; train_source_is_module := train_source_is_module t;
     source_dataloaders := source_dataloaders t; default_root_dir := default_root_dir t;
     logger := logger t; callbacks := callbacks t; progress_bar_callback := progress_bar_callback t;
     limit_batches := limit_batches t; loops := loops t; train_dataloader := train_dataloader t;
     eval_dataloaders := eval_dataloaders t; lightning_module := v |}.

(** Modelled from the spec: [Trainer.max_steps] and [Trainer.sanity_checking]
    are properties of the trainer class, which is not part of the sources; the
    step limit of a fit is the fit loop's [max_steps], and the trainer is
    sanity checking when its stage says so. *)
Definition trainer_max_steps (t : Trainer) : Z := max_steps (loops t fit_loop).
Definition sanity_checking (t : Trainer) : bool :=
  bool_decide (stage t = RunningStage.SANITY_CHECKING).

(** ** The hyperparameter store *)

(** [lightning_hasattr], [lightning_getattr] and [lightning_setattr] come from
    [pytorch_lightning.utilities.parsing], which is not part of the sources.
    The spec describes a two-tier store, the model itself and then its
    [hparams] namespace, in which the first holder found wins for reading and
    for writing. *)

(** [hasattr(pl_module, "hparams") and name in pl_module.hparams] *)
Definition in_hparams (m : LightningModule) (name : string) : bool :=
  match hparams m with
  | Some h => bool_decide (is_Some (h !! name))
  | None => false
  end.

(** [hasattr(pl_module, name)] *)
Definition hasattr (m : LightningModule) (name : string) : bool :=
  bool_decide (is_Some (attrs m !! name)).

(** Modelled from the spec: [lightning_hasattr] finds the field on the model
    or in its [hparams]. *)
Definition lightning_hasattr (m : LightningModule) (name : string) : bool :=
  hasattr m name || in_hparams m name.

(** Modelled from the spec: [lightning_getattr] reads the first holder that
    has the field, the model before its [hparams]. *)
Definition lightning_getattr (m : LightningModule) (name : string) : exn + Z :=
  match attrs m !! name with
  | Some v => inr v
  | None =>
      match hparams m with
      | Some h =>
          match h !! name with
          | Some v => inr v
          | None => inl (AttributeError name)
          end
      | None => inl (AttributeError name)
      end
  end.

(** Modelled from the spec: [lightning_setattr] writes to the first holder
    that has the field. *)
Definition lightning_setattr (m : LightningModule) (name : string) (v : Z)
  : exn + LightningModule :=
  match attrs m !! name with
  | Some _ => inr {| attrs := <[name := v]> (attrs m); hparams := hparams m; weights := weights m |}
  | None =>
      match hparams m with
      | Some h =>
          match h !! name with
          | Some _ => inr {| attrs := attrs m; hparams := Some (<[name := v]> h);
                             weights := weights m |}
          | None => inl (AttributeError name)
          end
      | None => inl (AttributeError name)
      end
  end.


(** ** The finder object and the world it runs in *)

(** Values held by the dict [self._dumped_params]. *)
Inductive DumpedValue :=
| VLogger (l : option Logger)
| VCallbacks (cs : list Callback)
| VInt (n : Z)
| VLimit (l : Limit)
| VBool (b : bool)
| VStateDict (sd : gmap string Z).

Record BatchSizeFinder := mkFinder {
  mode : string;
  steps_per_trial : Z;
  init_val : Z;
  max_trials : Z;
  batch_arg_name : string;
  optimal_batch_size : Z;
  _early_exit : bool;
  _dumped_params : gmap string DumpedValue
}.

Definition set_optimal_batch_size (v : Z) (f : BatchSizeFinder) : BatchSizeFinder :=
  {| mode := mode f; steps_per_trial := steps_per_trial f; init_val := init_val f;
     max_trials := max_trials f; batch_arg_name := batch_arg_name f;
     optimal_batch_size := v; _early_exit := _early_exit f;
     _dumped_params := _dumped_params f |}.

Definition set_dumped_params (d : gmap string DumpedValue) (f : BatchSizeFinder)
  : BatchSizeFinder :=
  {| mode := mode f; steps_per_trial := steps_per_trial f; init_val := init_val f;
     max_trials := max_trials f; batch_arg_name := batch_arg_name f;
     optimal_batch_size := optimal_batch_size f; _early_exit := _early_exit f;
     _dumped_params := d |}.

(** Calls made to the collaborators, oldest first. *)
Inductive Call :=
| save_checkpoint_call (path : string)
| restore_checkpoint_call (path : string)
| remove_checkpoint_call (path : string)
| loop_run_call (l : LoopId)
| reset_dataloader_call (p : Prefix).

Record World := mkWorld {
  trainer : Trainer;
  self : BatchSizeFinder;
  files : gmap string Checkpoint;
  calls : list Call
}.

(** The collaborators.  [env_run l t] is [loop.run()] on loop [l]: it may
    change anything in the trainer and either returns or raises.
    [env_reset p t] is [trainer.reset_<p>_dataloader(pl_module)]. *)
Record Env := mkEnv {
  env_run : LoopId -> Trainer -> option exn * Trainer;
  env_reset : Prefix -> Trainer -> Trainer;
  env_uuid4 : string
}.

(** ** The monad *)

Definition M (A : Type) : Type := World -> Outcome A * World.

Definition ret {A} (a : A) : M A := fun w => (Returned a, w).

Definition bind {A B} (m : M A) (k : A -> M B) : M B :=
  fun w =>
    match m w with
    | (Returned a, w') => k a w'
    | (Raised e, w') => (Raised e, w')
    | (OutOfFuel, w') => (OutOfFuel, w')
    end.

Definition raise {A} (e : exn) : M A := fun w => (Raised e, w).

Definition out_of_fuel {A} : M A := fun w => (OutOfFuel, w).

Definition lift {A} (r : exn + A) : M A :=
  match r with inl e => raise e | inr a => ret a end.

(** [try: body except RuntimeError as exception: handler]. *)
Definition try_except_RuntimeError {A} (body : M A) (handler : exn -> M A) : M A :=
  fun w =>
    match body w with
    | (Raised (RuntimeError oom), w') => handler (RuntimeError oom) w'
    | r => r
    end.

Declare Scope py_scope.
Delimit Scope py_scope with py.
Notation "x <- m ;; k" := (bind m (fun x => k))
  (at level 100, m at next level, right associativity) : py_scope.
Notation "m ;; k" := (bind m (fun _ => k))
  (at level 100, right associativity) : py_scope.
Local Open Scope py_scope.

Definition get_trainer : M Trainer := fun w => (Returned (trainer w), w).
Definition get_self : M BatchSizeFinder := fun w => (Returned (self w), w).

Definition modify_trainer (f : Trainer -> Trainer) : M unit :=
  fun w => (Returned tt,
            {| trainer := f (trainer w); self := self w; files := files w; calls := calls w |}).

Definition modify_self (f : BatchSizeFinder -> BatchSizeFinder) : M unit :=
  fun w => (Returned tt,
            {| trainer := trainer w; self := f (self w); files := files w; calls := calls w |}).

Definition modify_loop (l : LoopId) (f : Loop -> Loop) : M unit :=
  modify_trainer (fun t => set_loop l (f (loops t l)) t).

Definition set_dumped (key : string) (v : DumpedValue) : M unit :=
  modify_self (fun f => set_dumped_params (<[key := v]> (_dumped_params f)) f).

(** [self._dumped_params[key]] *)
Definition dumped (key : string) : M DumpedValue :=
  f <- get_self ;;
  match _dumped_params f !! key with
  | Some v => ret v
  | None => raise (KeyError key)
  end.

(** [getattr(trainer, f"{stage}_loop")] *)
Definition stage_loop (t : Trainer) : M LoopId := lift (RunningStage.loop (stage t)).

(** Reading a trainer attribute whose name is built from
    [stage.dataloader_prefix]; the name built from [None] is no attribute. *)
Definition stage_prefix (t : Trainer) : M Prefix :=
  match RunningStage.dataloader_prefix (stage t) with
  | Some p => ret p
  | None => raise (AttributeError "None")
  end.

(** ** Checkpoint collaborator *)

Fixpoint ends_with_sep (s : string) : bool :=
  match s with
  | EmptyString => false
  | String c EmptyString => bool_decide (c = Ascii.Ascii true true true true false true false false)
  | String _ rest => ends_with_sep rest
  end.

(** [os.path.join] on a directory and a relative file name. *)
Definition path_join (dir name : string) : string :=
  if bool_decide (dir = "") then name
  else if ends_with_sep dir then dir ++ name
  else dir ++ "/" ++ name.

Definition log_call (c : Call) : M unit :=
  fun w => (Returned tt,
            {| trainer := trainer w; self := self w; files := files w;
               calls := calls w ++ [c] |}).

(** Modelled from the spec: [trainer.save_checkpoint(path)] persists the full
    model/optimizer state under [path]. *)
Definition save_checkpoint (path : string) : M unit :=
  log_call (save_checkpoint_call path) ;;
  fun w => (Returned tt,
            {| trainer := trainer w; self := self w;
               files := <[path := weights (lightning_module (trainer w))]> (files w);
               calls := calls w |}).

(** Modelled from the spec: [trainer._checkpoint_connector.restore(path)]
    reloads the artifact into the live model/optimizer state. *)
Definition restore_checkpoint (path : string) : M unit :=
  log_call (restore_checkpoint_call path) ;;
  fun w =>
    match files w !! path with
    | Some c =>
        let m := lightning_module (trainer w) in
        (Returned tt,
         {| trainer := set_lightning_module
                         {| attrs := attrs m; hparams := hparams m; weights := c |}
                         (trainer w);
            self := self w; files := files w; calls := calls w |})
    | None => (Raised (FileNotFoundError path), w)
    end.

(** Modelled from the spec: [trainer.strategy.remove_checkpoint(path)] deletes
    the artifact. *)
Definition remove_checkpoint (path : string) : M unit :=
  log_call (remove_checkpoint_call path) ;;
  fun w => (Returned tt,
            {| trainer := trainer w; self := self w; files := delete path (files w);
               calls := calls w |}).

(** ** The callback *)

(** [int(x)] on a float: truncation toward zero.  It is applied to the exact
    product [batch_size * factor], which is the float product of the source
    when that product is exact in binary64. *)
Definition py_int (q : Q) : Z := Z.quot (Qnum q) (Zpos (Qden q)).

Definition ascii_lower (c : Ascii.ascii) : Ascii.ascii :=
  let n := Ascii.nat_of_ascii c in
  if ((65 <=? n) && (n <=? 90))%nat then Ascii.ascii_of_nat (n + 32) else c.

Fixpoint lower (s : string) : string :=
  match s with
  | EmptyString => EmptyString
  | String c rest => String (ascii_lower c) (lower rest)
  end.

Definition SUPPORTED_MODES : list string := ["power"; "binsearch"].

(** [BatchSizeFinder.__init__] *)
Definition __init__ (mode : string) (steps_per_trial init_val max_trials : Z)
    (batch_arg_name : string) : exn + BatchSizeFinder :=
  let mode := lower mode in
  if bool_decide (mode ∈ SUPPORTED_MODES) then
    inr {| mode := mode; steps_per_trial := steps_per_trial; init_val := init_val;
           max_trials := max_trials; batch_arg_name := batch_arg_name;
           optimal_batch_size := init_val; _early_exit := false; _dumped_params := ∅ |}
  else inl (MisconfigurationException "`mode` should be either of ('power', 'binsearch')").

(** [_collect_garbage]: frees accelerator memory, which the model does not
    track. *)
Definition _collect_garbage : M unit := ret tt.

(** [BatchSizeFinder._is_valid_batch_size] *)
Definition _is_valid_batch_size (batch_size : Z) (dataloader : DataLoader) : bool :=
  negb (has_len_all_ranks dataloader) || (batch_size <=? dl_len dataloader).

(** [getattr(trainer, f"{prefix}_dataloaders")]: the trainer has no
    [train_dataloaders]. *)
Definition prefix_dataloaders (t : Trainer) (p : Prefix) : M (list DataLoader) :=
  match p with
  | train => raise (AttributeError "train_dataloaders")
  | _ => ret (eval_dataloaders t p)
  end.

(** [BatchSizeFinder.setup] *)
Definition setup (stage_arg : option string) : M unit :=
  t <- get_trainer ;;
  f <- get_self ;;
  if is_distributed t then
    raise (MisconfigurationException
             "Batch size finder is not supported with distributed strategies.")
  else
    dl_source <- stage_prefix t ;;
    if negb (train_source_is_module t) then
      raise (MisconfigurationException
               "Batch size finder cannot be used with dataloaders passed directly to `.fit()`.")
    else
      (if negb (bool_decide (stage_arg = Some "fit"))
          && bool_decide (1 < source_dataloaders t dl_source)%nat
       then raise (MisconfigurationException
                     "Batch size finder cannot be used with multiple dataloaders.")
       else ret tt) ;;
      if negb (lightning_hasattr (lightning_module t) (batch_arg_name f)) then
        raise (MisconfigurationException "Field not found in both `model` and `model.hparams`")
      else ret tt.

(** [BatchSizeFinder._adjust_batch_size]; [desc] is used for logging only. *)
Definition _adjust_batch_size (factor : Q) (value : option Z) (desc : option string)
  : M (Z * bool) :=
  t <- get_trainer ;;
  f <- get_self ;;
  let model := lightning_module t in
  batch_size <- lift (lightning_getattr model (batch_arg_name f)) ;;
  let new_size :=
    match value with
    | Some v => v
    | None => py_int (inject_Z batch_size * factor)
    end in
  new_size <-
    (if bool_decide (fn t = TrainerFn.FITTING) then
       if negb (_is_valid_batch_size new_size (train_dataloader t))
       then ret (Z.min new_size (dataset_len (train_dataloader t)))
       else ret new_size
     else
       p <- stage_prefix t ;;
       dataloaders <- prefix_dataloaders t p ;;
       match dataloaders with
       | [] => raise IndexError
       | d0 :: _ =>
           if negb (_is_valid_batch_size new_size d0)
           then ret (Z.min new_size (dataset_len d0))
           else ret new_size
       end) ;;
  let changed := negb (new_size =? batch_size) in
  model' <- lift (lightning_setattr model (batch_arg_name f) new_size) ;;
  modify_trainer (set_lightning_module model') ;;
  ret (new_size, changed).

(** [BatchSizeFinder._dump_params] *)
Definition _dump_params : M unit :=
  t <- get_trainer ;;
  modify_self (set_dumped_params
                 (<["callbacks" := VCallbacks (callbacks t)]>
                    (<["logger" := VLogger (logger t)]> ∅))) ;;
  loop <-
    (if bool_decide (fn t = TrainerFn.FITTING) then
       set_dumped "max_steps" (VInt (trainer_max_steps t)) ;;
       set_dumped "limit_val_batches" (VLimit (limit_batches t val)) ;;
       ret fit_loop
     else
       loop <- stage_loop t ;;
       p <- stage_prefix t ;;
       set_dumped "limit_eval_batches" (VLimit (limit_batches t p)) ;;
       match verbose (loops t loop) with
       | Some v => set_dumped "loop_verbose" (VBool v)
       | None => ret tt
       end ;;
       ret loop) ;;
  set_dumped "loop_state_dict" (VStateDict (state_dict (loops t loop))).

(** [BatchSizeFinder._reset_params].  Outside a fit the loop is looked up
    first, so [setattr] is only reached in a stage that has a dataloader
    prefix. *)
Definition _reset_params : M unit :=
  t <- get_trainer ;;
  f <- get_self ;;
  modify_trainer (set_logger (match logger t with Some _ => Some DummyLogger | None => None end)) ;;
  modify_trainer (set_callbacks []) ;;
  if bool_decide (fn t = TrainerFn.FITTING) then
    modify_trainer (set_limit_batches val (IntLimit (steps_per_trial f))) ;;
    modify_loop fit_loop (set_max_steps (steps_per_trial f))
  else
    loop <- stage_loop t ;;
    p <- stage_prefix t ;;
    modify_trainer (set_limit_batches p (IntLimit (steps_per_trial f))) ;;
    match verbose (loops t loop) with
    | Some _ => modify_loop loop (set_verbose false)
    | None => ret tt
    end.

Definition as_logger (v : DumpedValue) : M (option Logger) :=
  match v with VLogger l => ret l | _ => raise (OtherException "TypeError") end.
Definition as_callbacks (v : DumpedValue) : M (list Callback) :=
  match v with VCallbacks c => ret c | _ => raise (OtherException "TypeError") end.
Definition as_int (v : DumpedValue) : M Z :=
  match v with VInt n => ret n | _ => raise (OtherException "TypeError") end.
Definition as_limit (v : DumpedValue) : M Limit :=
  match v with VLimit l => ret l | _ => raise (OtherException "TypeError") end.
Definition as_bool (v : DumpedValue) : M bool :=
  match v with VBool b => ret b | _ => raise (OtherException "TypeError") end.
Definition as_state_dict (v : DumpedValue) : M (gmap string Z) :=
  match v with VStateDict sd => ret sd | _ => raise (OtherException "TypeError") end.

(** [BatchSizeFinder._restore_params] *)
Definition _restore_params : M unit :=
  v <- dumped "logger" ;; l <- as_logger v ;;
  modify_trainer (set_logger l) ;;
  v <- dumped "callbacks" ;; cs <- as_callbacks v ;;
  modify_trainer (set_callbacks cs) ;;
  t <- get_trainer ;;
  loop <-
    (if bool_decide (fn t = TrainerFn.FITTING) then
       v <- dumped "max_steps" ;; n <- as_int v ;;
       modify_loop fit_loop (set_max_steps n) ;;
       v <- dumped "limit_val_batches" ;; l <- as_limit v ;;
       modify_trainer (set_limit_batches val l) ;;
       ret fit_loop
     else
       loop <- stage_loop t ;;
       p <- stage_prefix t ;;
       v <- dumped "limit_eval_batches" ;; l <- as_limit v ;;
       modify_trainer (set_limit_batches p l) ;;
       ret loop) ;;
  v <- dumped "loop_state_dict" ;; sd <- as_state_dict v ;;
  modify_loop loop (load_state_dict sd) ;;
  modify_loop loop (set_restarting false) ;;
  f <- get_self ;;
  match _dumped_params f !! "loop_verbose" with
  | Some v => b <- as_bool v ;; modify_loop loop (set_verbose b)
  | None => ret tt
  end.

Section Callback.
Context (E : Env).

(** [loop.run()] *)
Definition loop_run (l : LoopId) : M unit :=
  log_call (loop_run_call l) ;;
  fun w =>
    let '(r, t') := env_run E l (trainer w) in
    (match r with Some e => Raised e | None => Returned tt end,
     {| trainer := t'; self := self w; files := files w; calls := calls w |}).

(** [trainer.reset_<p>_dataloader(pl_module)] *)
Definition reset_dataloader (p : Prefix) : M unit :=
  log_call (reset_dataloader_call p) ;;
  modify_trainer (env_reset E p).

(** [BatchSizeFinder._try_loop_run] *)
Definition _try_loop_run : M unit :=
  t <- get_trainer ;;
  loop <- (if bool_decide (fn t = TrainerFn.FITTING) then ret fit_loop else stage_loop t) ;;
  v <- dumped "loop_state_dict" ;; sd <- as_state_dict v ;;
  modify_loop loop (load_state_dict sd) ;;
  modify_loop loop (set_restarting false) ;;
  loop_run loop.

(** [BatchSizeFinder._reset_dataloaders] *)
Definition _reset_dataloaders : M unit :=
  t <- get_trainer ;;
  if bool_decide (fn t = TrainerFn.FITTING) then
    reset_dataloader train ;;
    reset_dataloader val
  else
    p <- stage_prefix t ;;
    reset_dataloader p.

(** One iteration of the [for] loop of [_run_power_scaling]; the boolean says
    whether the iteration ended in [break]. *)
Definition power_iteration : M (Z * bool) :=
  _collect_garbage ;;
  try_except_RuntimeError
    (_try_loop_run ;;
     r <- _adjust_batch_size 2 None (Some "succeeded") ;;
     let '(new_size, changed) := r in
     if changed then
       _reset_dataloaders ;;
       ret (new_size, false)
     else ret (new_size, true))
    (fun exception =>
       if is_oom_error exception then
         _collect_garbage ;;
         r <- _adjust_batch_size 1 None None ;;
         ret (fst r, true)
       else raise exception).

Fixpoint power_loop (trials : nat) (new_size : Z) : M Z :=
  match trials with
  | O => ret new_size
  | S trials' =>
      r <- power_iteration ;;
      let '(new_size, break) := r in
      if break then ret new_size else power_loop trials' new_size
  end.

(** [BatchSizeFinder._run_power_scaling] *)
Definition _run_power_scaling (new_size : Z) : M Z :=
  f <- get_self ;;
  power_loop (Z.to_nat (max_trials f)) new_size.

(** The local variables of [_run_binary_scaling]. *)
Record Locals := mkLocals {
  low : Z;
  high : option Z;
  count : Z;
  new_size : Z
}.

(** [if high:] holds when [high] is neither [None] nor [0]. *)
Definition truthy (high : option Z) : option Z :=
  match high with
  | Some h => if h =? 0 then None else Some h
  | None => None
  end.

(** One iteration of the [while True] loop of [_run_binary_scaling]; the
    boolean says whether the iteration ended in [break]. *)
Definition binary_iteration (v : Locals) : M (Locals * bool) :=
  _collect_garbage ;;
  try_except_RuntimeError
    (_try_loop_run ;;
     f <- get_self ;;
     let count := count v + 1 in
     if max_trials f <? count then
       ret ({| low := low v; high := high v; count := count; new_size := new_size v |}, true)
     else
       let low := new_size v in
       match truthy (high v) with
       | Some h =>
           if h - low <=? 1 then
             ret ({| low := low; high := high v; count := count; new_size := new_size v |}, true)
           else
             let midval := (h + low) `div` 2 in
             r <- _adjust_batch_size 1 (Some midval) (Some "succeeded") ;;
             let v' := {| low := low; high := high v; count := count; new_size := fst r |} in
             if snd r then _reset_dataloaders ;; ret (v', false) else ret (v', true)
       | None =>
           r <- _adjust_batch_size 2 None (Some "succeeded") ;;
           let v' := {| low := low; high := high v; count := count; new_size := fst r |} in
           if snd r then _reset_dataloaders ;; ret (v', false) else ret (v', true)
       end)
    (fun exception =>
       if is_oom_error exception then
         _collect_garbage ;;
         let high := new_size v in
         let midval := (high + low v) `div` 2 in
         r <- _adjust_batch_size 1 (Some midval) (Some "failed") ;;
         (if snd r then _reset_dataloaders else ret tt) ;;
         ret ({| low := low v; high := Some high; count := count v; new_size := fst r |},
              high - low v <=? 1)
       else raise exception).

Fixpoint binary_loop (fuel : nat) (v : Locals) : M Z :=
  match fuel with
  | O => out_of_fuel
  | S fuel' =>
      r <- binary_iteration v ;;
      let '(v', break) := r in
      if break then ret (new_size v') else binary_loop fuel' v'
  end.

(** [BatchSizeFinder._run_binary_scaling] *)
Definition _run_binary_scaling (fuel : nat) (new_size : Z) : M Z :=
  binary_loop fuel {| low := 1; high := None; count := 0; new_size := new_size |}.

Definition progress_bar_disable : M unit :=
  modify_trainer (fun t => match progress_bar_callback t with
                           | Some _ => set_progress_bar (Some false) t
                           | None => t
                           end).

Definition progress_bar_enable : M unit :=
  modify_trainer (fun t => match progress_bar_callback t with
                           | Some _ => set_progress_bar (Some true) t
                           | None => t
                           end).

Definition ckpt_path (t : Trainer) : string :=
  path_join (default_root_dir t) (".scale_batch_size_" ++ env_uuid4 E ++ ".ckpt").

(** [BatchSizeFinder.scale_batch_size].  The two warnings (fast dev run, field
    present both on the model and in [hparams]) and the log line change
    nothing in the world. *)
Definition scale_batch_size (fuel : nat) : M unit :=
  t <- get_trainer ;;
  f <- get_self ;;
  if fast_dev_run t then ret tt
  else
    let ckpt_path := ckpt_path t in
    save_checkpoint ckpt_path ;;
    _dump_params ;;
    _reset_params ;;
    progress_bar_disable ;;
    r <- _adjust_batch_size 1 (Some (init_val f)) None ;;
    let new_size := fst r in
    new_size <-
      (if bool_decide (mode f = "power") then _run_power_scaling new_size
       else if bool_decide (mode f = "binsearch") then _run_binary_scaling fuel new_size
       else ret new_size) ;;
    _collect_garbage ;;
    _restore_params ;;
    progress_bar_enable ;;
    restore_checkpoint ckpt_path ;;
    remove_checkpoint ckpt_path ;;
    modify_self (set_optimal_batch_size new_size) ;;
    f <- get_self ;;
    if _early_exit f then raise _TunerExitException else ret tt.

Definition on_fit_start (fuel : nat) : M unit := scale_batch_size fuel.

Definition on_validation_start (fuel : nat) : M unit :=
  t <- get_trainer ;;
  if sanity_checking t || negb (bool_decide (fn t = TrainerFn.VALIDATING)) then ret tt
  else scale_batch_size fuel.

Definition on_test_start (fuel : nat) : M unit := scale_batch_size fuel.

Definition on_predict_start (fuel : nat) : M unit := scale_batch_size fuel.

End Callback.

(** ** Synthetic collaborators *)

(** A trial that succeeds exactly when the batch size stored under [name] is
    at most the threshold [T] ([None]: every size succeeds) and raises
    [failure] otherwise.  Either way the trial leaves its mark on the loop it
    ran: one more pass recorded in the progress, and the loop back in the
    restarting state.

    The trial is judged by the stored size, that is, it takes the dataloaders
    to serve the size that the model holds when the loop runs.  The finder
    resets the dataloaders after every change of size but the first:
    [scale_batch_size] installs [init_val] and resets nothing.  A fit builds
    its dataloaders when its loop first runs, so there every trial runs at the
    stored size; an evaluation runs its first trial on the dataloaders that
    were loaded before the hook.  What is stated about which sizes fail is
    therefore stated for a fit, or where no trial can fail. *)
Definition synthetic_run (name : string) (failure : exn) (T : option Z)
    (l : LoopId) (t : Trainer) : option exn * Trainer :=
  let lp := loops t l in
  let passes := default 0 (progress lp !! "passes") in
  let t' := set_loop l (load_state_dict (<["passes" := passes + 1]> (progress lp)) lp) t in
  match lightning_getattr (lightning_module t) name, T with
  | inr b, Some T => if T <? b then (Some failure, t') else (None, t')
  | _, _ => (None, t')
  end.

(** A dataloader over the same dataset at batch size [b]. *)
Definition rebatch (b : Z) (d : DataLoader) : DataLoader :=
  if 0 <? b then
    {| has_len_all_ranks := has_len_all_ranks d;
       dl_len := (dataset_len d + b - 1) `div` b;
       dataset_len := dataset_len d |}
  else d.

Definition set_dataloaders (tr : DataLoader) (ev : Prefix -> list DataLoader) (t : Trainer)
  : Trainer :=
  {| fn := fn t; stage := stage t; fast_dev_run := fast_dev_run t;
     is_distributed := is_distributed t; train_source_is_module := train_source_is_module t;
     source_dataloaders := source_dataloaders t; default_root_dir := default_root_dir t;
     logger := logger t; callbacks := callbacks t; progress_bar_callback := progress_bar_callback t;
     limit_batches := limit_batches t; loops := loops t; train_dataloader := tr;
     eval_dataloaders := ev; lightning_module := lightning_module t |}.

(** Resetting the dataloaders of phase [p] rebuilds them at the batch size
    stored under [name]. *)
Definition synthetic_reset (name : string) (p : Prefix) (t : Trainer) : Trainer :=
  match lightning_getattr (lightning_module t) name with
  | inr b =>
      match p with
      | train => set_dataloaders (rebatch b (train_dataloader t)) (eval_dataloaders t) t
      | _ => set_dataloaders (train_dataloader t)
               (<[p := rebatch b <$> eval_dataloaders t p]> (eval_dataloaders t)) t
      end
  | inl _ => t
  end.

Definition synthetic (name : string) (failure : exn) (T : option Z) : Env :=
  {| env_run := synthetic_run name failure T;
     env_reset := synthetic_reset name;
     env_uuid4 := "1b4e28ba-2fa1-41d2-883f-0016d3cca427" |}.

(** A fit over a dataset of [L] samples, with the batch size kept in
    [model.batch_size]. *)
Definition fit_trainer (L : Z) : Trainer :=
  let d := {| has_len_all_ranks := true; dl_len := L; dataset_len := L |} in
  {| fn := TrainerFn.FITTING; stage := RunningStage.TRAINING; fast_dev_run := false;
     is_distributed := false; train_source_is_module := true;
     source_dataloaders := fun _ => 1%nat; default_root_dir := "/tmp/run";
     logger := Some (UserLogger "tensorboard");
     callbacks := ["BatchSizeFinder"; "ModelCheckpoint"];
     progress_bar_callback := Some true;
     limit_batches := fun _ => FloatLimit 1;
     loops := fun _ => {| progress := {["passes" := 0]}; restarting := false;
                          max_steps := -1; verbose := None |};
     train_dataloader := d;
     eval_dataloaders := fun _ => [d];
     lightning_module := {| attrs := {["batch_size" := 1]}; hparams := None;
                            weights := [3; 1; 4] |} |}.

Definition finder (mode : string) (init_val max_trials : Z) : BatchSizeFinder :=
  {| mode := mode; steps_per_trial := 3; init_val := init_val; max_trials := max_trials;
     batch_arg_name := "batch_size"; optimal_batch_size := init_val; _early_exit := false;
     _dumped_params := ∅ |}.

Definition fit_world (mode : string) (init_val max_trials L : Z) : World :=
  {| trainer := fit_trainer L; self := finder mode init_val max_trials;
     files := ∅; calls := [] |}.

Definition final_size (r : Outcome unit * World) : Outcome Z :=
  match fst r with
  | Returned _ => Returned (optimal_batch_size (self (snd r)))
  | Raised e => Raised e
  | OutOfFuel => OutOfFuel
  end.

(** Scenario B of the spec: growth mode from 2, every trial at a batch size
    of 256 or more runs out of memory. *)
Definition oom_at_256 : Env := synthetic "batch_size" (RuntimeError true) (Some 255).
Definition scenario_B : Outcome unit * World :=
  scale_batch_size oom_at_256 0 (fit_world "power" 2 25 100000).

(** Growth mode from 2 in which every trial at a batch size above 7 fails
    with a [RuntimeError] that is not an out-of-memory error. *)
Definition fatal_above_7 : Env := synthetic "batch_size" (RuntimeError false) (Some 7).
Definition fatal_run : Outcome unit * World :=
  scale_batch_size fatal_above_7 0 (fit_world "power" 2 25 1000).



(** ** Vocabulary of the statements *)

(** The dataloader that [_adjust_batch_size] checks a new size against: the
    training dataloader during a fit, the first dataloader of the running
    phase otherwise. *)
Definition relevant_dataloader (t : Trainer) : option DataLoader :=
  if bool_decide (fn t = TrainerFn.FITTING) then Some (train_dataloader t)
  else
    match RunningStage.dataloader_prefix (stage t) with
    | Some train | None => None
    | Some p => head (eval_dataloaders t p)
    end.

(** The size that comes out of the validity check for a proposed size [n]. *)
Definition clamp (d : DataLoader) (n : Z) : Z :=
  if has_len_all_ranks d && (dl_len d <? n) then Z.min n (dataset_len d) else n.

(** The size that [_adjust_batch_size] proposes before the validity check. *)
Definition proposal (batch_size : Z) (factor : Q) (value : option Z) : Z :=
  match value with
  | Some v => v
  | None => py_int (inject_Z batch_size * factor)
  end.

Definition with_module (m : LightningModule) (w : World) : World :=
  {| trainer := set_lightning_module m (trainer w); self := self w;
     files := files w; calls := calls w |}.

Definition batch_size_of (w : World) : exn + Z :=
  lightning_getattr (lightning_module (trainer w)) (batch_arg_name (self w)).

(** The loop that the running phase drives, and the prefix of the batch limit
    that the finder overrides in that phase. *)
Definition phase_loop (t : Trainer) : option LoopId :=
  if bool_decide (fn t = TrainerFn.FITTING) then Some fit_loop
  else match RunningStage.loop (stage t) with inr l => Some l | inl _ => None end.

Definition phase_prefix (t : Trainer) : option Prefix :=
  if bool_decide (fn t = TrainerFn.FITTING) then Some val
  else RunningStage.dataloader_prefix (stage t).

(** [D] is what [_dump_params] records about trainer [t0]. *)
Definition snapshot_of (t0 : Trainer) (l : LoopId) (p : Prefix)
    (D : gmap string DumpedValue) : Prop :=
  D !! "logger" = Some (VLogger (logger t0))
  /\ D !! "callbacks" = Some (VCallbacks (callbacks t0))
  /\ D !! "loop_state_dict" = Some (VStateDict (progress (loops t0 l)))
  /\ if bool_decide (fn t0 = TrainerFn.FITTING)
     then D !! "max_steps" = Some (VInt (max_steps (loops t0 fit_loop)))
          /\ D !! "limit_val_batches" = Some (VLimit (limit_batches t0 val))
          /\ D !! "loop_verbose" = None
     else D !! "limit_eval_batches" = Some (VLimit (limit_batches t0 p))
          /\ D !! "loop_verbose" = VBool <$> verbose (loops t0 l).

(** A computation keeps relation [R] between the worlds before and after it,
    whatever its outcome. *)
Definition preserves {A} (R : World -> World -> Prop) (m : M A) : Prop :=
  forall w r w', m w = (r, w') -> R w w'.

(** Calls that the search itself makes to the collaborators. *)
Definition search_call (c : Call) : Prop :=
  match c with
  | loop_run_call _ | reset_dataloader_call _ => True
  | _ => False
  end.

(** What the search leaves alone: the finder object and the checkpoint files;
    the call log only grows, by trial runs and dataloader resets. *)
Definition frame (w w' : World) : Prop :=
  self w' = self w
  /\ files w' = files w
  /\ exists cs, calls w' = (calls w ++ cs)%list /\ Forall search_call cs.

Definition same_phase (w w' : World) : Prop :=
  fn (trainer w') = fn (trainer w) /\ stage (trainer w') = stage (trainer w).

(** Collaborators that do not switch the trainer to another function or
    stage. *)
Definition phase_stable (E : Env) : Prop :=
  forall t,
    (forall l, fn (snd (env_run E l t)) = fn t /\ stage (snd (env_run E l t)) = stage t)
    /\ (forall p, fn (env_reset E p t) = fn t /\ stage (env_reset E p t) = stage t).

(** The world is as a trial that raised [RuntimeError] left it: the last call
    is that run of the loop and the trainer is the one the run gave back. *)
Definition trial_failed (E : Env) (oom : bool) (w' : World) : Prop :=
  exists l t0 cs,
    calls w' = (cs ++ [loop_run_call l])%list
    /\ env_run E l t0 = (Some (RuntimeError oom), trainer w').

(** Whenever a [RuntimeError] leaves the computation, [P] holds of it and of
    the world it leaves behind. *)
Definition raising (P : bool -> World -> Prop) {A} (m : M A) : Prop :=
  forall w r w' oom, m w = (r, w') -> r = Raised (RuntimeError oom) -> P oom w'.

(** A [RuntimeError] that leaves the computation comes straight from a
    trial. *)
Definition raises_from_trial (E : Env) {A} (m : M A) : Prop :=
  raising (trial_failed E) m.

(** No [RuntimeError] leaves the computation. *)
Definition never_runtime_error {A} (m : M A) : Prop :=
  raising (fun _ _ => False) m.

Definition not_runtime_error (e : exn) : Prop :=
  match e with RuntimeError _ => False | _ => True end.

(** The strategy that [scale_batch_size] hands over to. *)
Definition search (E : Env) (fuel : nat) (f : BatchSizeFinder) (new_size : Z) : M Z :=
  if bool_decide (mode f = "power") then _run_power_scaling E new_size
  else if bool_decide (mode f = "binsearch") then _run_binary_scaling E fuel new_size
  else ret new_size.

(** The end of [scale_batch_size], from [_restore_params] on. *)
Definition finish (path : string) (new_size : Z) : M unit :=
  _restore_params ;;
  progress_bar_enable ;;
  restore_checkpoint path ;;
  remove_checkpoint path ;;
  modify_self (set_optimal_batch_size new_size) ;;
  f <- get_self ;;
  if _early_exit f then raise _TunerExitException else ret tt.

(** What the trial settings leave alone in the trainer. *)
Definition same_model_and_data (t t' : Trainer) : Prop :=
  fn t' = fn t /\ stage t' = stage t
  /\ lightning_module t' = lightning_module t
  /\ train_dataloader t' = train_dataloader t
  /\ eval_dataloaders t' = eval_dataloaders t.

(** The fields that [_restore_params] puts back, read off trainer [t0]. *)
Definition restored (t0 : Trainer) (l : LoopId) (p : Prefix) (t' : Trainer) : Prop :=
  logger t' = logger t0
  /\ callbacks t' = callbacks t0
  /\ limit_batches t' p = limit_batches t0 p
  /\ (fn t0 = TrainerFn.FITTING ->
      max_steps (loops t' fit_loop) = max_steps (loops t0 fit_loop))
  /\ progress (loops t' l) = progress (loops t0 l)
  /\ restarting (loops t' l) = false.

(** The trials of [scale_batch_size]: everything between [_dump_params] and
    [_restore_params], for the finder [f] read at the start. *)
Definition trials (E : Env) (fuel : nat) (f : BatchSizeFinder) : M Z :=
  _reset_params ;;
  progress_bar_disable ;;
  r <- _adjust_batch_size 1 (Some (init_val f)) None ;;
  search E fuel f (fst r).

(** What everything between saving the checkpoint and [_restore_params]
    leaves alone: the checkpoint files and the recorded optimum; the call log
    only grows, by trial runs and dataloader resets. *)
Definition quiet (w w' : World) : Prop :=
  files w' = files w
  /\ optimal_batch_size (self w') = optimal_batch_size (self w)
  /\ exists cs, calls w' = (calls w ++ cs)%list /\ Forall search_call cs.

(** What [_restore_params] leaves alone. *)
Definition keeps_model (w w' : World) : Prop :=
  self w' = self w
  /\ files w' = files w
  /\ calls w' = calls w
  /\ lightning_module (trainer w') = lightning_module (trainer w).

(** The world in which the trials of [scale_batch_size] start on [w], up to
    the dumped parameters: the checkpoint is written and logged. *)
Definition checkpointed (E : Env) (w : World) : World :=
  {| trainer := trainer w; self := self w;
     files := <[ckpt_path E (trainer w) := weights (lightning_module (trainer w))]> (files w);
     calls := (calls w ++ [save_checkpoint_call (ckpt_path E (trainer w))])%list |}.

(** The state of the world during the trials of finder [f]: the phase drives
    loop [l], the model holds batch size [b], new sizes are checked against
    dataloader [d], and the dumped parameters hold the loop's progress. *)
Definition searching (f : BatchSizeFinder) (l : LoopId) (b : Z) (d : DataLoader)
    (w : World) : Prop :=
  self w = f
  /\ batch_size_of w = inr b
  /\ relevant_dataloader (trainer w) = Some d
  /\ phase_loop (trainer w) = Some l
  /\ exists sd, _dumped_params f !! "loop_state_dict" = Some (VStateDict sd).

(** Whether a trial at batch size [b] succeeds under threshold [T]. *)
Definition fits (T : option Z) (b : Z) : bool :=
  match T with
  | Some T => negb (T <? b)
  | None => true
  end.

(** A dataloader of known length over a dataset of [L] samples. *)
Definition bounded (L : Z) (d : DataLoader) : Prop :=
  has_len_all_ranks d = true /\ dataset_len d = L /\ dl_len d <= L.

(** The world after [_dump_params] has recorded [D] on top of
    [checkpointed E w]. *)
Definition dumped_world (E : Env) (D : gmap string DumpedValue) (w : World) : World :=
  {| trainer := trainer w; self := set_dumped_params D (self w);
     files := files (checkpointed E w); calls := calls (checkpointed E w) |}.

(** The number of trials in the call log. *)
Fixpoint count_runs (cs : list Call) : nat :=
  match cs with
  | [] => 0
  | loop_run_call _ :: cs => S (count_runs cs)
  | _ :: cs => count_runs cs
  end.

Definition runs (w : World) : Z := Z.of_nat (count_runs (calls w)).

Definition same_runs (w w' : World) : Prop := runs w' = runs w.

(** One iteration of [_run_binary_scaling] against threshold [T], as a
    function of the local variables and of the dataloader that sizes are
    checked against: the new local variables, whether the iteration breaks,
    and the dataloader after the reset that follows a change of size. *)
Definition binary_next (f : BatchSizeFinder) (T : Z) (d : DataLoader) (v : Locals)
  : Locals * bool * DataLoader :=
  let b := new_size v in
  let resized (n : Z) := if n =? b then d else rebatch n d in
  if T <? b then
    let n := clamp d ((b + low v) `div` 2) in
    ({| low := low v; high := Some b; count := count v; new_size := n |},
     b - low v <=? 1, resized n)
  else
    let c := count v + 1 in
    if max_trials f <? c then
      ({| low := low v; high := high v; count := c; new_size := b |}, true, d)
    else
      match truthy (high v) with
      | Some h =>
          if h - b <=? 1 then
            ({| low := b; high := high v; count := c; new_size := b |}, true, d)
          else
            let n := clamp d ((h + b) `div` 2) in
            ({| low := b; high := high v; count := c; new_size := n |}, n =? b, resized n)
      | None =>
          let n := clamp d (2 * b) in
          ({| low := b; high := high v; count := c; new_size := n |}, n =? b, resized n)
      end.



(** What [setup] asks for: no distributed strategy, a stage that names
    dataloaders, a training dataloader that comes from the module, at most one
    dataloader in the stage's source unless the hook runs for ["fit"], and the
    batch size field on the model or in its [hparams]. *)
Definition setup_ok (stage_arg : option string) (w : World) : Prop :=
  is_distributed (trainer w) = false
  /\ train_source_is_module (trainer w) = true
  /\ lightning_hasattr (lightning_module (trainer w)) (batch_arg_name (self w)) = true
  /\ exists p, RunningStage.dataloader_prefix (stage (trainer w)) = Some p
               /\ (stage_arg = Some "fit" \/ (source_dataloaders (trainer w) p <= 1)%nat).

(** Everything in the trainer apart from its loops. *)
Definition same_outside_loops (t t' : Trainer) : Prop :=
  fn t' = fn t /\ stage t' = stage t /\ fast_dev_run t' = fast_dev_run t
  /\ is_distributed t' = is_distributed t
  /\ train_source_is_module t' = train_source_is_module t
  /\ source_dataloaders t' = source_dataloaders t
  /\ default_root_dir t' = default_root_dir t
  /\ logger t' = logger t /\ callbacks t' = callbacks t
  /\ progress_bar_callback t' = progress_bar_callback t
  /\ (forall q, limit_batches t' q = limit_batches t q)
  /\ train_dataloader t' = train_dataloader t
  /\ eval_dataloaders t' = eval_dataloaders t
  /\ lightning_module t' = lightning_module t.

(** The parts of the trainer that neither the trial settings nor their
    restoration write to. *)
Definition same_fixed (t t' : Trainer) : Prop :=
  fn t' = fn t /\ stage t' = stage t /\ fast_dev_run t' = fast_dev_run t
  /\ is_distributed t' = is_distributed t
  /\ train_source_is_module t' = train_source_is_module t
  /\ source_dataloaders t' = source_dataloaders t
  /\ default_root_dir t' = default_root_dir t
  /\ progress_bar_callback t' = progress_bar_callback t
  /\ train_dataloader t' = train_dataloader t
  /\ eval_dataloaders t' = eval_dataloaders t
  /\ lightning_module t' = lightning_module t.

(** Trainer [t'] is [t] under the trial settings of finder [f], in a phase
    that drives loop [l] and limits the batches of prefix [p]. *)
Definition trial_settings (f : BatchSizeFinder) (l : LoopId) (p : Prefix)
    (t t' : Trainer) : Prop :=
  logger t' = match logger t with Some _ => Some DummyLogger | None => None end
  /\ callbacks t' = []
  /\ limit_batches t' p = IntLimit (steps_per_trial f)
  /\ (forall q, q <> p -> limit_batches t' q = limit_batches t q)
  /\ loops t' l = (if bool_decide (fn t = TrainerFn.FITTING)
                   then set_max_steps (steps_per_trial f) (loops t l)
                   else match verbose (loops t l) with
                        | Some _ => set_verbose false (loops t l)
                        | None => loops t l
                        end)
  /\ (forall l', l' <> l -> loops t' l' = loops t l')
  /\ same_fixed t t'.

(** Trainer [t'] is [t] with the values recorded about [t0] put back. *)
Definition put_back (t0 : Trainer) (l : LoopId) (p : Prefix) (t t' : Trainer) : Prop :=
  logger t' = logger t0
  /\ callbacks t' = callbacks t0
  /\ limit_batches t' p = limit_batches t0 p
  /\ (forall q, q <> p -> limit_batches t' q = limit_batches t q)
  /\ progress (loops t' l) = progress (loops t0 l)
  /\ restarting (loops t' l) = false
  /\ max_steps (loops t' l)
     = (if bool_decide (fn t0 = TrainerFn.FITTING)
        then max_steps (loops t0 l) else max_steps (loops t l))
  /\ verbose (loops t' l)
     = (if bool_decide (fn t0 = TrainerFn.FITTING) then verbose (loops t l)
        else match verbose (loops t0 l) with
             | Some b => Some b
             | None => verbose (loops t l)
             end)
  /\ (forall l', l' <> l -> loops t' l' = loops t l')
  /\ same_fixed t t'.

(** Every exception that leaves the computation satisfies [Q]. *)
Definition throws (Q : exn -> Prop) {A} (m : M A) : Prop :=
  forall w e w', m w = (Raised e, w') -> Q e.

Definition not_tuner_exit (e : exn) : Prop :=
  match e with _TunerExitException => False | _ => True end.

(** Collaborators whose trials do not raise [_TunerExitException], the
    exception by which the finder itself ends a run early. *)
Definition trials_never_exit (E : Env) : Prop :=
  forall l t e, fst (env_run E l t) = Some e -> not_tuner_exit e.

(** Growth mode from 2 over 1000 samples, no trial ever out of memory, by a
    finder that is set to end the run after the search. *)
Definition early_exit_world : World :=
  {| trainer := fit_trainer 1000;
     self := {| mode := "power"; steps_per_trial := 3; init_val := 2; max_trials := 25;
                batch_arg_name := "batch_size"; optimal_batch_size := 2;
                _early_exit := true; _dumped_params := ∅ |};
     files := ∅; calls := [] |}.

Definition early_exit_run : Outcome unit * World :=
  scale_batch_size (synthetic "batch_size" (RuntimeError true) None) 0 early_exit_world.

(** The dataloaders that [_reset_dataloaders] resets in the phase of [t]:
    training and validation during a fit, the stage's own otherwise. *)
Definition reset_prefix (t : Trainer) (p : Prefix) : Prop :=
  if bool_decide (fn t = TrainerFn.FITTING) then p = train \/ p = val
  else RunningStage.dataloader_prefix (stage t) = Some p.

(** A call that belongs to the phase of [t]: a run of the phase's loop or a
    reset of the phase's dataloaders; calls to the checkpoint collaborator
    belong to every phase. *)
Definition phase_call (t : Trainer) (c : Call) : Prop :=
  match c with
  | loop_run_call l => phase_loop t = Some l
  | reset_dataloader_call p => reset_prefix t p
  | _ => True
  end.

(** The trainer stays in its phase, and the call log grows by calls of that
    phase only. *)
Definition in_phase (w w' : World) : Prop :=
  same_phase w w'
  /\ exists cs, calls w' = (calls w ++ cs)%list /\ Forall (phase_call (trainer w)) cs.

(** The trainer stays in its phase, and no collaborator is called. *)
Definition no_call (w w' : World) : Prop :=
  same_phase w w' /\ calls w' = calls w.

(** The [RuntimeError] is not an out-of-memory error. *)
Definition not_oom (oom : bool) (w : World) : Prop := oom = false.

(** No more trials than the budget that the finder holds at the start. *)
Definition within_budget (w w' : World) : Prop :=
  runs w <= runs w' <= runs w + Z.max 0 (max_trials (self w)).

(** Collaborators that leave the field [name] of the model alone. *)
Definition keeps_field (E : Env) (name : string) : Prop :=
  forall t,
    (forall l, lightning_getattr (lightning_module (snd (env_run E l t))) name
               = lightning_getattr (lightning_module t) name)
    /\ (forall p, lightning_getattr (lightning_module (env_reset E p t)) name
                  = lightning_getattr (lightning_module t) name).

(** The finder and the field [name] of the model are as before. *)
Definition same_field (name : string) (w w' : World) : Prop :=
  self w' = self w
  /\ lightning_getattr (lightning_module (trainer w')) name
     = lightning_getattr (lightning_module (trainer w)) name.

(** The finder's batch size field is [name], and the model holds [n] there. *)
Definition holds (name : string) (n : Z) (w : World) : Prop :=
  batch_arg_name (self w) = name
  /\ lightning_getattr (lightning_module (trainer w)) name = inr n.

(** [x] is a binary64 number: [m * 2^e] with [|m| < 2^53] and
    [-1074 <= e <= 971]. *)
Definition binary64 (x : Q) : Prop :=
  exists m e : Z,
    Z.abs m < 2 ^ 53 /\ -1074 <= e <= 971 /\ (x == inject_Z m * 2 ^ e)%Q.

(** The float product [batch_size * factor] of the source is exact: the batch
    size converts to a float without rounding, the factor is a float, and
    their product is a float, so that the binary64 multiplication returns
    it. *)
Definition exact_product (batch_size : Z) (factor : Q) : Prop :=
  binary64 (inject_Z batch_size) /\ binary64 factor
  /\ binary64 (inject_Z batch_size * factor).

(** A computation that cannot run out of fuel. *)
Definition fuel_free {A} (m : M A) : Prop := forall w, fst (m w) <> OutOfFuel.

(** [m'] gives what [m] gives wherever [m] does not run out of fuel. *)
Definition refines {A} (m m' : M A) : Prop :=
  forall w r w', m w = (r, w') -> r <> OutOfFuel -> m' w = (r, w').

(** A computation on fuel that ends on every world, given enough fuel. *)
Definition ends {A} (m : nat -> M A) : Prop :=
  forall w, exists fuel, fst (m fuel w) <> OutOfFuel.

(** At most [k] more trials in the call log. *)
Definition at_most_runs (k : Z) (w w' : World) : Prop :=
  runs w <= runs w' <= runs w + k.

(** No trial run, and the same trial budget. *)
Definition steady (w w' : World) : Prop :=
  runs w' = runs w /\ max_trials (self w') = max_trials (self w).

(** The world with [D] in place of the finder's dumped parameters. *)
Definition with_dumped (D : gmap string DumpedValue) (w : World) : World :=
  {| trainer := trainer w; self := set_dumped_params D (self w);
     files := files w; calls := calls w |}.

Definition set_fast_dev_run (b : bool) (t : Trainer) : Trainer :=
  {| fn := fn t; stage := stage t; fast_dev_run := b;
     is_distributed := is_distributed t; train_source_is_module := train_source_is_module t;
     source_dataloaders := source_dataloaders t; default_root_dir := default_root_dir t;
     logger := logger t; callbacks := callbacks t; progress_bar_callback := progress_bar_callback t;
     limit_batches := limit_batches t; loops := loops t; train_dataloader := train_dataloader t;
     eval_dataloaders := eval_dataloaders t; lightning_module := lightning_module t |}.

(** A standalone validation over a dataset of [L] samples; the validation
    loop has the [verbose] attribute, switched on. *)
Definition validate_trainer (L : Z) : Trainer :=
  let d := {| has_len_all_ranks := true; dl_len := L; dataset_len := L |} in
  {| fn := TrainerFn.VALIDATING; stage := RunningStage.VALIDATING; fast_dev_run := false;
     is_distributed := false; train_source_is_module := true;
     source_dataloaders := fun _ => 1%nat; default_root_dir := "/tmp/run";
     logger := Some (UserLogger "tensorboard");
     callbacks := ["BatchSizeFinder"];
     progress_bar_callback := Some true;
     limit_batches := fun _ => FloatLimit 1;
     loops := fun _ => {| progress := {["passes" := 0]}; restarting := true;
                          max_steps := -1; verbose := Some true |};
     train_dataloader := d;
     eval_dataloaders := fun _ => [d];
     lightning_module := {| attrs := ∅; hparams := Some {["batch_size" := 1]};
                            weights := [2; 7; 1] |} |}.

Definition validate_world (mode : string) (init_val max_trials L : Z) : World :=
  {| trainer := validate_trainer L; self := finder mode init_val max_trials;
     files := ∅; calls := [] |}.

(** Growth mode in a standalone validation, from 2, with every trial above
    batch size 20 out of memory. *)
Definition validate_run : Outcome unit * World :=
  scale_batch_size (synthetic "batch_size" (RuntimeError true) (Some 20)) 0
    (validate_world "power" 2 3 1000).

(** ** Reasoning about computations *)

Lemma bind_returned {A B} (m : M A) (k : A -> M B) w a w' :
  m w = (Returned a, w') -> bind m k w = k a w'.
Proof. unfold bind. intros ->. reflexivity. Qed.

Lemma bind_raised {A B} (m : M A) (k : A -> M B) w e w' :
  m w = (Raised e, w') -> bind m k w = (Raised e, w').
Proof. unfold bind. intros ->. reflexivity. Qed.

Lemma bind_out_of_fuel {A B} (m : M A) (k : A -> M B) w w' :
  m w = (OutOfFuel, w') -> bind m k w = (OutOfFuel, w').
Proof. unfold bind. intros ->. reflexivity. Qed.

Lemma try_except_returned {A} (body : M A) handler w a w1 :
  body w = (Returned a, w1) -> try_except_RuntimeError body handler w = (Returned a, w1).
Proof. unfold try_except_RuntimeError. intros ->. reflexivity. Qed.

Lemma try_except_caught {A} (body : M A) handler w oom w1 :
  body w = (Raised (RuntimeError oom), w1) ->
  try_except_RuntimeError body handler w = handler (RuntimeError oom) w1.
Proof. unfold try_except_RuntimeError. intros ->. reflexivity. Qed.

(** ** The hyperparameter store *)

Lemma lightning_hasattr_getattr m name :
  lightning_hasattr m name = true <-> exists b, lightning_getattr m name = inr b.
Proof.
  unfold lightning_hasattr, hasattr, in_hparams, lightning_getattr.
  destruct (attrs m !! name) as [a|] eqn:Ha.
  - split; [eauto | intros _; rewrite bool_decide_eq_true_2; eauto].
  - rewrite bool_decide_eq_false_2 by (intros [? ?]; discriminate). simpl.
    destruct (hparams m) as [h|]; [|split; [discriminate | intros [? ?]; discriminate]].
    destruct (h !! name) eqn:Hh.
    + rewrite bool_decide_eq_true_2 by eauto. split; eauto.
    + rewrite bool_decide_eq_false_2 by (intros [? ?]; discriminate).
      split; [discriminate | intros [? ?]; discriminate].
Qed.

Lemma lightning_setattr_getattr m name b v :
  lightning_getattr m name = inr b ->
  exists m', lightning_setattr m name v = inr m'
             /\ lightning_getattr m' name = inr v
             /\ weights m' = weights m.
Proof.
  unfold lightning_getattr, lightning_setattr.
  destruct (attrs m !! name) eqn:Ha.
  - intros _. eexists; split; [reflexivity|]. simpl. rewrite lookup_insert_eq. auto.
  - destruct (hparams m) as [h|]; [|discriminate].
    destruct (h !! name) eqn:Hh; [|discriminate].
    intros _. eexists; split; [reflexivity|]. simpl. rewrite Ha, lookup_insert_eq. auto.
Qed.

(** ** The adjuster *)

Lemma adjust_batch_size_run factor value desc w b d :
  batch_size_of w = inr b ->
  relevant_dataloader (trainer w) = Some d ->
  let n := clamp d (proposal b factor value) in
  exists m',
    lightning_setattr (lightning_module (trainer w)) (batch_arg_name (self w)) n = inr m'
    /\ _adjust_batch_size factor value desc w
       = (Returned (n, negb (n =? b)), with_module m' w).
Proof.
  intros Hb Hd n.
  destruct (lightning_setattr_getattr _ _ _ n Hb) as (m' & Hset & _ & _).
  exists m'. split; [exact Hset|].
  unfold batch_size_of in Hb.
  unfold _adjust_batch_size, bind, get_trainer, get_self. simpl. rewrite Hb. simpl.
  fold (proposal b factor value).
  assert (Hclamp : forall d0, (if negb (_is_valid_batch_size (proposal b factor value) d0)
                    then Z.min (proposal b factor value) (dataset_len d0)
                    else proposal b factor value) = clamp d0 (proposal b factor value)).
  { intros d0. unfold clamp, _is_valid_batch_size.
    rewrite negb_orb, negb_involutive, Z.leb_antisym, negb_involutive. reflexivity. }
  unfold relevant_dataloader in Hd.
  destruct (bool_decide (fn (trainer w) = TrainerFn.FITTING)).
  - injection Hd as <-.
    pose proof (Hclamp (train_dataloader (trainer w))) as Hc.
    destruct (negb (_is_valid_batch_size _ _)); simpl; rewrite Hc; fold n;
      rewrite Hset; reflexivity.
  - unfold stage_prefix.
    destruct (RunningStage.dataloader_prefix (stage (trainer w))) as [p|]; [|discriminate].
    destruct p; try discriminate; simpl;
      (destruct (eval_dataloaders (trainer w) _) as [|d0 ds]; [discriminate|];
       simpl in Hd; injection Hd as ->;
       pose proof (Hclamp d) as Hc;
       destruct (negb (_is_valid_batch_size _ _)); simpl; rewrite Hc; fold n;
       rewrite Hset; reflexivity).
Qed.


Lemma binary64_int (b : Z) : Z.abs b < 2 ^ 53 -> binary64 (inject_Z b).
Proof.
  intros Hb. exists b, 0. split; [exact Hb|]. split; [lia|].
  simpl. symmetry. apply Qmult_1_r.
Qed.

(** The products that the search itself asks for, by [1.0] and by [2.0], are
    exact on every batch size below 2^53. *)
Lemma exact_product_same (b : Z) : Z.abs b < 2 ^ 53 -> exact_product b 1.
Proof.
  intros Hb. split; [exact (binary64_int b Hb)|]. split.
  - exists 1, 0. split; [simpl; lia|]. split; [lia | reflexivity].
  - exists b, 0. split; [exact Hb|]. split; [lia | reflexivity].
Qed.

Lemma exact_product_double (b : Z) : Z.abs b < 2 ^ 53 -> exact_product b 2.
Proof.
  intros Hb. split; [exact (binary64_int b Hb)|]. split.
  - exists 1, 1. split; [simpl; lia|]. split; [lia | reflexivity].
  - exists b, 1. split; [exact Hb|]. split; [lia | reflexivity].
Qed.



(** C9: two calls of the adjuster in a row with the same explicit value, on
    unchanged dataloaders, give [changed = False] the second time. *)
Theorem adjust_batch_size_idempotent
    (w : World) (v : Z) (factor1 factor2 : Q) (desc1 desc2 : option string)
    (current : Z) (d : DataLoader) :
  batch_size_of w = inr current ->
  relevant_dataloader (trainer w) = Some d ->
  exists n changed w1 w2,
    _adjust_batch_size factor1 (Some v) desc1 w = (Returned (n, changed), w1)
    /\ _adjust_batch_size factor2 (Some v) desc2 w1 = (Returned (n, false), w2).
Proof.
  intros Hb Hd.
  destruct (adjust_batch_size_run factor1 (Some v) desc1 w current d Hb Hd)
    as (m1 & Hset1 & Hrun1).
  destruct (lightning_setattr_getattr _ _ _ (clamp d (proposal current factor1 (Some v))) Hb)
    as (m1' & Hset1' & Hget1 & _).
  unfold batch_size_of in Hb. rewrite Hset1 in Hset1'. injection Hset1' as <-.
  assert (Hb1 : batch_size_of (with_module m1 w) = inr (clamp d v)) by exact Hget1.
  destruct (adjust_batch_size_run factor2 (Some v) desc2 (with_module m1 w) (clamp d v) d
              Hb1 Hd) as (m2 & _ & Hrun2).
  simpl in Hrun1, Hrun2. rewrite Z.eqb_refl in Hrun2.
  eauto 10.
Qed.

Lemma adjust_batch_size_idempotent_witness :
  exists n changed w1 w2,
    _adjust_batch_size 1 (Some 2000) None (fit_world "power" 2 25 1000)
      = (Returned (n, changed), w1)
    /\ _adjust_batch_size 1 (Some 2000) None w1 = (Returned (n, false), w2).
Proof.
  refine (adjust_batch_size_idempotent (fit_world "power" 2 25 1000) 2000 1 1 None None 1
            {| has_len_all_ranks := true; dl_len := 1000; dataset_len := 1000 |} _ _).
  - reflexivity.
  - reflexivity.
Defined.

(** ** Hooks *)

(** C10: [on_validation_start] returns at once, with no search and the world
    exactly as it was, whenever the trainer is sanity checking or its current
    function is not "validate" (such as the validation run inside a fit). *)
Theorem on_validation_start_guard (E : Env) (fuel : nat) (w : World) :
  sanity_checking (trainer w) = true \/ fn (trainer w) <> TrainerFn.VALIDATING ->
  on_validation_start E fuel w = (Returned tt, w).
Proof.
  intros H. unfold on_validation_start, bind, get_trainer.
  destruct H as [-> | H]; [reflexivity|].
  rewrite (bool_decide_eq_false_2 _ H), orb_true_r. reflexivity.
Qed.

Lemma on_validation_start_guard_witness :
  on_validation_start (synthetic "batch_size" (RuntimeError true) None) 0 (fit_world "power" 2 25 1000)
  = (Returned tt, fit_world "power" 2 25 1000).
Proof.
  apply on_validation_start_guard. right. discriminate.
Defined.

(** C8: when the configured field is neither an attribute of the model nor a
    key of its [hparams], [setup] raises, and it does so with the world
    untouched: no checkpoint was written and no loop was run.  The exception
    is a [MisconfigurationException] in every stage that names dataloaders;
    [setup] has no loop and no handler, so nothing is tried again. *)
Theorem setup_missing_field (stage_arg : option string) (w : World) :
  hasattr (lightning_module (trainer w)) (batch_arg_name (self w)) = false ->
  in_hparams (lightning_module (trainer w)) (batch_arg_name (self w)) = false ->
  exists e,
    setup stage_arg w = (Raised e, w)
    /\ (is_Some (RunningStage.dataloader_prefix (stage (trainer w))) ->
        exists msg, e = MisconfigurationException msg).
Proof.
  intros Hm Hh. unfold setup, bind, get_trainer, get_self, stage_prefix, lightning_hasattr.
  rewrite Hm, Hh. simpl.
  destruct (is_distributed (trainer w)); [unfold raise; eauto|].
  destruct (RunningStage.dataloader_prefix (stage (trainer w))) as [p|]; simpl.
  - destruct (train_source_is_module (trainer w)); simpl; [|unfold raise; eauto].
    destruct (negb (bool_decide (stage_arg = Some "fit")) && _); simpl; unfold raise; eauto.
  - eexists; split; [reflexivity|]. intros [? ?]; discriminate.
Qed.

Lemma setup_missing_field_witness :
  exists e,
    setup (Some "fit") (with_module {| attrs := ∅; hparams := Some ∅; weights := [] |}
                          (fit_world "power" 2 25 1000))
    = (Raised e, with_module {| attrs := ∅; hparams := Some ∅; weights := [] |}
                   (fit_world "power" 2 25 1000))
    /\ (is_Some (Some train) -> exists msg, e = MisconfigurationException msg).
Proof.
  refine (setup_missing_field (Some "fit")
            (with_module {| attrs := ∅; hparams := Some ∅; weights := [] |}
               (fit_world "power" 2 25 1000)) _ _).
  - reflexivity.
  - reflexivity.
Defined.

(** ** What the search preserves *)

Section Preserves.
Variable R : World -> World -> Prop.
Hypothesis R_refl : forall w, R w w.
Hypothesis R_trans : forall w1 w2 w3, R w1 w2 -> R w2 w3 -> R w1 w3.

Lemma preserves_ret {A} (a : A) : preserves R (ret a).
Proof. intros w r w' H. injection H as _ <-. apply R_refl. Qed.

Lemma preserves_raise {A} e : preserves R (@raise A e).
Proof. intros w r w' H. injection H as _ <-. apply R_refl. Qed.

Lemma preserves_out_of_fuel {A} : preserves R (@out_of_fuel A).
Proof. intros w r w' H. injection H as _ <-. apply R_refl. Qed.

Lemma preserves_lift {A} (x : exn + A) : preserves R (lift x).
Proof. destruct x; [apply preserves_raise | apply preserves_ret]. Qed.

Lemma preserves_get_trainer : preserves R get_trainer.
Proof. intros w r w' H. injection H as _ <-. apply R_refl. Qed.

Lemma preserves_get_self : preserves R get_self.
Proof. intros w r w' H. injection H as _ <-. apply R_refl. Qed.

Lemma preserves_bind {A B} (m : M A) (k : A -> M B) :
  preserves R m -> (forall a, preserves R (k a)) -> preserves R (bind m k).
Proof.
  intros Hm Hk w r w' H. unfold bind in H.
  destruct (m w) as [[a|e|] w1] eqn:E1.
  - eapply R_trans; [eapply Hm, E1 | eapply Hk, H].
  - injection H as _ <-. eapply Hm, E1.
  - injection H as _ <-. eapply Hm, E1.
Qed.

Lemma preserves_try_except {A} (body : M A) (handler : exn -> M A) :
  preserves R body -> (forall e, preserves R (handler e)) ->
  preserves R (try_except_RuntimeError body handler).
Proof.
  intros Hb Hh w r w' H. unfold try_except_RuntimeError in H.
  destruct (body w) as [[a|e|] w1] eqn:E1.
  - injection H as _ <-. eapply Hb, E1.
  - destruct e; try (injection H as _ <-; eapply Hb, E1).
    eapply R_trans; [eapply Hb, E1 | eapply Hh, H].
  - injection H as _ <-. eapply Hb, E1.
Qed.

Lemma preserves_dumped key : preserves R (dumped key).
Proof.
  unfold dumped. apply preserves_bind; [apply preserves_get_self|].
  intros f. destruct (_ !! key); [apply preserves_ret | apply preserves_raise].
Qed.

End Preserves.

Lemma frame_refl w : frame w w.
Proof.
  repeat split. exists []. split; [symmetry; apply app_nil_r | constructor].
Qed.

Lemma frame_trans w1 w2 w3 : frame w1 w2 -> frame w2 w3 -> frame w1 w3.
Proof.
  intros (Hs1 & Hf1 & cs1 & Hc1 & Hall1) (Hs2 & Hf2 & cs2 & Hc2 & Hall2).
  split; [congruence|]. split; [congruence|].
  exists (cs1 ++ cs2)%list. split.
  - rewrite Hc2, Hc1. symmetry. apply app_assoc.
  - apply Forall_app; auto.
Qed.

Lemma same_phase_refl w : same_phase w w.
Proof. split; reflexivity. Qed.

Lemma same_phase_trans w1 w2 w3 : same_phase w1 w2 -> same_phase w2 w3 -> same_phase w1 w3.
Proof. intros [? ?] [? ?]. split; congruence. Qed.

Lemma frame_modify_trainer f : preserves frame (modify_trainer f).
Proof.
  intros w r w' H. injection H as _ <-. repeat split.
  exists []. split; [symmetry; apply app_nil_r | constructor].
Qed.

Lemma frame_log_call c : search_call c -> preserves frame (log_call c).
Proof.
  intros Hc w r w' H. injection H as _ <-. repeat split.
  exists [c]. split; [reflexivity | repeat constructor; exact Hc].
Qed.

Lemma same_phase_modify_trainer f :
  (forall t, fn (f t) = fn t /\ stage (f t) = stage t) ->
  preserves same_phase (modify_trainer f).
Proof. intros Hf w r w' H. injection H as _ <-. apply Hf. Qed.

Lemma same_phase_log_call c : preserves same_phase (log_call c).
Proof. intros w r w' H. injection H as _ <-. split; reflexivity. Qed.

(** Decomposes a goal [preserves R m] along the structure of [m]. *)
Ltac preserves_steps R_refl R_trans :=
  repeat first
    [ assumption
    | match goal with H : _ |- preserves _ _ => solve [apply H] end
    | apply (preserves_dumped _ R_refl R_trans)
    | apply (preserves_bind _ R_trans); [|intros ?]
    | apply (preserves_try_except _ R_trans); [|intros ?]
    | apply (preserves_ret _ R_refl)
    | apply (preserves_raise _ R_refl)
    | apply (preserves_out_of_fuel _ R_refl)
    | apply (preserves_lift _ R_refl)
    | apply (preserves_get_trainer _ R_refl)
    | apply (preserves_get_self _ R_refl)
    | apply (preserves_dumped _ R_refl R_trans)
    | assumption
    | match goal with
      | |- preserves _ (if ?b then _ else _) => destruct b
      | |- preserves _ (match ?x with _ => _ end) => destruct x
      | |- preserves _ (let '(_, _) := ?x in _) => destruct x
      end ].

Ltac frame_steps :=
  repeat first
    [ progress preserves_steps frame_refl frame_trans
    | apply frame_modify_trainer
    | apply frame_log_call; exact I ].

Ltac same_phase_steps :=
  repeat first
    [ progress preserves_steps same_phase_refl same_phase_trans
    | apply same_phase_log_call
    | apply same_phase_modify_trainer; intros ?; split; reflexivity ].

Lemma frame_adjust_batch_size factor value desc :
  preserves frame (_adjust_batch_size factor value desc).
Proof. unfold _adjust_batch_size, stage_prefix, prefix_dataloaders. frame_steps. Qed.

Lemma same_phase_adjust_batch_size factor value desc :
  preserves same_phase (_adjust_batch_size factor value desc).
Proof. unfold _adjust_batch_size, stage_prefix, prefix_dataloaders. same_phase_steps. Qed.

Lemma lightning_getattr_exn m name e :
  lightning_getattr m name = inl e -> not_runtime_error e.
Proof.
  unfold lightning_getattr.
  repeat match goal with |- context [match ?x with _ => _ end] => destruct x end;
    intros H; inversion H; exact I.
Qed.

Lemma lightning_setattr_exn m name v e :
  lightning_setattr m name v = inl e -> not_runtime_error e.
Proof.
  unfold lightning_setattr.
  repeat match goal with |- context [match ?x with _ => _ end] => destruct x end;
    intros H; inversion H; exact I.
Qed.

Lemma stage_loop_exn s e : RunningStage.loop s = inl e -> not_runtime_error e.
Proof. destruct s; intros H; inversion H; exact I. Qed.

Section Raising.
Context (P : bool -> World -> Prop).

Lemma raising_ret {A} (a : A) : raising P (ret a).
Proof. intros w r w' oom H ->. discriminate. Qed.

Lemma raising_raise {A} e : not_runtime_error e -> raising P (@raise A e).
Proof. intros He w r w' oom H ->. injection H as -> _. destruct He. Qed.

Lemma raising_out_of_fuel {A} : raising P (@out_of_fuel A).
Proof. intros w r w' oom H ->. discriminate. Qed.

Lemma raising_lift {A} (x : exn + A) :
  (forall e, x = inl e -> not_runtime_error e) -> raising P (lift x).
Proof. destruct x; intros H; [apply raising_raise; auto | apply raising_ret]. Qed.

Lemma raising_get_trainer : raising P get_trainer.
Proof. intros w r w' oom H ->. discriminate. Qed.

Lemma raising_get_self : raising P get_self.
Proof. intros w r w' oom H ->. discriminate. Qed.

Lemma raising_modify_trainer f : raising P (modify_trainer f).
Proof. intros w r w' oom H ->. discriminate. Qed.

Lemma raising_modify_self f : raising P (modify_self f).
Proof. intros w r w' oom H ->. discriminate. Qed.

Lemma raising_log_call c : raising P (log_call c).
Proof. intros w r w' oom H ->. discriminate. Qed.

Lemma raising_bind {A B} (m : M A) (k : A -> M B) :
  raising P m -> (forall a, raising P (k a)) -> raising P (bind m k).
Proof.
  intros Hm Hk w r w' oom H Hr. unfold bind in H.
  destruct (m w) as [[a|e|] w1] eqn:E1.
  - eapply Hk; eassumption.
  - injection H as <- <-. eapply Hm; [eassumption|]. inversion Hr. reflexivity.
  - injection H as <- <-. discriminate.
Qed.

Lemma raising_try_except {A} (body : M A) (h : exn -> M A) :
  raising P body ->
  (forall e, raising P (h e)) ->
  raising P (try_except_RuntimeError body (fun e => if is_oom_error e then h e else raise e)).
Proof.
  intros Hb Hh w r w' oom H Hr. unfold try_except_RuntimeError in H.
  destruct (body w) as [[a|e|] w1] eqn:E1.
  - injection H as <- <-. discriminate.
  - destruct e; try (injection H as <- <-; discriminate).
    simpl in H. destruct oom0.
    + eapply Hh; eassumption.
    + injection H as <- <-. eapply Hb; [eassumption|]. inversion Hr. reflexivity.
  - injection H as <- <-. discriminate.
Qed.

Lemma raising_dumped key : raising P (dumped key).
Proof.
  unfold dumped. apply raising_bind; [apply raising_get_self|].
  intros f. destruct (_ !! key); [apply raising_ret | apply raising_raise; exact I].
Qed.

End Raising.

Lemma rt_loop_run E l : raises_from_trial E (loop_run E l).
Proof.
  intros w r w' oom H ->. unfold loop_run, bind, log_call in H. simpl in H.
  destruct (env_run E l (trainer w)) as [[e|] t'] eqn:Erun; [|discriminate].
  injection H as -> <-. exists l, (trainer w), (calls w). simpl. auto.
Qed.

Ltac raising_steps :=
  unfold raises_from_trial, never_runtime_error in *;
  repeat first
    [ assumption
    | match goal with H : _ |- raising _ _ => solve [apply H] end
    | apply rt_loop_run
    | apply raising_dumped
    | apply raising_bind; [|intros ?]
    | apply raising_try_except; [|intros ?]
    | apply raising_ret
    | apply raising_out_of_fuel
    | apply raising_raise; exact I
    | apply raising_lift; first [apply lightning_getattr_exn | apply lightning_setattr_exn
                                | apply stage_loop_exn]
    | apply raising_get_trainer
    | apply raising_get_self
    | apply raising_modify_trainer
    | apply raising_modify_self
    | apply raising_log_call
    | match goal with
      | |- raising _ (if ?b then _ else _) => destruct b
      | |- raising _ (match ?x with _ => _ end) => destruct x
      | |- raising _ (let '(_, _) := ?x in _) => destruct x
      end ].

Lemma raising_adjust_batch_size P factor value desc :
  raising P (_adjust_batch_size factor value desc).
Proof. unfold _adjust_batch_size, stage_prefix, prefix_dataloaders. raising_steps. Qed.

Section Search.
Context (E : Env).

Lemma rt_try_loop_run : raises_from_trial E (_try_loop_run E).
Proof. unfold _try_loop_run, stage_loop, as_state_dict, modify_loop. raising_steps. Qed.

Lemma rt_reset_dataloaders : raises_from_trial E (_reset_dataloaders E).
Proof. unfold _reset_dataloaders, reset_dataloader, stage_prefix. raising_steps. Qed.

Lemma rt_power_iteration : raises_from_trial E (power_iteration E).
Proof.
  unfold power_iteration, _collect_garbage.
  pose proof rt_try_loop_run. pose proof rt_reset_dataloaders.
  pose proof (raising_adjust_batch_size (trial_failed E)). raising_steps.
Qed.

Lemma rt_power_loop trials new_size : raises_from_trial E (power_loop E trials new_size).
Proof.
  revert new_size. induction trials as [|n IH]; intros new_size; simpl.
  - raising_steps.
  - pose proof rt_power_iteration. raising_steps.
Qed.

Lemma rt_binary_iteration v : raises_from_trial E (binary_iteration E v).
Proof.
  unfold binary_iteration, _collect_garbage.
  pose proof rt_try_loop_run. pose proof rt_reset_dataloaders.
  pose proof (raising_adjust_batch_size (trial_failed E)). raising_steps.
Qed.

Lemma rt_binary_loop fuel v : raises_from_trial E (binary_loop E fuel v).
Proof.
  revert v. induction fuel as [|n IH]; intros v; simpl.
  - raising_steps.
  - pose proof rt_binary_iteration. raising_steps.
Qed.

Lemma frame_loop_run l : preserves frame (loop_run E l).
Proof.
  intros w r w' H. unfold loop_run, bind, log_call in H. simpl in H.
  destruct (env_run E l (trainer w)) as [re t'].
  injection H as _ <-. repeat split.
  exists [loop_run_call l]. split; [reflexivity | repeat constructor].
Qed.

Lemma frame_try_loop_run : preserves frame (_try_loop_run E).
Proof.
  unfold _try_loop_run, stage_loop, as_state_dict, modify_loop.
  pose proof frame_loop_run. frame_steps.
Qed.

Lemma frame_reset_dataloaders : preserves frame (_reset_dataloaders E).
Proof. unfold _reset_dataloaders, reset_dataloader, stage_prefix. frame_steps. Qed.

Lemma frame_power_iteration : preserves frame (power_iteration E).
Proof.
  unfold power_iteration, _collect_garbage.
  pose proof frame_try_loop_run. pose proof frame_reset_dataloaders.
  pose proof frame_adjust_batch_size. frame_steps.
Qed.

Lemma frame_power_loop trials new_size : preserves frame (power_loop E trials new_size).
Proof.
  revert new_size. induction trials as [|n IH]; intros new_size; simpl.
  - frame_steps.
  - pose proof frame_power_iteration. frame_steps.
Qed.

Lemma frame_binary_iteration v : preserves frame (binary_iteration E v).
Proof.
  unfold binary_iteration, _collect_garbage.
  pose proof frame_try_loop_run. pose proof frame_reset_dataloaders.
  pose proof frame_adjust_batch_size. frame_steps.
Qed.

Lemma frame_binary_loop fuel v : preserves frame (binary_loop E fuel v).
Proof.
  revert v. induction fuel as [|n IH]; intros v; simpl.
  - frame_steps.
  - pose proof frame_binary_iteration. frame_steps.
Qed.

End Search.

(** ** The steps of [scale_batch_size] around the search *)

Lemma scale_batch_size_unfold E fuel w :
  fast_dev_run (trainer w) = false ->
  scale_batch_size E fuel w
  = (save_checkpoint (ckpt_path E (trainer w)) ;;
     _dump_params ;;
     _reset_params ;;
     progress_bar_disable ;;
     r <- _adjust_batch_size 1 (Some (init_val (self w))) None ;;
     new_size <- search E fuel (self w) (fst r) ;;
     finish (ckpt_path E (trainer w)) new_size) w.
Proof.
  intros H. unfold scale_batch_size at 1. unfold bind at 1 2. simpl. rewrite H. reflexivity.
Qed.

Lemma save_checkpoint_run path w :
  save_checkpoint path w
  = (Returned tt,
     {| trainer := trainer w; self := self w;
        files := <[path := weights (lightning_module (trainer w))]> (files w);
        calls := (calls w ++ [save_checkpoint_call path])%list |}).
Proof. reflexivity. Qed.

Lemma phase_valid_cases t :
  (exists l p, phase_loop t = Some l /\ phase_prefix t = Some p)
  \/ (fn t <> TrainerFn.FITTING /\ exists e, RunningStage.loop (stage t) = inl e).
Proof.
  unfold phase_loop, phase_prefix. case_bool_decide as Hfn; [left; eauto|].
  destruct (stage t); simpl; eauto 10.
Qed.

Lemma dump_params_run w l p :
  phase_loop (trainer w) = Some l ->
  phase_prefix (trainer w) = Some p ->
  exists D,
    snapshot_of (trainer w) l p D
    /\ _dump_params w
       = (Returned tt,
          {| trainer := trainer w; self := set_dumped_params D (self w);
             files := files w; calls := calls w |}).
Proof.
  unfold phase_loop, phase_prefix, snapshot_of, _dump_params, bind, get_trainer,
    stage_loop, stage_prefix.
  simpl. destruct (bool_decide (fn (trainer w) = TrainerFn.FITTING)); simpl.
  - intros [= <-] [= <-]. eexists. split; [|reflexivity]. simpl.
    repeat split; reflexivity.
  - destruct (stage (trainer w)); simpl; try discriminate;
      intros [= <-] [= <-];
      match goal with
      | |- context [verbose ?x] => destruct (verbose x) as [vb|] eqn:Hv
      end; simpl;
      (eexists; split; [|reflexivity]; simpl; repeat split; reflexivity).
Qed.

Lemma dump_params_invalid w e :
  fn (trainer w) <> TrainerFn.FITTING ->
  RunningStage.loop (stage (trainer w)) = inl e ->
  exists w', _dump_params w = (Raised e, w').
Proof.
  intros Hfn Hl. unfold _dump_params, bind, get_trainer, stage_loop. simpl.
  rewrite (bool_decide_eq_false_2 _ Hfn), Hl. simpl. eauto.
Qed.

Lemma reset_params_run w l p :
  phase_loop (trainer w) = Some l ->
  phase_prefix (trainer w) = Some p ->
  exists t',
    _reset_params w
    = (Returned tt, {| trainer := t'; self := self w; files := files w; calls := calls w |})
    /\ same_model_and_data (trainer w) t'.
Proof.
  unfold phase_loop, phase_prefix, _reset_params, bind, get_trainer, get_self,
    stage_loop, stage_prefix, same_model_and_data.
  simpl. destruct (bool_decide (fn (trainer w) = TrainerFn.FITTING)); simpl.
  - intros _ _. eexists. split; [reflexivity|]. simpl. repeat split; reflexivity.
  - destruct (stage (trainer w)) eqn:Hst; simpl; try discriminate; intros _ _;
      match goal with
      | |- context [verbose ?x] => destruct (verbose x)
      end; simpl;
      (eexists; split; [reflexivity|]; simpl; rewrite ?Hst; repeat split; reflexivity).
Qed.

Lemma restore_params_run w t0 l p :
  snapshot_of t0 l p (_dumped_params (self w)) ->
  fn (trainer w) = fn t0 ->
  stage (trainer w) = stage t0 ->
  phase_loop t0 = Some l ->
  phase_prefix t0 = Some p ->
  exists t',
    _restore_params w
    = (Returned tt, {| trainer := t'; self := self w; files := files w; calls := calls w |})
    /\ restored t0 l p t'
    /\ lightning_module t' = lightning_module (trainer w)
    /\ progress_bar_callback t' = progress_bar_callback (trainer w).
Proof.
  unfold snapshot_of, phase_loop, phase_prefix, restored.
  intros (Hlog & Hcb & Hsd & Hrest) Hfn Hst.
  unfold _restore_params, dumped, bind, get_self, get_trainer, stage_loop, stage_prefix.
  simpl. rewrite Hlog. simpl. rewrite Hcb. simpl. rewrite Hfn, Hst.
  destruct (bool_decide (fn t0 = TrainerFn.FITTING)) eqn:Hfit; simpl.
  - destruct Hrest as (Hms & Hlv & Hverb). intros [= <-] [= <-].
    rewrite Hms. simpl. rewrite Hlv. simpl. rewrite Hsd. simpl. rewrite Hverb.
    eexists. split; [reflexivity|]. simpl. repeat split; reflexivity.
  - destruct Hrest as (Hle & Hverb).
    destruct (stage t0); simpl; try discriminate; intros [= <-] [= <-];
      rewrite Hle; simpl; rewrite Hsd; simpl; rewrite Hverb;
      match goal with
      | |- context [verbose ?x] => destruct (verbose x)
      end; simpl;
      (eexists; split; [reflexivity|]; simpl; repeat split; try reflexivity;
       intros Hf; apply bool_decide_eq_false_1 in Hfit; contradiction).
Qed.

Lemma finish_run path ns w t0 l p c :
  snapshot_of t0 l p (_dumped_params (self w)) ->
  fn (trainer w) = fn t0 ->
  stage (trainer w) = stage t0 ->
  phase_loop t0 = Some l ->
  phase_prefix t0 = Some p ->
  files w !! path = Some c ->
  exists t',
    finish path ns w
    = (if _early_exit (self w) then Raised _TunerExitException else Returned tt,
       {| trainer := t'; self := set_optimal_batch_size ns (self w);
          files := delete path (files w);
          calls := (calls w ++ [restore_checkpoint_call path; remove_checkpoint_call path])%list |})
    /\ restored t0 l p t'
    /\ weights (lightning_module t') = c
    /\ attrs (lightning_module t') = attrs (lightning_module (trainer w))
    /\ hparams (lightning_module t') = hparams (lightning_module (trainer w)).
Proof.
  intros Hsnap Hfn Hst Hl Hp Hfile.
  destruct (restore_params_run w t0 l p Hsnap Hfn Hst Hl Hp)
    as (t1 & Hrun & Hres & Hmod & _).
  unfold finish. rewrite (bind_returned _ _ _ _ _ Hrun).
  unfold progress_bar_enable, restore_checkpoint, remove_checkpoint, log_call,
    modify_trainer, modify_self, get_self, bind. simpl.
  assert (Hfile' : files w !! path = Some c) by exact Hfile.
  destruct (progress_bar_callback t1); simpl; rewrite Hfile'; simpl;
    rewrite <- app_assoc; simpl;
    (eexists; split;
     [destruct (_early_exit (self w)); reflexivity
     | simpl; rewrite ?Hmod; repeat split; apply Hres]).
Qed.

Lemma bind_assoc {A B C} (m : M A) (k : A -> M B) (h : B -> M C) w :
  bind (bind m k) h w = bind m (fun a => bind (k a) h) w.
Proof. unfold bind. destruct (m w) as [[a|e|] w1]; reflexivity. Qed.

Lemma bind_ext {A B} (m : M A) (k k' : A -> M B) w :
  (forall a w1, k a w1 = k' a w1) -> bind m k w = bind m k' w.
Proof. intros H. unfold bind. destruct (m w) as [[a|e|] w1]; auto. Qed.

Lemma scale_batch_size_split E fuel w :
  fast_dev_run (trainer w) = false ->
  scale_batch_size E fuel w
  = (save_checkpoint (ckpt_path E (trainer w)) ;;
     _dump_params ;;
     new_size <- trials E fuel (self w) ;;
     finish (ckpt_path E (trainer w)) new_size) w.
Proof.
  intros H. rewrite (scale_batch_size_unfold E fuel w H).
  apply bind_ext. intros _ w1. apply bind_ext. intros _ w2.
  unfold trials. rewrite bind_assoc. apply bind_ext. intros _ w3.
  rewrite bind_assoc. apply bind_ext. intros _ w4.
  rewrite bind_assoc. apply bind_ext. intros r w5. unfold finish. reflexivity.
Qed.

Lemma frame_quiet w w' : frame w w' -> quiet w w'.
Proof. intros (Hs & Hf & Hc). split; [exact Hf|]. split; [congruence | exact Hc]. Qed.

Lemma quiet_trans w1 w2 w3 : quiet w1 w2 -> quiet w2 w3 -> quiet w1 w3.
Proof.
  intros (Hf1 & Ho1 & cs1 & Hc1 & Hall1) (Hf2 & Ho2 & cs2 & Hc2 & Hall2).
  split; [congruence|]. split; [congruence|].
  exists (cs1 ++ cs2)%list. split.
  - rewrite Hc2, Hc1. symmetry. apply app_assoc.
  - apply Forall_app; auto.
Qed.

Lemma quiet_modify_self f :
  (forall s, optimal_batch_size (f s) = optimal_batch_size s) ->
  preserves quiet (modify_self f).
Proof.
  intros Hf w r w' H. injection H as _ <-. split; [reflexivity|]. split; [apply Hf|].
  exists []. split; [symmetry; apply app_nil_r | constructor].
Qed.

Lemma quiet_dump_params : preserves quiet _dump_params.
Proof.
  assert (Hrefl : forall w, quiet w w) by (intros w; apply frame_quiet, frame_refl).
  unfold _dump_params, set_dumped, stage_loop, stage_prefix.
  repeat first
    [ apply quiet_modify_self; intros ?; reflexivity
    | progress preserves_steps Hrefl quiet_trans ].
Qed.

Lemma never_dump_params : never_runtime_error _dump_params.
Proof. unfold _dump_params, set_dumped, stage_loop, stage_prefix. raising_steps. Qed.

Lemma never_finish path ns : never_runtime_error (finish path ns).
Proof.
  unfold finish, _restore_params, progress_bar_enable, restore_checkpoint, remove_checkpoint,
    modify_loop, stage_loop, stage_prefix, as_logger, as_callbacks, as_int, as_limit, as_bool,
    as_state_dict.
  raising_steps.
  - intros w r w' oom H ->. destruct (files w !! path); discriminate.
  - intros w r w' oom H ->. discriminate.
Qed.

Lemma frame_reset_params : preserves frame _reset_params.
Proof. unfold _reset_params, modify_loop, stage_loop, stage_prefix. frame_steps. Qed.

Lemma same_phase_reset_params : preserves same_phase _reset_params.
Proof. unfold _reset_params, modify_loop, stage_loop, stage_prefix. same_phase_steps. Qed.

Lemma same_phase_progress_bar_disable : preserves same_phase progress_bar_disable.
Proof.
  apply same_phase_modify_trainer. intros t.
  destruct (progress_bar_callback t); split; reflexivity.
Qed.

Section Trials.
Context (E : Env).

Lemma frame_search fuel f new_size : preserves frame (search E fuel f new_size).
Proof.
  unfold search, _run_power_scaling, _run_binary_scaling.
  pose proof (frame_power_loop E). pose proof (frame_binary_loop E). frame_steps.
Qed.

Lemma rt_search fuel f new_size : raises_from_trial E (search E fuel f new_size).
Proof.
  unfold search, _run_power_scaling, _run_binary_scaling.
  pose proof (rt_power_loop E). pose proof (rt_binary_loop E). raising_steps.
Qed.

Lemma frame_trials fuel f : preserves frame (trials E fuel f).
Proof.
  unfold trials, progress_bar_disable.
  pose proof frame_reset_params. pose proof frame_adjust_batch_size.
  pose proof (frame_search fuel f). frame_steps.
Qed.

Lemma rt_trials fuel f : raises_from_trial E (trials E fuel f).
Proof.
  unfold trials, progress_bar_disable.
  assert (raising (trial_failed E) _reset_params).
  { unfold _reset_params, modify_loop, stage_loop, stage_prefix. raising_steps. }
  pose proof (raising_adjust_batch_size (trial_failed E)).
  pose proof (rt_search fuel f). raising_steps.
Qed.

Hypothesis E_stable : phase_stable E.

Lemma same_phase_loop_run l : preserves same_phase (loop_run E l).
Proof.
  intros w r w' H. unfold loop_run, bind, log_call in H. simpl in H.
  destruct (E_stable (trainer w)) as [Hrun _]. specialize (Hrun l).
  destruct (env_run E l (trainer w)) as [re t'].
  injection H as _ <-. exact Hrun.
Qed.

Lemma same_phase_reset_dataloader p : preserves same_phase (reset_dataloader E p).
Proof.
  unfold reset_dataloader.
  apply (preserves_bind _ same_phase_trans); [apply same_phase_log_call|].
  intros _. apply same_phase_modify_trainer. intros t. apply (E_stable t).
Qed.

Lemma same_phase_try_loop_run : preserves same_phase (_try_loop_run E).
Proof.
  unfold _try_loop_run, stage_loop, as_state_dict, modify_loop.
  pose proof same_phase_loop_run. same_phase_steps.
Qed.

Lemma same_phase_reset_dataloaders : preserves same_phase (_reset_dataloaders E).
Proof.
  unfold _reset_dataloaders, stage_prefix.
  pose proof same_phase_reset_dataloader. same_phase_steps.
Qed.

Lemma same_phase_power_iteration : preserves same_phase (power_iteration E).
Proof.
  unfold power_iteration, _collect_garbage.
  pose proof same_phase_try_loop_run. pose proof same_phase_reset_dataloaders.
  pose proof same_phase_adjust_batch_size. same_phase_steps.
Qed.

Lemma same_phase_power_loop n new_size : preserves same_phase (power_loop E n new_size).
Proof.
  revert new_size. induction n as [|n IH]; intros new_size; simpl.
  - same_phase_steps.
  - pose proof same_phase_power_iteration. same_phase_steps.
Qed.

Lemma same_phase_binary_iteration v : preserves same_phase (binary_iteration E v).
Proof.
  unfold binary_iteration, _collect_garbage.
  pose proof same_phase_try_loop_run. pose proof same_phase_reset_dataloaders.
  pose proof same_phase_adjust_batch_size. same_phase_steps.
Qed.

Lemma same_phase_binary_loop fuel v : preserves same_phase (binary_loop E fuel v).
Proof.
  revert v. induction fuel as [|n IH]; intros v; simpl.
  - same_phase_steps.
  - pose proof same_phase_binary_iteration. same_phase_steps.
Qed.

Lemma same_phase_trials fuel f : preserves same_phase (trials E fuel f).
Proof.
  unfold trials, search, _run_power_scaling, _run_binary_scaling.
  pose proof same_phase_reset_params. pose proof same_phase_progress_bar_disable.
  pose proof same_phase_adjust_batch_size.
  pose proof same_phase_power_loop. pose proof same_phase_binary_loop.
  same_phase_steps.
Qed.

End Trials.

(** ** Taking a run of [scale_batch_size] apart *)

Lemma scale_batch_size_inv E fuel w r w' :
  fast_dev_run (trainer w) = false ->
  scale_batch_size E fuel w = (r, w') ->
  (exists l p ns w2,
      phase_loop (trainer w) = Some l
      /\ phase_prefix (trainer w) = Some p
      /\ snapshot_of (trainer w) l p (_dumped_params (self w2))
      /\ quiet (checkpointed E w) w2
      /\ (phase_stable E -> same_phase w w2)
      /\ finish (ckpt_path E (trainer w)) ns w2 = (r, w'))
  \/ ((forall a, r <> Returned a)
      /\ quiet (checkpointed E w) w'
      /\ (forall oom, r = Raised (RuntimeError oom) -> trial_failed E oom w')).
Proof.
  intros Hfast H. rewrite (scale_batch_size_split E fuel w Hfast) in H.
  rewrite (bind_returned _ _ _ _ _ (save_checkpoint_run _ w)) in H.
  fold (checkpointed E w) in H.
  unfold bind at 1 in H.
  destruct (_dump_params (checkpointed E w)) as [[[]|e|] wd] eqn:Hd.
  - pose proof (quiet_dump_params _ _ _ Hd) as Hq1.
    destruct (phase_valid_cases (trainer w)) as [(l & p & Hl & Hp) | (Hfn & e & He)].
    2: { destruct (dump_params_invalid (checkpointed E w) e Hfn He) as (wx & Hx).
         rewrite Hx in Hd. discriminate. }
    destruct (dump_params_run (checkpointed E w) l p Hl Hp) as (D & Hsnap & Hrun).
    rewrite Hrun in Hd. injection Hd as <-.
    unfold bind at 1 in H.
    match type of H with
    | context [trials E fuel (self w) ?x] =>
        destruct (trials E fuel (self w) x) as [[ns|e|] w2] eqn:Ht
    end.
    + left. exists l, p, ns, w2.
      pose proof (frame_trials E fuel _ _ _ _ Ht) as Hfr.
      split; [exact Hl|]. split; [exact Hp|]. split.
      { destruct Hfr as (-> & _). exact Hsnap. }
      split; [eapply quiet_trans; [exact Hq1 | apply frame_quiet, Hfr]|].
      split; [|exact H].
      intros Hst. exact (same_phase_trials E Hst fuel _ _ _ _ Ht).
    + right. injection H as <- <-. split; [discriminate|]. split.
      * eapply quiet_trans; [exact Hq1 | apply frame_quiet, (frame_trials E fuel _ _ _ _ Ht)].
      * intros oom [= ->]. eapply (rt_trials E); [exact Ht | reflexivity].
    + right. injection H as <- <-. split; [discriminate|]. split.
      * eapply quiet_trans; [exact Hq1 | apply frame_quiet, (frame_trials E fuel _ _ _ _ Ht)].
      * discriminate.
  - right. injection H as <- <-. split; [discriminate|]. split.
    + exact (quiet_dump_params _ _ _ Hd).
    + intros oom [= ->]. destruct (never_dump_params _ _ _ oom Hd eq_refl).
  - right. injection H as <- <-. split; [discriminate|]. split.
    + exact (quiet_dump_params _ _ _ Hd).
    + discriminate.
Qed.

Lemma synthetic_phase_stable name failure T : phase_stable (synthetic name failure T).
Proof.
  intros t. split.
  - intros l. simpl. unfold synthetic_run.
    destruct (lightning_getattr _ _); [split; reflexivity|].
    destruct T as [T|]; [|split; reflexivity].
    destruct (T <? _); split; reflexivity.
  - intros p. simpl. unfold synthetic_reset.
    destruct (lightning_getattr _ _); [split; reflexivity|].
    destruct p; split; reflexivity.
Qed.

Lemma keeps_model_refl w : keeps_model w w.
Proof. repeat split. Qed.

Lemma keeps_model_trans w1 w2 w3 : keeps_model w1 w2 -> keeps_model w2 w3 -> keeps_model w1 w3.
Proof. intros (? & ? & ? & ?) (? & ? & ? & ?). repeat split; congruence. Qed.

Lemma keeps_model_modify_trainer f :
  (forall t, lightning_module (f t) = lightning_module t) ->
  preserves keeps_model (modify_trainer f).
Proof. intros Hf w r w' H. injection H as _ <-. repeat split. apply Hf. Qed.

Lemma keeps_model_restore_params : preserves keeps_model _restore_params.
Proof.
  unfold _restore_params, modify_loop, stage_loop, stage_prefix, as_logger, as_callbacks,
    as_int, as_limit, as_bool, as_state_dict.
  repeat first
    [ apply keeps_model_modify_trainer; intros ?; reflexivity
    | progress preserves_steps keeps_model_refl keeps_model_trans ].
Qed.

(** ** Restoration *)

(** C6: after a search that returns, the fields that [_dump_params] recorded
    are back at their values from before the search: the logger, the list of
    callbacks, the batch limit of the phase ([limit_val_batches] and the fit
    loop's [max_steps] during a fit, [limit_<prefix>_batches] otherwise) and
    the progress of the phase's loop; the loop's [restarting] flag is off.
    The collaborators do not switch the trainer to another function or stage,
    and [fast_dev_run] is off, so that a search takes place. *)
Theorem search_restores_orchestration_state (E : Env) (fuel : nat) (w w' : World) :
  phase_stable E ->
  fast_dev_run (trainer w) = false ->
  scale_batch_size E fuel w = (Returned tt, w') ->
  exists l p,
    phase_loop (trainer w) = Some l
    /\ phase_prefix (trainer w) = Some p
    /\ logger (trainer w') = logger (trainer w)
    /\ callbacks (trainer w') = callbacks (trainer w)
    /\ limit_batches (trainer w') p = limit_batches (trainer w) p
    /\ (fn (trainer w) = TrainerFn.FITTING ->
        max_steps (loops (trainer w') fit_loop) = max_steps (loops (trainer w) fit_loop))
    /\ progress (loops (trainer w') l) = progress (loops (trainer w) l)
    /\ restarting (loops (trainer w') l) = false.
Proof.
  intros Hstable Hfast Hrun.
  destruct (scale_batch_size_inv E fuel w _ _ Hfast Hrun)
    as [(l & p & ns & w2 & Hl & Hp & Hsnap & Hq & Hph & Hfin) | (Hno & _)].
  2: { exfalso. exact (Hno tt eq_refl). }
  destruct (Hph Hstable) as [Hfn Hst].
  destruct Hq as (Hfiles & _).
  assert (Hfile : files w2 !! ckpt_path E (trainer w)
                  = Some (weights (lightning_module (trainer w)))).
  { rewrite Hfiles. simpl. apply lookup_insert_eq. }
  destruct (finish_run _ ns w2 (trainer w) l p _ Hsnap Hfn Hst Hl Hp Hfile)
    as (t' & Hfin' & Hres & _).
  rewrite Hfin' in Hfin. injection Hfin as _ <-.
  exists l, p. split; [exact Hl|]. split; [exact Hp|]. exact Hres.
Qed.

(** C7: a search that returns has written the checkpoint artifact first,
    reloaded it into the model after the trials and removed it last: the
    artifact is gone from the checkpoint directory, the model/optimizer state
    is the saved one, and between saving and reloading the collaborators saw
    trial runs and dataloader resets only. *)
Theorem checkpoint_restored_and_removed (E : Env) (fuel : nat) (w w' : World) :
  fast_dev_run (trainer w) = false ->
  scale_batch_size E fuel w = (Returned tt, w') ->
  let path := ckpt_path E (trainer w) in
  files w' !! path = None
  /\ files w' = delete path (files w)
  /\ weights (lightning_module (trainer w')) = weights (lightning_module (trainer w))
  /\ exists cs,
      calls w' = (calls w ++ save_checkpoint_call path :: cs
                    ++ [restore_checkpoint_call path; remove_checkpoint_call path])%list
      /\ Forall search_call cs.
Proof.
  intros Hfast Hrun path.
  destruct (scale_batch_size_inv E fuel w _ _ Hfast Hrun)
    as [(l & p & ns & w2 & _ & _ & _ & Hq & _ & Hfin) | (Hno & _)].
  2: { exfalso. exact (Hno tt eq_refl). }
  destruct Hq as (Hfiles & _ & cs & Hcalls & Hall).
  unfold finish in Hfin. unfold bind at 1 in Hfin.
  destruct (_restore_params w2) as [[[]|e|] w3] eqn:Hr; try discriminate.
  destruct (keeps_model_restore_params _ _ _ Hr) as (Hs3 & Hf3 & Hc3 & Hm3).
  assert (Hfile : files w3 !! path = Some (weights (lightning_module (trainer w)))).
  { rewrite Hf3, Hfiles. simpl. apply lookup_insert_eq. }
  unfold progress_bar_enable, restore_checkpoint, remove_checkpoint, log_call,
    modify_trainer, modify_self, get_self, bind in Hfin. simpl in Hfin.
  fold path in Hfin. rewrite Hfile in Hfin. simpl in Hfin.
  destruct (_early_exit (self w3)); [discriminate|].
  injection Hfin as <-. simpl.
  rewrite Hf3, Hfiles, Hc3, Hcalls. simpl. fold path.
  split; [apply lookup_delete_eq|].
  split; [apply delete_insert_eq|].
  split; [destruct (progress_bar_callback (trainer w3)); reflexivity|].
  exists cs. split; [|exact Hall].
  rewrite <- !app_assoc. reflexivity.
Qed.

(** ** Abort *)

(** A trial that fails with a non-OOM [RuntimeError] ends the iteration it
    belongs to, in either strategy, with that error and with the world as the
    trial left it. *)
Lemma non_oom_failure_propagates E v w w1 :
  _try_loop_run E w = (Raised (RuntimeError false), w1) ->
  power_iteration E w = (Raised (RuntimeError false), w1)
  /\ binary_iteration E v w = (Raised (RuntimeError false), w1).
Proof.
  intros H. unfold power_iteration, binary_iteration, _collect_garbage. split.
  - rewrite (bind_returned (ret tt) _ w tt w eq_refl).
    rewrite (try_except_caught _ _ _ false w1); [reflexivity | apply bind_raised; exact H].
  - rewrite (bind_returned (ret tt) _ w tt w eq_refl).
    rewrite (try_except_caught _ _ _ false w1); [reflexivity | apply bind_raised; exact H].
Qed.

(** C2, as the code has it: when a non-OOM [RuntimeError] ends
    [scale_batch_size], it is the one that the last trial raised, and nothing
    is put back on the way out.  The world is as that trial left it, with the
    trial settings still in force; the checkpoint artifact is still in the
    directory; the recorded optimum is unchanged; since the checkpoint was
    saved the collaborators saw trial runs and dataloader resets only. *)
Theorem non_oom_failure_aborts_without_restoring (E : Env) (fuel : nat) (w w' : World) :
  fast_dev_run (trainer w) = false ->
  scale_batch_size E fuel w = (Raised (RuntimeError false), w') ->
  let path := ckpt_path E (trainer w) in
  trial_failed E false w'
  /\ files w' = <[path := weights (lightning_module (trainer w))]> (files w)
  /\ optimal_batch_size (self w') = optimal_batch_size (self w)
  /\ exists cs,
      calls w' = (calls w ++ save_checkpoint_call path :: cs)%list
      /\ Forall search_call cs.
Proof.
  intros Hfast Hrun path.
  destruct (scale_batch_size_inv E fuel w _ _ Hfast Hrun)
    as [(l & p & ns & w2 & _ & _ & _ & _ & _ & Hfin) | (_ & Hq & Hrt)].
  { destruct (never_finish _ _ _ _ _ false Hfin eq_refl). }
  destruct Hq as (Hfiles & Hopt & cs & Hcalls & Hall).
  split; [exact (Hrt false eq_refl)|].
  split; [exact Hfiles|]. split; [exact Hopt|].
  exists cs. split; [|exact Hall].
  rewrite Hcalls. simpl. rewrite <- app_assoc. reflexivity.
Qed.

Lemma non_oom_failure_not_restored :
  fst fatal_run = Raised (RuntimeError false)
  /\ callbacks (trainer (snd fatal_run)) = []
  /\ callbacks (trainer (snd fatal_run)) <> callbacks (fit_trainer 1000)
  /\ logger (trainer (snd fatal_run)) <> logger (fit_trainer 1000)
  /\ limit_batches (trainer (snd fatal_run)) val <> limit_batches (fit_trainer 1000) val
  /\ max_steps (loops (trainer (snd fatal_run)) fit_loop)
     <> max_steps (loops (fit_trainer 1000) fit_loop)
  /\ restarting (loops (trainer (snd fatal_run)) fit_loop) = true
  /\ batch_size_of (snd fatal_run) = inr 8
  /\ batch_size_of (fit_world "power" 2 25 1000) = inr 1
  /\ is_Some (files (snd fatal_run)
                !! "/tmp/run/.scale_batch_size_1b4e28ba-2fa1-41d2-883f-0016d3cca427.ckpt").
Proof.
  vm_compute. repeat split; try discriminate. eexists. reflexivity.
Qed.

Lemma non_oom_failure_aborts_without_restoring_witness :
  trial_failed fatal_above_7 false (snd fatal_run)
  /\ files (snd fatal_run)
     = <[ckpt_path fatal_above_7 (fit_trainer 1000) := [3; 1; 4]]> ∅
  /\ optimal_batch_size (self (snd fatal_run)) = 2
  /\ exists cs,
      calls (snd fatal_run)
      = ([] ++ save_checkpoint_call (ckpt_path fatal_above_7 (fit_trainer 1000)) :: cs)%list
      /\ Forall search_call cs.
Proof.
  refine (non_oom_failure_aborts_without_restoring fatal_above_7 0
            (fit_world "power" 2 25 1000) (snd fatal_run) _ _).
  - reflexivity.
  - vm_compute. reflexivity.
Defined.

Lemma search_restores_orchestration_state_witness :
  exists l p,
    phase_loop (fit_trainer 100000) = Some l
    /\ phase_prefix (fit_trainer 100000) = Some p
    /\ logger (trainer (snd scenario_B)) = logger (fit_trainer 100000)
    /\ callbacks (trainer (snd scenario_B)) = callbacks (fit_trainer 100000)
    /\ limit_batches (trainer (snd scenario_B)) p = limit_batches (fit_trainer 100000) p
    /\ (fn (fit_trainer 100000) = TrainerFn.FITTING ->
        max_steps (loops (trainer (snd scenario_B)) fit_loop)
        = max_steps (loops (fit_trainer 100000) fit_loop))
    /\ progress (loops (trainer (snd scenario_B)) l) = progress (loops (fit_trainer 100000) l)
    /\ restarting (loops (trainer (snd scenario_B)) l) = false.
Proof.
  refine (search_restores_orchestration_state oom_at_256 0
            (fit_world "power" 2 25 100000) (snd scenario_B) _ _ _).
  - apply synthetic_phase_stable.
  - reflexivity.
  - vm_compute. reflexivity.
Defined.

Lemma checkpoint_restored_and_removed_witness :
  files (snd scenario_B) !! ckpt_path oom_at_256 (fit_trainer 100000) = None
  /\ files (snd scenario_B) = delete (ckpt_path oom_at_256 (fit_trainer 100000)) ∅
  /\ weights (lightning_module (trainer (snd scenario_B))) = [3; 1; 4]
  /\ exists cs,
      calls (snd scenario_B)
      = ([] ++ save_checkpoint_call (ckpt_path oom_at_256 (fit_trainer 100000)) :: cs
            ++ [restore_checkpoint_call (ckpt_path oom_at_256 (fit_trainer 100000));
                remove_checkpoint_call (ckpt_path oom_at_256 (fit_trainer 100000))])%list
      /\ Forall search_call cs.
Proof.
  refine (checkpoint_restored_and_removed oom_at_256 0
            (fit_world "power" 2 25 100000) (snd scenario_B) _ _).
  - reflexivity.
  - vm_compute. reflexivity.
Defined.

(** ** Growth mode *)

(** C1, as the code runs: growth mode from 2 with every trial from batch size
    256 on out of memory.  The trials at 2, 4, ..., 128 succeed, the trial at
    256 fails, and the handler calls [_adjust_batch_size] with the default
    factor 1.0: the search ends with the failing size 256 recorded as optimum
    and stored in the model, not with the last size that fitted, 128. *)
Theorem power_scaling_keeps_failing_size :
  fst scenario_B = Returned tt
  /\ optimal_batch_size (self (snd scenario_B)) = 256
  /\ batch_size_of (snd scenario_B) = inr 256
  /\ fst (env_run oom_at_256 fit_loop (trainer (snd scenario_B))) = Some (RuntimeError true).
Proof. vm_compute. repeat split. Qed.

(** ** Counting trials *)

Lemma count_runs_app cs1 cs2 :
  count_runs (cs1 ++ cs2) = (count_runs cs1 + count_runs cs2)%nat.
Proof.
  induction cs1 as [|c cs1 IH]; [reflexivity|].
  destruct c; simpl; rewrite IH; reflexivity.
Qed.

Lemma same_runs_refl w : same_runs w w.
Proof. reflexivity. Qed.

Lemma same_runs_trans w1 w2 w3 : same_runs w1 w2 -> same_runs w2 w3 -> same_runs w1 w3.
Proof. unfold same_runs. congruence. Qed.

Lemma same_runs_modify_trainer f : preserves same_runs (modify_trainer f).
Proof. intros w r w' H. injection H as _ <-. reflexivity. Qed.

Lemma same_runs_modify_self f : preserves same_runs (modify_self f).
Proof. intros w r w' H. injection H as _ <-. reflexivity. Qed.

Lemma same_runs_log_call c :
  match c with loop_run_call _ => False | _ => True end ->
  preserves same_runs (log_call c).
Proof.
  intros Hc w r w' H. injection H as _ <-. unfold same_runs, runs. simpl.
  rewrite count_runs_app. destruct c; simpl; solve [lia | destruct Hc].
Qed.

Ltac same_runs_steps :=
  repeat first
    [ progress preserves_steps same_runs_refl same_runs_trans
    | apply same_runs_modify_trainer
    | apply same_runs_modify_self
    | apply same_runs_log_call; exact I ].

Lemma same_runs_adjust_batch_size factor value desc :
  preserves same_runs (_adjust_batch_size factor value desc).
Proof. unfold _adjust_batch_size, stage_prefix, prefix_dataloaders. same_runs_steps. Qed.

Lemma same_runs_reset_dataloaders E : preserves same_runs (_reset_dataloaders E).
Proof. unfold _reset_dataloaders, reset_dataloader, stage_prefix. same_runs_steps. Qed.

(** ** Trials against the synthetic collaborators *)

Section Synthetic.
Context (f : BatchSizeFinder) (failure : exn) (T : option Z).
Local Abbreviation E := (synthetic (batch_arg_name f) failure T).

Lemma try_loop_run_synthetic l b d w :
  searching f l b d w ->
  exists w1,
    _try_loop_run E w = (if fits T b then Returned tt else Raised failure, w1)
    /\ searching f l b d w1.
Proof.
  intros (Hself & Hb & Hd & Hl & sd & Hsd).
  unfold batch_size_of in Hb. rewrite Hself in Hb.
  assert (Hloop : (if bool_decide (fn (trainer w) = TrainerFn.FITTING)
                   then ret fit_loop else stage_loop (trainer w)) = ret l).
  { unfold phase_loop in Hl. unfold stage_loop.
    destruct (bool_decide (fn (trainer w) = TrainerFn.FITTING)); [congruence|].
    destruct (RunningStage.loop (stage (trainer w))); [discriminate|].
    injection Hl as ->. reflexivity. }
  unfold _try_loop_run, dumped, loop_run, log_call, modify_loop, modify_trainer, get_self,
    get_trainer, bind.
  simpl. rewrite Hloop. simpl. rewrite Hself, Hsd. simpl.
  unfold synthetic_run. simpl. rewrite Hb. unfold fits.
  assert (Hs : forall t' cs,
             lightning_module t' = lightning_module (trainer w) ->
             relevant_dataloader t' = relevant_dataloader (trainer w) ->
             phase_loop t' = phase_loop (trainer w) ->
             searching f l b d {| trainer := t'; self := self w; files := files w;
                                  calls := cs |}).
  { intros t' cs Hm Hr Hp. unfold searching, batch_size_of. simpl.
    rewrite Hm, Hr, Hp, Hself. eauto 10. }
  destruct T as [T'|]; [destruct (T' <? b)|]; simpl;
    (eexists; split; [reflexivity | apply Hs; reflexivity]).
Qed.

Lemma try_loop_run_synthetic_runs l b d w r w1 :
  searching f l b d w ->
  _try_loop_run E w = (r, w1) ->
  runs w1 = runs w + 1.
Proof.
  intros (Hself & Hb & Hd & Hl & sd & Hsd).
  assert (Hloop : (if bool_decide (fn (trainer w) = TrainerFn.FITTING)
                   then ret fit_loop else stage_loop (trainer w)) = ret l).
  { unfold phase_loop in Hl. unfold stage_loop.
    destruct (bool_decide (fn (trainer w) = TrainerFn.FITTING)); [congruence|].
    destruct (RunningStage.loop (stage (trainer w))); [discriminate|].
    injection Hl as ->. reflexivity. }
  unfold _try_loop_run, dumped, loop_run, log_call, modify_loop, modify_trainer, get_self,
    get_trainer, bind.
  simpl. rewrite Hloop. simpl. rewrite Hself, Hsd. simpl.
  destruct (synthetic_run _ _ _ _ _) as [re t'].
  intros [= _ <-]. unfold runs. simpl. rewrite count_runs_app. simpl. lia.
Qed.

Lemma adjust_batch_size_searching factor value desc l b d w :
  searching f l b d w ->
  let n := clamp d (proposal b factor value) in
  exists w1,
    _adjust_batch_size factor value desc w = (Returned (n, negb (n =? b)), w1)
    /\ searching f l n d w1.
Proof.
  intros (Hself & Hb & Hd & Hl & Hsd) n.
  destruct (adjust_batch_size_run factor value desc w b d Hb Hd) as (m' & Hset & Hrun).
  fold n in Hset, Hrun.
  exists (with_module m' w). split; [exact Hrun|].
  destruct (lightning_setattr_getattr _ _ _ n Hb) as (m'' & Hset' & Hget & _).
  rewrite Hset in Hset'. injection Hset' as <-.
  unfold searching, batch_size_of. simpl. rewrite Hself in *. auto.
Qed.

Lemma reset_dataloaders_synthetic l b d w :
  searching f l b d w ->
  exists w1,
    _reset_dataloaders E w = (Returned tt, w1)
    /\ searching f l b (rebatch b d) w1.
Proof.
  intros (Hself & Hb & Hd & Hl & Hsd).
  unfold batch_size_of in Hb. rewrite Hself in Hb.
  unfold _reset_dataloaders, reset_dataloader, log_call, modify_trainer, stage_prefix,
    get_trainer, bind.
  simpl. unfold relevant_dataloader in Hd. unfold phase_loop in Hl.
  unfold searching, batch_size_of, relevant_dataloader, phase_loop.
  destruct (bool_decide (fn (trainer w) = TrainerFn.FITTING)) eqn:Hfit; simpl.
  - unfold synthetic_reset. simpl. rewrite Hb. simpl. rewrite Hb. simpl.
    eexists. split; [reflexivity|]. simpl. rewrite Hfit, Hself, Hb.
    injection Hd as <-. auto.
  - destruct (stage (trainer w)) eqn:Hst; simpl in *; try discriminate;
      unfold synthetic_reset; simpl; rewrite Hb; simpl;
      (eexists; split; [reflexivity|]; simpl; rewrite Hfit, Hst, Hself, Hb; simpl;
       rewrite fn_lookup_insert;
       destruct (eval_dataloaders (trainer w) _) as [|d0 ds]; [discriminate|];
       simpl in Hd; injection Hd as ->; simpl; auto).
Qed.

End Synthetic.

Lemma proposal_double b : proposal b 2 None = 2 * b.
Proof. unfold proposal, py_int. simpl. rewrite Z.quot_1_r. lia. Qed.


Lemma clamp_le d n : clamp d n <= n.
Proof. unfold clamp. destruct (_ && _); lia. Qed.

Lemma clamp_bounded L d n : bounded L d -> clamp d n = Z.min n L.
Proof.
  intros (Hlen & HL & Hdl). unfold clamp. rewrite Hlen, HL. simpl.
  destruct (dl_len d <? n) eqn:Hlt; [reflexivity|].
  apply Z.ltb_ge in Hlt. lia.
Qed.

Lemma rebatch_bounded L b d : 0 <= L -> bounded L d -> bounded L (rebatch b d).
Proof.
  intros HL (Hlen & Hds & Hdl). unfold rebatch.
  destruct (0 <? b) eqn:Hb; [|repeat split; assumption].
  apply Z.ltb_lt in Hb. repeat split; simpl; try assumption.
  rewrite Hds. apply Z.lt_succ_r. apply Z.div_lt_upper_bound; [lia|]. nia.
Qed.

Section SyntheticOOM.
Context (f : BatchSizeFinder) (T : option Z).
Local Abbreviation E := (synthetic (batch_arg_name f) (RuntimeError true) T).

Lemma power_iteration_fits l b d w :
  searching f l b d w ->
  fits T b = true ->
  let n := clamp d (2 * b) in
  exists w1,
    power_iteration E w = (Returned (n, n =? b), w1)
    /\ searching f l n (if n =? b then d else rebatch n d) w1.
Proof.
  intros Hs Hfit n.
  destruct (try_loop_run_synthetic f (RuntimeError true) T l b d w Hs) as (w1 & Hrun & Hs1).
  rewrite Hfit in Hrun.
  destruct (adjust_batch_size_searching f 2 None (Some "succeeded") l b d w1 Hs1)
    as (w2 & Hadj & Hs2).
  rewrite proposal_double in Hadj, Hs2. fold n in Hadj, Hs2.
  unfold power_iteration, _collect_garbage.
  rewrite (bind_returned (ret tt) _ w tt w eq_refl).
  destruct (n =? b) eqn:Hn.
  - exists w2. split; [|exact Hs2].
    apply try_except_returned.
    rewrite (bind_returned _ _ _ _ _ Hrun), (bind_returned _ _ _ _ _ Hadj). reflexivity.
  - destruct (reset_dataloaders_synthetic f (RuntimeError true) T l n d w2 Hs2)
      as (w3 & Hreset & Hs3).
    exists w3. split; [|exact Hs3].
    apply try_except_returned.
    rewrite (bind_returned _ _ _ _ _ Hrun), (bind_returned _ _ _ _ _ Hadj). simpl.
    rewrite (bind_returned _ _ _ _ _ Hreset). reflexivity.
Qed.


End SyntheticOOM.

Lemma same_model_and_data_searching t t' :
  same_model_and_data t t' ->
  lightning_module t' = lightning_module t
  /\ relevant_dataloader t' = relevant_dataloader t
  /\ phase_loop t' = phase_loop t
  /\ phase_prefix t' = phase_prefix t.
Proof.
  intros (Hfn & Hst & Hm & Htr & Hev).
  unfold relevant_dataloader, phase_loop, phase_prefix.
  rewrite Hfn, Hst, Htr, Hev. auto.
Qed.

Lemma progress_bar_disable_run w :
  exists t',
    progress_bar_disable w
    = (Returned tt, {| trainer := t'; self := self w; files := files w; calls := calls w |})
    /\ same_model_and_data (trainer w) t'.
Proof.
  unfold progress_bar_disable, modify_trainer. eexists. split; [reflexivity|].
  destruct (progress_bar_callback (trainer w)); repeat split.
Qed.

Lemma pow2_succ (n : nat) : 2 ^ Z.of_nat (S n) = 2 * 2 ^ Z.of_nat n.
Proof. rewrite Nat2Z.inj_succ, Z.pow_succ_r by lia. reflexivity. Qed.

Lemma pow2_pos (n : nat) : 1 <= 2 ^ Z.of_nat n.
Proof. pose proof (Z.pow_pos_nonneg 2 (Z.of_nat n)). lia. Qed.

Section GrowthWithoutOOM.
Context (f : BatchSizeFinder) (L : Z) (L_nonneg : 0 <= L).
Local Abbreviation E := (synthetic (batch_arg_name f) (RuntimeError true) None).


End GrowthWithoutOOM.

(** ** Running [scale_batch_size] forward *)

Lemma scale_batch_size_finishes E fuel w l p D ns w2 :
  phase_stable E ->
  fast_dev_run (trainer w) = false ->
  phase_loop (trainer w) = Some l ->
  phase_prefix (trainer w) = Some p ->
  snapshot_of (trainer w) l p D ->
  _dump_params (checkpointed E w) = (Returned tt, dumped_world E D w) ->
  trials E fuel (self w) (dumped_world E D w) = (Returned ns, w2) ->
  exists w',
    scale_batch_size E fuel w
    = (if _early_exit (self w) then Raised _TunerExitException else Returned tt, w')
    /\ optimal_batch_size (self w') = ns
    /\ batch_size_of w' = batch_size_of w2
    /\ runs w' = runs w2.
Proof.
  intros Hstable Hfast Hl Hp Hsnap Hdump Htrials.
  rewrite (scale_batch_size_split E fuel w Hfast).
  rewrite (bind_returned _ _ _ _ _ (save_checkpoint_run _ w)).
  fold (checkpointed E w).
  rewrite (bind_returned _ _ _ _ _ Hdump), (bind_returned _ _ _ _ _ Htrials).
  destruct (frame_trials E fuel _ _ _ _ Htrials) as (Hself & Hfiles & _).
  destruct (same_phase_trials E Hstable fuel _ _ _ _ Htrials) as (Hfn & Hst).
  assert (Hsnap2 : snapshot_of (trainer w) l p (_dumped_params (self w2))).
  { rewrite Hself. exact Hsnap. }
  assert (Hfile : files w2 !! ckpt_path E (trainer w)
                  = Some (weights (lightning_module (trainer w)))).
  { rewrite Hfiles. simpl. apply lookup_insert_eq. }
  destruct (finish_run _ ns w2 (trainer w) l p _ Hsnap2 Hfn Hst Hl Hp Hfile)
    as (t' & Hfin & _ & _ & Hattrs & Hhp).
  rewrite Hfin, Hself. simpl. eexists. split; [reflexivity|]. split; [reflexivity|].
  split.
  - unfold batch_size_of, lightning_getattr. simpl. rewrite Hattrs, Hhp, Hself. reflexivity.
  - unfold runs. simpl. rewrite count_runs_app. simpl. lia.
Qed.

Lemma trials_start E f0 wd l p b0 d sd :
  phase_loop (trainer wd) = Some l ->
  phase_prefix (trainer wd) = Some p ->
  batch_size_of wd = inr b0 ->
  relevant_dataloader (trainer wd) = Some d ->
  _dumped_params (self wd) !! "loop_state_dict" = Some (VStateDict sd) ->
  exists w3,
    searching (self wd) l (clamp d (init_val f0)) d w3
    /\ runs w3 = runs wd
    /\ forall fuel, trials E fuel f0 wd = search E fuel f0 (clamp d (init_val f0)) w3.
Proof.
  intros Hl Hp Hb Hd Hsd.
  destruct (reset_params_run wd l p Hl Hp) as (t1 & Hreset & Hsame1).
  destruct (progress_bar_disable_run
              {| trainer := t1; self := self wd; files := files wd; calls := calls wd |})
    as (t2 & Hpb & Hsame2).
  simpl in Hpb, Hsame2.
  destruct (same_model_and_data_searching _ _ Hsame1) as (Hm1 & Hr1 & Hl1 & _).
  destruct (same_model_and_data_searching _ _ Hsame2) as (Hm2 & Hr2 & Hl2 & _).
  assert (Hs : searching (self wd) l b0 d
                 {| trainer := t2; self := self wd; files := files wd; calls := calls wd |}).
  { unfold searching, batch_size_of. simpl. rewrite Hm2, Hm1, Hr2, Hr1, Hl2, Hl1. eauto 10. }
  destruct (adjust_batch_size_searching (self wd) 1 (Some (init_val f0)) None l b0 d _ Hs)
    as (w3 & Hadj & Hs3).
  simpl in Hadj, Hs3. exists w3. split; [exact Hs3|].
  split; [exact (same_runs_adjust_batch_size _ _ _ _ _ _ Hadj)|].
  intros fuel. unfold trials.
  rewrite (bind_returned _ _ _ _ _ Hreset), (bind_returned _ _ _ _ _ Hpb),
    (bind_returned _ _ _ _ _ Hadj).
  reflexivity.
Qed.

Lemma snapshot_state_dict t0 l p D :
  snapshot_of t0 l p D -> exists sd, D !! "loop_state_dict" = Some (VStateDict sd).
Proof. intros (_ & _ & H & _). eauto. Qed.




(** ** Growth followed by bisection *)

Section Bisection.
Context (f : BatchSizeFinder) (T : Z).
Local Abbreviation E := (synthetic (batch_arg_name f) (RuntimeError true) (Some T)).

(** The iteration computes [binary_next], and runs one trial. *)
Lemma binary_iteration_next l v d w :
  searching f l (new_size v) d w ->
  exists w1,
    binary_iteration E v w = (Returned (binary_next f T d v).1, w1)
    /\ searching f l (new_size (binary_next f T d v).1.1) (binary_next f T d v).2 w1
    /\ runs w1 = runs w + 1.
Proof.
  intros Hs.
  destruct (try_loop_run_synthetic f (RuntimeError true) (Some T) l _ d w Hs)
    as (w1 & Hrun & Hs1).
  pose proof (try_loop_run_synthetic_runs f (RuntimeError true) (Some T) l _ d w _ _ Hs Hrun)
    as Hruns1.
  assert (Hself1 : self w1 = f) by apply Hs1.
  unfold fits in Hrun.
  unfold binary_iteration, _collect_garbage.
  rewrite (bind_returned (ret tt) _ w tt w eq_refl).
  unfold binary_next.
  destruct (T <? new_size v) eqn:HT; simpl in Hrun.
  - (* the trial runs out of memory *)
    rewrite (try_except_caught _ _ _ true w1); [|apply bind_raised; exact Hrun].
    simpl. rewrite (bind_returned (ret tt) _ w1 tt w1 eq_refl).
    set (midval := (new_size v + low v) `div` 2).
    destruct (adjust_batch_size_searching f 1 (Some midval) (Some "failed") l _ d w1 Hs1)
      as (w2 & Hadj & Hs2).
    pose proof (same_runs_adjust_batch_size _ _ _ _ _ _ Hadj) as Hruns2.
    simpl in Hadj, Hs2. rewrite (bind_returned _ _ _ _ _ Hadj). simpl.
    destruct (clamp d midval =? new_size v) eqn:Hch; simpl.
    + rewrite (bind_returned (ret tt) _ w2 tt w2 eq_refl).
      exists w2. split; [reflexivity|]. split; [exact Hs2|].
      unfold same_runs in Hruns2. lia.
    + destruct (reset_dataloaders_synthetic f (RuntimeError true) (Some T) l _ d w2 Hs2)
        as (w3 & Hreset & Hs3).
      pose proof (same_runs_reset_dataloaders _ _ _ _ Hreset) as Hruns3.
      rewrite (bind_returned _ _ _ _ _ Hreset).
      exists w3. split; [reflexivity|]. split; [exact Hs3|].
      unfold same_runs in Hruns2, Hruns3. lia.
  - (* the trial succeeds *)
    assert (Hbody : forall k r w',
               k (self w1) w1 = (Returned r, w') ->
               try_except_RuntimeError (_try_loop_run E ;; (x <- get_self ;; k x))
                 (fun exception =>
                    if is_oom_error exception
                    then
                      _collect_garbage ;;
                      r <- _adjust_batch_size 1
                             (Some ((new_size v + low v) `div` 2)) (Some "failed") ;;
                      (if snd r then _reset_dataloaders E else ret tt) ;;
                      ret ({| low := low v; high := Some (new_size v); count := count v;
                              new_size := fst r |}, new_size v - low v <=? 1)
                    else raise exception) w
               = (Returned r, w')).
    { intros k r w' Hk. apply try_except_returned.
      rewrite (bind_returned _ _ _ _ _ Hrun).
      rewrite (bind_returned get_self _ w1 (self w1) w1 eq_refl). exact Hk. }
    destruct (max_trials f <? count v + 1) eqn:Hc.
    { exists w1. split.
      - apply Hbody. rewrite Hself1, Hc. reflexivity.
      - split; [exact Hs1 | exact Hruns1]. }
    assert (Hadjust : forall factor value desc,
               let n := clamp d (proposal (new_size v) factor value) in
               exists w2,
                 (r <- _adjust_batch_size factor value desc ;;
                  if snd r
                  then _reset_dataloaders E ;;
                       ret ({| low := new_size v; high := high v; count := count v + 1;
                               new_size := fst r |}, false)
                  else ret ({| low := new_size v; high := high v; count := count v + 1;
                               new_size := fst r |}, true)) w1
                 = (Returned ({| low := new_size v; high := high v; count := count v + 1;
                                 new_size := n |}, n =? new_size v), w2)
                 /\ searching f l n (if n =? new_size v then d else rebatch n d) w2
                 /\ runs w2 = runs w + 1).
    { intros factor value desc n.
      destruct (adjust_batch_size_searching f factor value desc l _ d w1 Hs1)
        as (w2 & Hadj & Hs2).
      pose proof (same_runs_adjust_batch_size _ _ _ _ _ _ Hadj) as Hruns2.
      fold n in Hadj, Hs2. rewrite (bind_returned _ _ _ _ _ Hadj). simpl.
      destruct (n =? new_size v) eqn:Hn; simpl.
      - exists w2. split; [reflexivity|]. split; [exact Hs2|].
        unfold same_runs in Hruns2. lia.
      - destruct (reset_dataloaders_synthetic f (RuntimeError true) (Some T) l _ d w2 Hs2)
          as (w3 & Hreset & Hs3).
        pose proof (same_runs_reset_dataloaders _ _ _ _ Hreset) as Hruns3.
        rewrite (bind_returned _ _ _ _ _ Hreset).
        exists w3. split; [reflexivity|]. split; [exact Hs3|].
        unfold same_runs in Hruns2, Hruns3. lia. }
    destruct (truthy (high v)) as [h|] eqn:Hh.
    + destruct (h - new_size v <=? 1) eqn:Hconv.
      * exists w1. split.
        -- apply Hbody. rewrite Hself1. cbv beta zeta. rewrite Hc. reflexivity.
        -- split; [exact Hs1 | exact Hruns1].
      * destruct (Hadjust 1%Q (Some ((h + new_size v) `div` 2)) (Some "succeeded"))
          as (w2 & Hadj & Hs2 & Hruns2).
        exists w2. split.
        -- apply Hbody. rewrite Hself1. cbv beta zeta. rewrite Hc. exact Hadj.
        -- split; [exact Hs2 | exact Hruns2].
    + destruct (Hadjust 2%Q None (Some "succeeded")) as (w2 & Hadj & Hs2 & Hruns2).
      rewrite proposal_double in Hadj, Hs2.
      exists w2. split.
      * apply Hbody. rewrite Hself1. cbv beta zeta. rewrite Hc. exact Hadj.
      * split; [exact Hs2 | exact Hruns2].
Qed.

Lemma midpoint_between lo hi : 1 < hi - lo -> lo < (hi + lo) `div` 2 < hi.
Proof.
  intros H. split.
  - assert (lo + 1 <= (hi + lo) `div` 2) by (apply Z.div_le_lower_bound; lia). lia.
  - apply Z.div_lt_upper_bound; lia.
Qed.








Lemma binary_loop_break fuel v w v' w1 :
  binary_iteration E v w = (Returned (v', true), w1) ->
  binary_loop E (S fuel) v w = (Returned (new_size v'), w1).
Proof. intros H. simpl. rewrite (bind_returned _ _ _ _ _ H). reflexivity. Qed.

Lemma binary_loop_continue fuel v w v' w1 :
  binary_iteration E v w = (Returned (v', false), w1) ->
  binary_loop E (S fuel) v w = binary_loop E fuel v' w1.
Proof. intros H. simpl. rewrite (bind_returned _ _ _ _ _ H). reflexivity. Qed.



End Bisection.





(** Scenario C of the spec: growth followed by bisection from 2, with every
    trial from batch size 256 on out of memory, ends at 255. *)
Example binsearch_scenario_C :
  final_size (scale_batch_size oom_at_256 40 (fit_world "binsearch" 2 25 100000))
  = Returned 255.
Proof. vm_compute. reflexivity. Qed.

Example path_join_examples :
  path_join "/tmp/run" "x.ckpt" = "/tmp/run/x.ckpt"
  /\ path_join "/tmp/run/" "x.ckpt" = "/tmp/run/x.ckpt"
  /\ path_join "" "x.ckpt" = "x.ckpt".
Proof. repeat split. Qed.

(** ** The constructor *)

(** X1: the constructor lower-cases the mode and accepts exactly "power" and
    "binsearch", in any letter case; every other mode raises a
    [MisconfigurationException].  An accepted finder starts with
    [optimal_batch_size = init_val], no early exit and nothing dumped, and its
    search always runs one of the two strategies. *)
Theorem init_validates_mode (m : string) (s i mt : Z) (name : string) :
  match __init__ m s i mt name with
  | inr f =>
      f = {| mode := lower m; steps_per_trial := s; init_val := i; max_trials := mt;
             batch_arg_name := name; optimal_batch_size := i; _early_exit := false;
             _dumped_params := ∅ |}
      /\ (lower m = "power" \/ lower m = "binsearch")
      /\ forall E fuel n,
           search E fuel f n
           = if bool_decide (lower m = "power") then _run_power_scaling E n
             else _run_binary_scaling E fuel n
  | inl e =>
      lower m <> "power" /\ lower m <> "binsearch"
      /\ exists msg, e = MisconfigurationException msg
  end.
Proof.
  unfold __init__, SUPPORTED_MODES. case_bool_decide as Hm.
  - split; [reflexivity|].
    assert (Hcases : lower m = "power" \/ lower m = "binsearch").
    { apply elem_of_cons in Hm as [Hm | Hm]; [left; exact Hm|].
      apply list_elem_of_singleton in Hm. right; exact Hm. }
    split; [exact Hcases|].
    intros E fuel n. unfold search. simpl.
    destruct Hcases as [-> | ->]; reflexivity.
  - split; [|split; [|eauto]].
    + intros H. apply Hm. rewrite H. apply list_elem_of_here.
    + intros H. apply Hm. rewrite H. apply list_elem_of_further, list_elem_of_here.
Qed.

(** ** [setup] *)

(** X2: [setup] only checks: whatever it answers, the world is as before.  It
    returns exactly when the strategy is not distributed, the stage names
    dataloaders, the training dataloader comes from the module, the stage's
    source holds at most one dataloader (not looked at when the hook runs for
    "fit"), and the batch size field is on the model or in its [hparams].  A
    distributed strategy is refused before anything else is looked at, and
    every refusal is a [MisconfigurationException] unless the stage names no
    dataloaders. *)
Theorem setup_succeeds_iff (stage_arg : option string) (w : World) :
  snd (setup stage_arg w) = w
  /\ (fst (setup stage_arg w) = Returned tt <-> setup_ok stage_arg w)
  /\ (is_distributed (trainer w) = true ->
      exists msg, fst (setup stage_arg w) = Raised (MisconfigurationException msg))
  /\ (forall e, fst (setup stage_arg w) = Raised e ->
      (exists msg, e = MisconfigurationException msg)
      \/ RunningStage.dataloader_prefix (stage (trainer w)) = None).
Proof.
  unfold setup, setup_ok, bind, get_trainer, get_self, stage_prefix. simpl.
  destruct (is_distributed (trainer w)); simpl.
  { split; [reflexivity|]. split; [|split; [eauto|]].
    - split; [discriminate | intros (H & _); discriminate].
    - intros e [= <-]. eauto. }
  destruct (RunningStage.dataloader_prefix (stage (trainer w))) as [p|]; simpl.
  2: { split; [reflexivity|]. split; [|split; [discriminate|auto]].
       split; [discriminate | intros (_ & _ & _ & p & H & _); discriminate]. }
  destruct (train_source_is_module (trainer w)); simpl.
  2: { split; [reflexivity|]. split; [|split; [discriminate|]].
       - split; [discriminate | intros (_ & H & _); discriminate].
       - intros e [= <-]. eauto. }
  case_bool_decide as Hfit; simpl.
  - destruct (lightning_hasattr _ _); simpl.
    + split; [reflexivity|]. split; [|split; discriminate].
      split; [|reflexivity]. intros _. repeat split. exists p. auto.
    + split; [reflexivity|]. split; [|split; [discriminate|]].
      * split; [discriminate | intros (_ & _ & H & _); discriminate].
      * intros e [= <-]. eauto.
  - case_bool_decide as Hmany; simpl.
    + split; [reflexivity|]. split; [|split; [discriminate|]].
      * split; [discriminate|]. intros (_ & _ & _ & p' & [= <-] & [H | H]); [contradiction | lia].
      * intros e [= <-]. eauto.
    + destruct (lightning_hasattr _ _); simpl.
      * split; [reflexivity|]. split; [|split; discriminate].
        split; [|reflexivity]. intros _. repeat split. exists p. split; [reflexivity|].
        right. lia.
      * split; [reflexivity|]. split; [|split; [discriminate|]].
        -- split; [discriminate | intros (_ & _ & H & _); discriminate].
        -- intros e [= <-]. eauto.
Qed.

(** ** Skipping the search *)

(** X3: with [fast_dev_run] on, [scale_batch_size] and each of the four
    hooks return at once and leave the world as it was: no checkpoint, no
    trial, no change of the batch size. *)
Theorem fast_dev_run_skips_search (E : Env) (fuel : nat) (w : World) :
  fast_dev_run (trainer w) = true ->
  scale_batch_size E fuel w = (Returned tt, w)
  /\ on_fit_start E fuel w = (Returned tt, w)
  /\ on_validation_start E fuel w = (Returned tt, w)
  /\ on_test_start E fuel w = (Returned tt, w)
  /\ on_predict_start E fuel w = (Returned tt, w).
Proof.
  intros H.
  assert (Hs : scale_batch_size E fuel w = (Returned tt, w)).
  { unfold scale_batch_size, bind, get_trainer, get_self. simpl. rewrite H. reflexivity. }
  repeat split; try exact Hs.
  unfold on_validation_start, bind, get_trainer. simpl.
  destruct (_ || _); [reflexivity | exact Hs].
Qed.

Lemma fast_dev_run_skips_search_witness :
  let E := synthetic "batch_size" (RuntimeError true) (Some 255) in
  let w := {| trainer := set_fast_dev_run true (fit_trainer 1000);
              self := finder "binsearch" 2 25; files := ∅; calls := [] |} in
  scale_batch_size E 0 w = (Returned tt, w)
  /\ on_fit_start E 0 w = (Returned tt, w)
  /\ on_validation_start E 0 w = (Returned tt, w)
  /\ on_test_start E 0 w = (Returned tt, w)
  /\ on_predict_start E 0 w = (Returned tt, w).
Proof.
  intros E w. apply (fast_dev_run_skips_search E 0 w). reflexivity.
Defined.

(** ** Failures of the adjuster *)

Lemma adjust_batch_size_inv factor value desc w r w' :
  _adjust_batch_size factor value desc w = (r, w') ->
  (exists b d, batch_size_of w = inr b /\ relevant_dataloader (trainer w) = Some d)
  \/ (w' = w
      /\ exists e, r = Raised e
         /\ (batch_size_of w = inl e
             \/ (relevant_dataloader (trainer w) = None
                 /\ (e = IndexError \/ exists name, e = AttributeError name)))).
Proof.
  destruct (batch_size_of w) as [e|b] eqn:Hb.
  - intros H. right. unfold batch_size_of in Hb.
    unfold _adjust_batch_size, bind, get_trainer, get_self in H. simpl in H.
    rewrite Hb in H. simpl in H. injection H as <- <-. eauto.
  - destruct (relevant_dataloader (trainer w)) as [d|] eqn:Hd; [left; eauto|].
    intros H. right. unfold batch_size_of in Hb.
    unfold _adjust_batch_size, bind, get_trainer, get_self, stage_prefix in H. simpl in H.
    rewrite Hb in H. simpl in H. unfold relevant_dataloader in Hd.
    destruct (bool_decide (fn (trainer w) = TrainerFn.FITTING)); [discriminate|].
    destruct (RunningStage.dataloader_prefix (stage (trainer w))) as [p|]; simpl in H.
    + destruct p; simpl in H;
        try (destruct (eval_dataloaders (trainer w) _); [|discriminate]; simpl in H);
        injection H as <- <-; eauto 10.
    + injection H as <- <-. eauto 10.
Qed.

(** X4: the adjuster either succeeds or fails without a trace.  It returns
    exactly when the batch size field can be read and the phase has a
    dataloader to check against, and then stores and returns the checked
    proposal.  A missing field raises the [AttributeError] of the store; a
    phase without dataloader raises [IndexError] (empty list) or
    [AttributeError] (no such trainer attribute).  On every failure the world
    is untouched: nothing was written to the model. *)
Theorem adjust_batch_size_fails_cleanly
    (factor : Q) (value : option Z) (desc : option string) (w : World) :
  match _adjust_batch_size factor value desc w with
  | (Returned (n, changed), w') =>
      exists b d,
        batch_size_of w = inr b
        /\ relevant_dataloader (trainer w) = Some d
        /\ n = clamp d (proposal b factor value)
        /\ changed = negb (n =? b)
        /\ batch_size_of w' = inr n
  | (Raised e, w') =>
      w' = w
      /\ (batch_size_of w = inl e
          \/ (relevant_dataloader (trainer w) = None
              /\ (e = IndexError \/ exists name, e = AttributeError name)))
  | (OutOfFuel, _) => False
  end.
Proof.
  destruct (_adjust_batch_size factor value desc w) as [r w'] eqn:H.
  destruct (adjust_batch_size_inv _ _ _ _ _ _ H) as [(b & d & Hb & Hd) | (-> & e & -> & He)].
  - destruct (adjust_batch_size_run factor value desc w b d Hb Hd) as (m' & Hset & Hrun).
    rewrite Hrun in H. injection H as <- <-.
    exists b, d. repeat split; try assumption.
    destruct (lightning_setattr_getattr _ _ _ (clamp d (proposal b factor value)) Hb)
      as (m'' & Hset' & Hget & _).
    unfold batch_size_of in *. rewrite Hset in Hset'. injection Hset' as <-. exact Hget.
  - split; [reflexivity | exact He].
Qed.

(** ** Trial settings and their restoration *)

Ltac other_index :=
  let x := fresh "x" in
  let Hx := fresh "Hx" in
  intros x Hx; destruct x; first [reflexivity | exfalso; apply Hx; reflexivity].

Lemma same_fixed_refl t : same_fixed t t.
Proof. repeat split. Qed.

Lemma reset_params_exact w l p :
  phase_loop (trainer w) = Some l ->
  phase_prefix (trainer w) = Some p ->
  exists t',
    _reset_params w
    = (Returned tt, {| trainer := t'; self := self w; files := files w; calls := calls w |})
    /\ trial_settings (self w) l p (trainer w) t'.
Proof.
  unfold phase_loop, phase_prefix, _reset_params, bind, get_trainer, get_self,
    stage_loop, stage_prefix, trial_settings, same_fixed.
  simpl. destruct (bool_decide (fn (trainer w) = TrainerFn.FITTING)); simpl.
  - intros [= <-] [= <-]. eexists. split; [reflexivity|]. simpl.
    repeat split; try reflexivity; other_index.
  - destruct (stage (trainer w)) eqn:Hst; simpl; try discriminate; intros [= <-] [= <-];
      match goal with
      | |- context [verbose ?x] => destruct (verbose x) eqn:Hv
      end; simpl;
      (eexists; split; [reflexivity|]; simpl; rewrite ?Hst;
       repeat split; try reflexivity; other_index).
Qed.

Lemma restore_params_exact w t0 l p :
  snapshot_of t0 l p (_dumped_params (self w)) ->
  fn (trainer w) = fn t0 ->
  stage (trainer w) = stage t0 ->
  phase_loop t0 = Some l ->
  phase_prefix t0 = Some p ->
  exists t',
    _restore_params w
    = (Returned tt, {| trainer := t'; self := self w; files := files w; calls := calls w |})
    /\ put_back t0 l p (trainer w) t'.
Proof.
  unfold snapshot_of, phase_loop, phase_prefix, put_back, same_fixed.
  intros (Hlog & Hcb & Hsd & Hrest) Hfn Hst.
  unfold _restore_params, dumped, bind, get_self, get_trainer, stage_loop, stage_prefix.
  simpl. rewrite Hlog. simpl. rewrite Hcb. simpl. rewrite Hfn, Hst.
  destruct (bool_decide (fn t0 = TrainerFn.FITTING)) eqn:Hfit; simpl.
  - destruct Hrest as (Hms & Hlv & Hverb). intros [= <-] [= <-].
    rewrite Hms. simpl. rewrite Hlv. simpl. rewrite Hsd. simpl. rewrite Hverb.
    eexists. split; [reflexivity|]. simpl.
    repeat split; try reflexivity; try assumption; other_index.
  - destruct Hrest as (Hle & Hverb).
    destruct (stage t0); simpl; try discriminate; intros [= <-] [= <-];
      rewrite Hle; simpl; rewrite Hsd; simpl; rewrite Hverb;
      match goal with
      | |- context [verbose ?x] => destruct (verbose x)
      end; simpl;
      (eexists; split; [reflexivity|]; simpl;
       repeat split; try reflexivity; try assumption; other_index).
Qed.

Lemma Loop_eq (a b : Loop) :
  progress a = progress b -> restarting a = restarting b ->
  max_steps a = max_steps b -> verbose a = verbose b -> a = b.
Proof. destruct a, b. simpl. congruence. Qed.

(** X5: the trial settings.  [_reset_params] replaces a configured logger by
    a [DummyLogger] and leaves a trainer without logger without one, empties
    the list of callbacks, and sets the batch limit of the phase to
    [steps_per_trial]; during a fit it also sets the fit loop's [max_steps] to
    [steps_per_trial], in an evaluation it switches [verbose] off on a loop
    that has the attribute.  It writes nothing else: the other batch limits,
    the other loops, the model, the dataloaders and the finder itself are as
    before. *)
Theorem reset_params_applies_trial_settings (w : World) (l : LoopId) (p : Prefix) :
  phase_loop (trainer w) = Some l ->
  phase_prefix (trainer w) = Some p ->
  exists w',
    _reset_params w = (Returned tt, w')
    /\ trial_settings (self w) l p (trainer w) (trainer w')
    /\ self w' = self w /\ files w' = files w /\ calls w' = calls w.
Proof.
  intros Hl Hp. destruct (reset_params_exact w l p Hl Hp) as (t' & Hrun & Hts).
  eexists. split; [exact Hrun|]. simpl. auto.
Qed.

Lemma reset_params_applies_trial_settings_witness :
  exists w',
    _reset_params (validate_world "power" 2 3 1000) = (Returned tt, w')
    /\ trial_settings (self (validate_world "power" 2 3 1000)) validate_loop val
         (trainer (validate_world "power" 2 3 1000)) (trainer w')
    /\ self w' = self (validate_world "power" 2 3 1000)
    /\ files w' = files (validate_world "power" 2 3 1000)
    /\ calls w' = calls (validate_world "power" 2 3 1000).
Proof.
  apply (reset_params_applies_trial_settings (validate_world "power" 2 3 1000)
           validate_loop val); reflexivity.
Defined.

(** X6: a round trip.  Recording the trainer's settings, applying the trial
    settings and restoring what was recorded gives the trainer back as it
    was, in every field and every loop, except that the [restarting] flag of
    the phase's loop ends switched off. *)
Theorem dump_reset_restore_round_trip (w : World) (l : LoopId) (p : Prefix) :
  phase_loop (trainer w) = Some l ->
  phase_prefix (trainer w) = Some p ->
  exists D t',
    (_dump_params ;; _reset_params ;; _restore_params) w
    = (Returned tt, {| trainer := t'; self := set_dumped_params D (self w);
                       files := files w; calls := calls w |})
    /\ same_outside_loops (trainer w) t'
    /\ (forall l', l' <> l -> loops t' l' = loops (trainer w) l')
    /\ loops t' l = set_restarting false (loops (trainer w) l).
Proof.
  intros Hl Hp.
  destruct (dump_params_run w l p Hl Hp) as (D & Hsnap & Hdump).
  set (w1 := {| trainer := trainer w; self := set_dumped_params D (self w);
                files := files w; calls := calls w |}) in *.
  destruct (reset_params_exact w1 l p Hl Hp) as (t1 & Hreset & Hts).
  destruct Hts as (_ & _ & _ & Hlim1 & Hloop1 & Hloops1 & Hfix1).
  pose proof Hfix1 as (Hfn1 & Hst1 & _).
  set (w2 := {| trainer := t1; self := self w1; files := files w1; calls := calls w1 |}) in *.
  destruct (restore_params_exact w2 (trainer w) l p Hsnap Hfn1 Hst1 Hl Hp)
    as (t2 & Hrestore & Hpb).
  destruct Hpb as (Hlog & Hcb & Hlimp & Hlim2 & Hprog & Hrst & Hms & Hvb & Hloops2 & Hfix2).
  exists D, t2.
  rewrite (bind_returned _ _ _ _ _ Hdump), (bind_returned _ _ _ _ _ Hreset).
  split; [exact Hrestore|].
  simpl in *.
  destruct Hfix1 as (? & ? & ? & ? & ? & ? & ? & ? & ? & ? & ?).
  destruct Hfix2 as (? & ? & ? & ? & ? & ? & ? & ? & ? & ? & ?).
  split.
  { unfold same_outside_loops. repeat split; try congruence.
    intros q. destruct (decide (q = p)) as [-> | Hq]; [exact Hlimp|].
    rewrite (Hlim2 q Hq). apply (Hlim1 q Hq). }
  split.
  { intros l' Hl'. rewrite (Hloops2 l' Hl'). apply (Hloops1 l' Hl'). }
  apply Loop_eq; simpl.
  - exact Hprog.
  - exact Hrst.
  - rewrite Hms, Hloop1.
    destruct (bool_decide (fn (trainer w) = TrainerFn.FITTING)); [reflexivity|].
    destruct (verbose (loops (trainer w) l)); reflexivity.
  - rewrite Hvb, Hloop1.
    destruct (bool_decide (fn (trainer w) = TrainerFn.FITTING)); [reflexivity|].
    destruct (verbose (loops (trainer w) l)) eqn:Hv; simpl; congruence.
Qed.

Lemma dump_reset_restore_round_trip_witness :
  exists D t',
    (_dump_params ;; _reset_params ;; _restore_params) (validate_world "power" 2 3 1000)
    = (Returned tt, {| trainer := t';
                       self := set_dumped_params D (self (validate_world "power" 2 3 1000));
                       files := files (validate_world "power" 2 3 1000);
                       calls := calls (validate_world "power" 2 3 1000) |})
    /\ same_outside_loops (trainer (validate_world "power" 2 3 1000)) t'
    /\ (forall l', l' <> validate_loop ->
                   loops t' l' = loops (trainer (validate_world "power" 2 3 1000)) l')
    /\ loops t' validate_loop
       = set_restarting false (loops (trainer (validate_world "power" 2 3 1000)) validate_loop).
Proof.
  apply (dump_reset_restore_round_trip (validate_world "power" 2 3 1000) validate_loop val);
    reflexivity.
Defined.

Lemma finish_inv path ns w w' :
  finish path ns w = (Returned tt, w') ->
  exists w1,
    _restore_params w = (Returned tt, w1)
    /\ loops (trainer w') = loops (trainer w1)
    /\ limit_batches (trainer w') = limit_batches (trainer w1).
Proof.
  unfold finish. unfold bind at 1.
  destruct (_restore_params w) as [[[]|e|] w1]; try discriminate.
  intros H. exists w1. split; [reflexivity|].
  unfold progress_bar_enable, restore_checkpoint, remove_checkpoint, log_call,
    modify_trainer, modify_self, get_self, bind in H. simpl in H.
  destruct (files w1 !! path); simpl in H; [|discriminate].
  destruct (_early_exit (self w1)); simpl in H; [discriminate|].
  injection H as <-. simpl.
  destruct (progress_bar_callback (trainer w1)); split; reflexivity.
Qed.

(** X7: after a search that returns in an evaluation phase whose loop has the
    [verbose] attribute, [verbose] is back at its value from before the
    search, whatever the trials did to it. *)
Theorem evaluation_search_restores_verbose
    (E : Env) (fuel : nat) (w w' : World) (l : LoopId) :
  phase_stable E ->
  fast_dev_run (trainer w) = false ->
  fn (trainer w) <> TrainerFn.FITTING ->
  phase_loop (trainer w) = Some l ->
  is_Some (verbose (loops (trainer w) l)) ->
  scale_batch_size E fuel w = (Returned tt, w') ->
  verbose (loops (trainer w') l) = verbose (loops (trainer w) l).
Proof.
  intros Hstable Hfast Hfn Hl [b Hb] Hrun.
  destruct (scale_batch_size_inv E fuel w _ _ Hfast Hrun)
    as [(l0 & p & ns & w2 & Hl0 & Hp & Hsnap & _ & Hphase & Hfin) | (Hno & _)];
    [|destruct (Hno tt eq_refl)].
  rewrite Hl in Hl0. injection Hl0 as <-.
  destruct (Hphase Hstable) as (Hfn2 & Hst2).
  destruct (finish_inv _ _ _ _ Hfin) as (w1 & Hrestore & Hloops & _).
  destruct (restore_params_exact w2 (trainer w) l p Hsnap Hfn2 Hst2 Hl Hp)
    as (t' & Hrestore' & Hpb).
  rewrite Hrestore' in Hrestore. injection Hrestore as <-.
  destruct Hpb as (_ & _ & _ & _ & _ & _ & _ & Hvb & _).
  rewrite Hloops. simpl. rewrite Hvb, (bool_decide_eq_false_2 _ Hfn), Hb. reflexivity.
Qed.

Lemma evaluation_search_restores_verbose_witness :
  verbose (loops (trainer (snd validate_run)) validate_loop)
  = verbose (loops (trainer (validate_world "power" 2 3 1000)) validate_loop).
Proof.
  refine (evaluation_search_restores_verbose
            (synthetic "batch_size" (RuntimeError true) (Some 20)) 0
            (validate_world "power" 2 3 1000) (snd validate_run) validate_loop
            _ _ _ _ _ _).
  - apply synthetic_phase_stable.
  - reflexivity.
  - discriminate.
  - reflexivity.
  - eexists. reflexivity.
  - vm_compute. reflexivity.
Defined.

(** ** What a trial starts from *)

(** X8: every trial starts from the recorded progress.  [_try_loop_run] hands
    [loop.run()] a trainer whose running loop holds the progress recorded by
    [_dump_params], with [restarting] off, whatever progress and flag an
    earlier trial left there; the loop's other attributes, the other loops and
    the rest of the trainer are handed over as they are.  The run is logged,
    and its outcome and trainer are what [_try_loop_run] gives back.  Without
    a recorded progress the call raises [KeyError] before any run. *)
Theorem try_loop_run_starts_from_snapshot (E : Env) (w : World) (l : LoopId) :
  phase_loop (trainer w) = Some l ->
  match _dumped_params (self w) !! "loop_state_dict" with
  | Some (VStateDict sd) =>
      exists t_in,
        same_outside_loops (trainer w) t_in
        /\ (forall l', l' <> l -> loops t_in l' = loops (trainer w) l')
        /\ loops t_in l = {| progress := sd; restarting := false;
                             max_steps := max_steps (loops (trainer w) l);
                             verbose := verbose (loops (trainer w) l) |}
        /\ _try_loop_run E w
           = (match fst (env_run E l t_in) with Some e => Raised e | None => Returned tt end,
              {| trainer := snd (env_run E l t_in); self := self w; files := files w;
                 calls := (calls w ++ [loop_run_call l])%list |})
  | Some _ => True
  | None => _try_loop_run E w = (Raised (KeyError "loop_state_dict"), w)
  end.
Proof.
  intros Hl.
  assert (Hloop : (if bool_decide (fn (trainer w) = TrainerFn.FITTING)
                   then ret fit_loop else stage_loop (trainer w)) = ret l).
  { unfold phase_loop in Hl. unfold stage_loop.
    destruct (bool_decide (fn (trainer w) = TrainerFn.FITTING)); [congruence|].
    destruct (RunningStage.loop (stage (trainer w))); [discriminate|].
    injection Hl as ->. reflexivity. }
  unfold _try_loop_run, dumped, loop_run, log_call, modify_loop, modify_trainer, get_self,
    get_trainer, bind.
  simpl. rewrite Hloop. simpl.
  destruct (_dumped_params (self w) !! "loop_state_dict") as [[| | | | |sd]|]; simpl;
    try exact I; [|reflexivity].
  match goal with |- context [env_run E l ?t] => exists t end.
  split; [|split; [|split; [|destruct (env_run E l _) as [[e|] t']; reflexivity]]].
  - repeat split.
  - intros l' Hl'. simpl. rewrite !fn_lookup_insert_ne by congruence. reflexivity.
  - simpl. rewrite fn_lookup_insert. simpl. rewrite fn_lookup_insert. reflexivity.
Qed.

Lemma try_loop_run_starts_from_snapshot_witness :
  let E := synthetic "batch_size" (RuntimeError true) None in
  let w := with_dumped (<["loop_state_dict" := VStateDict {["passes" := 7]}]> ∅)
             (validate_world "power" 2 3 1000) in
  exists t_in,
    same_outside_loops (trainer w) t_in
    /\ (forall l', l' <> validate_loop -> loops t_in l' = loops (trainer w) l')
    /\ loops t_in validate_loop
       = {| progress := {["passes" := 7]}; restarting := false;
            max_steps := max_steps (loops (trainer w) validate_loop);
            verbose := verbose (loops (trainer w) validate_loop) |}
    /\ _try_loop_run E w
       = (match fst (env_run E validate_loop t_in) with
          | Some e => Raised e
          | None => Returned tt
          end,
          {| trainer := snd (env_run E validate_loop t_in); self := self w; files := files w;
             calls := (calls w ++ [loop_run_call validate_loop])%list |}).
Proof.
  intros E w. exact (try_loop_run_starts_from_snapshot E w validate_loop eq_refl).
Defined.

(** ** What a search records *)

(** X9: [_dump_params] starts from an empty record: what it leaves in
    [_dumped_params], and its outcome, do not depend on what an earlier
    search left there.  A fit records no [loop_verbose] and no
    [limit_eval_batches]; an evaluation records no [max_steps] and no
    [limit_val_batches]. *)
Theorem dump_params_starts_afresh (w : World) (D0 : gmap string DumpedValue) :
  _dump_params (with_dumped D0 w) = _dump_params (with_dumped ∅ w)
  /\ forall w',
       _dump_params (with_dumped D0 w) = (Returned tt, w') ->
       if bool_decide (fn (trainer w) = TrainerFn.FITTING)
       then _dumped_params (self w') !! "loop_verbose" = None
            /\ _dumped_params (self w') !! "limit_eval_batches" = None
       else _dumped_params (self w') !! "max_steps" = None
            /\ _dumped_params (self w') !! "limit_val_batches" = None.
Proof.
  unfold _dump_params, bind, get_trainer, stage_loop, stage_prefix, set_dumped, modify_self.
  simpl. destruct (bool_decide (fn (trainer w) = TrainerFn.FITTING)); simpl.
  - split; [reflexivity|]. intros w' [= <-]. simpl. split; reflexivity.
  - destruct (stage (trainer w)); simpl;
      try (split; [reflexivity | discriminate]);
      match goal with
      | |- context [verbose ?x] => destruct (verbose x)
      end; simpl;
      (split; [reflexivity|]; intros w' [= <-]; simpl; split; reflexivity).
Qed.

(** ** Out-of-memory errors stay inside the search *)

Lemma raising_mono (P Q : bool -> World -> Prop) {A} (m : M A) :
  (forall oom w, P oom w -> Q oom w) -> raising P m -> raising Q m.
Proof. intros HPQ Hm w r w' oom H Hr. eapply HPQ, Hm; eassumption. Qed.

Lemma raising_save_checkpoint P path : raising P (save_checkpoint path).
Proof. intros w r w' oom H ->. rewrite save_checkpoint_run in H. discriminate. Qed.

Lemma raising_reset_params P : raising P _reset_params.
Proof. unfold _reset_params, modify_loop, stage_loop, stage_prefix. raising_steps. Qed.

Section NoOom.
Context (E : Env).

Lemma no_oom_try_except {A} (body : M A) (h : exn -> M A) :
  (forall e, raising not_oom (h e)) ->
  raising not_oom (try_except_RuntimeError body (fun e => if is_oom_error e then h e else raise e)).
Proof.
  intros Hh w r w' oom H Hr. unfold try_except_RuntimeError in H.
  destruct (body w) as [[a|e|] w1] eqn:E1.
  - injection H as <- <-. discriminate.
  - destruct e; try (injection H as <- <-; discriminate).
    simpl in H. destruct oom0.
    + eapply Hh; eassumption.
    + injection H as <- <-. injection Hr as <-. reflexivity.
  - injection H as <- <-. discriminate.
Qed.

Lemma no_oom_reset_dataloaders : raising not_oom (_reset_dataloaders E).
Proof. unfold _reset_dataloaders, reset_dataloader, stage_prefix. raising_steps. Qed.

Lemma no_oom_power_iteration : raising not_oom (power_iteration E).
Proof.
  unfold power_iteration, _collect_garbage.
  apply raising_bind; [apply raising_ret|]. intros _.
  apply no_oom_try_except. intros e.
  pose proof (raising_adjust_batch_size not_oom). raising_steps.
Qed.

Lemma no_oom_power_loop n new_size : raising not_oom (power_loop E n new_size).
Proof.
  revert new_size. induction n as [|n IH]; intros new_size; simpl.
  - apply raising_ret.
  - apply raising_bind; [apply no_oom_power_iteration|].
    intros [ns brk]. destruct brk; [apply raising_ret | apply IH].
Qed.

Lemma no_oom_binary_iteration v : raising not_oom (binary_iteration E v).
Proof.
  unfold binary_iteration, _collect_garbage.
  apply raising_bind; [apply raising_ret|]. intros _.
  apply no_oom_try_except. intros e.
  pose proof (raising_adjust_batch_size not_oom). pose proof no_oom_reset_dataloaders.
  raising_steps.
Qed.

Lemma no_oom_binary_loop fuel v : raising not_oom (binary_loop E fuel v).
Proof.
  revert v. induction fuel as [|n IH]; intros v; simpl.
  - apply raising_out_of_fuel.
  - apply raising_bind; [apply no_oom_binary_iteration|].
    intros [v' brk]. destruct brk; [apply raising_ret | apply IH].
Qed.

Lemma no_oom_search fuel f new_size : raising not_oom (search E fuel f new_size).
Proof.
  unfold search, _run_power_scaling, _run_binary_scaling.
  destruct (bool_decide (mode f = "power")).
  - apply raising_bind; [apply raising_get_self|]. intros f'. apply no_oom_power_loop.
  - destruct (bool_decide (mode f = "binsearch")); [apply no_oom_binary_loop | apply raising_ret].
Qed.

Lemma no_oom_search_and_restore fuel path f :
  raising not_oom
    (save_checkpoint path ;;
     _dump_params ;;
     _reset_params ;;
     progress_bar_disable ;;
     r <- _adjust_batch_size 1 (Some (init_val f)) None ;;
     new_size <- search E fuel f (fst r) ;;
     finish path new_size).
Proof.
  apply raising_bind; [apply raising_save_checkpoint|]. intros _.
  apply raising_bind; [apply (raising_mono (fun _ _ => False)); [tauto | apply never_dump_params]|].
  intros _.
  apply raising_bind; [apply raising_reset_params|]. intros _.
  apply raising_bind; [apply raising_modify_trainer|]. intros _.
  apply raising_bind; [apply raising_adjust_batch_size|]. intros r0.
  apply raising_bind; [apply no_oom_search|]. intros ns.
  apply (raising_mono (fun _ _ => False)); [tauto | apply never_finish].
Qed.

Lemma no_oom_scale_batch_size fuel w :
  fast_dev_run (trainer w) = false ->
  forall r w' oom,
    scale_batch_size E fuel w = (r, w') -> r = Raised (RuntimeError oom) -> oom = false.
Proof.
  intros Hfast r w' oom H Hr. rewrite (scale_batch_size_unfold E fuel w Hfast) in H.
  exact (no_oom_search_and_restore fuel _ _ _ _ _ _ H Hr).
Qed.

End NoOom.

(** X10: an out-of-memory error never leaves the search.  Whatever the
    collaborators do, a [RuntimeError] that [scale_batch_size] raises is not
    an out-of-memory error: those are caught around every trial, and the
    handlers raise none of their own. *)
Theorem out_of_memory_never_escapes (E : Env) (fuel : nat) (w : World) :
  match fst (scale_batch_size E fuel w) with
  | Raised (RuntimeError oom) => oom = false
  | _ => True
  end.
Proof.
  destruct (scale_batch_size E fuel w) as [r w'] eqn:H. simpl.
  destruct r as [a|e|]; try exact I. destruct e; try exact I.
  destruct (fast_dev_run (trainer w)) eqn:Hfast.
  - unfold scale_batch_size, bind, get_trainer, get_self in H. simpl in H.
    rewrite Hfast in H. discriminate.
  - exact (no_oom_scale_batch_size E fuel w Hfast _ _ _ H eq_refl).
Qed.

(** ** The trial budget of growth mode *)

Lemma steady_refl w : steady w w.
Proof. split; reflexivity. Qed.

Lemma steady_trans w1 w2 w3 : steady w1 w2 -> steady w2 w3 -> steady w1 w3.
Proof. intros [? ?] [? ?]. split; congruence. Qed.

Lemma steady_modify_trainer f : preserves steady (modify_trainer f).
Proof. intros w r w' H. injection H as _ <-. split; reflexivity. Qed.

Lemma steady_modify_self f :
  (forall s, max_trials (f s) = max_trials s) -> preserves steady (modify_self f).
Proof. intros Hf w r w' H. injection H as _ <-. split; [reflexivity | apply Hf]. Qed.

Lemma steady_log_call c :
  match c with loop_run_call _ => False | _ => True end ->
  preserves steady (log_call c).
Proof.
  intros Hc w r w' H. split; [exact (same_runs_log_call c Hc _ _ _ H)|].
  injection H as _ <-. reflexivity.
Qed.

Ltac steady_steps :=
  repeat first
    [ progress preserves_steps steady_refl steady_trans
    | apply steady_modify_trainer
    | apply steady_modify_self; intros ?; reflexivity
    | apply steady_log_call; exact I ].

Lemma steady_save_checkpoint path : preserves steady (save_checkpoint path).
Proof.
  intros w r w' H. rewrite save_checkpoint_run in H. injection H as _ <-.
  unfold steady, runs. simpl. rewrite count_runs_app. simpl. split; [lia | reflexivity].
Qed.

Lemma steady_dump_params : preserves steady _dump_params.
Proof. unfold _dump_params, set_dumped, stage_loop, stage_prefix. steady_steps. Qed.

Lemma steady_reset_params : preserves steady _reset_params.
Proof. unfold _reset_params, modify_loop, stage_loop, stage_prefix. steady_steps. Qed.

Lemma steady_adjust_batch_size factor value desc :
  preserves steady (_adjust_batch_size factor value desc).
Proof. unfold _adjust_batch_size, stage_prefix, prefix_dataloaders. steady_steps. Qed.

Lemma same_runs_finish path ns : preserves same_runs (finish path ns).
Proof.
  assert (Hfile : preserves same_runs
                    (fun w : World =>
                       match files w !! path with
                       | Some c =>
                           (Returned tt,
                            {| trainer := set_lightning_module
                                            {| attrs := attrs (lightning_module (trainer w));
                                               hparams := hparams (lightning_module (trainer w));
                                               weights := c |} (trainer w);
                               self := self w; files := files w; calls := calls w |})
                       | None => (Raised (FileNotFoundError path), w)
                       end)).
  { intros w r w' H. destruct (files w !! path); injection H as _ <-; reflexivity. }
  assert (Hdel : preserves same_runs
                   (fun w : World =>
                      (Returned tt,
                       {| trainer := trainer w; self := self w; files := delete path (files w);
                          calls := calls w |}))).
  { intros w r w' H. injection H as _ <-. reflexivity. }
  unfold finish, _restore_params, progress_bar_enable, restore_checkpoint, remove_checkpoint,
    modify_loop, stage_loop, stage_prefix, as_logger, as_callbacks, as_int, as_limit, as_bool,
    as_state_dict.
  same_runs_steps.
Qed.

Lemma at_most_runs_weaken k k' {A} (m : M A) :
  k <= k' -> preserves (at_most_runs k) m -> preserves (at_most_runs k') m.
Proof. intros Hk Hm w r w' H. specialize (Hm _ _ _ H). unfold at_most_runs in *. lia. Qed.

Lemma at_most_runs_same_runs {A} (m : M A) :
  preserves same_runs m -> preserves (at_most_runs 0) m.
Proof. intros Hm w r w' H. specialize (Hm _ _ _ H). unfold at_most_runs, same_runs in *. lia. Qed.

Lemma at_most_runs_bind k1 k2 {A B} (m : M A) (k : A -> M B) :
  0 <= k2 ->
  preserves (at_most_runs k1) m ->
  (forall a, preserves (at_most_runs k2) (k a)) ->
  preserves (at_most_runs (k1 + k2)) (bind m k).
Proof.
  intros Hk2 Hm Hk w r w' H. unfold bind in H.
  destruct (m w) as [[a|e|] w1] eqn:E1.
  - specialize (Hm _ _ _ E1). specialize (Hk _ _ _ _ H). unfold at_most_runs in *. lia.
  - injection H as _ <-. specialize (Hm _ _ _ E1). unfold at_most_runs in *. lia.
  - injection H as _ <-. specialize (Hm _ _ _ E1). unfold at_most_runs in *. lia.
Qed.

Lemma at_most_runs_try_except k1 k2 {A} (body : M A) (handler : exn -> M A) :
  0 <= k2 ->
  preserves (at_most_runs k1) body ->
  (forall e, preserves (at_most_runs k2) (handler e)) ->
  preserves (at_most_runs (k1 + k2)) (try_except_RuntimeError body handler).
Proof.
  intros Hk2 Hb Hh w r w' H. unfold try_except_RuntimeError in H.
  destruct (body w) as [[a|e|] w1] eqn:E1.
  - injection H as _ <-. specialize (Hb _ _ _ E1). unfold at_most_runs in *. lia.
  - specialize (Hb _ _ _ E1).
    destruct e; try (injection H as _ <-; unfold at_most_runs in *; lia).
    specialize (Hh _ _ _ _ H). unfold at_most_runs in *. lia.
  - injection H as _ <-. specialize (Hb _ _ _ E1). unfold at_most_runs in *. lia.
Qed.

Section TrialBudget.
Context (E : Env).

Lemma at_most_runs_loop_run l : preserves (at_most_runs 1) (loop_run E l).
Proof.
  intros w r w' H. unfold loop_run, bind, log_call in H. simpl in H.
  destruct (env_run E l (trainer w)) as [re t'].
  injection H as _ <-. unfold at_most_runs, runs. simpl. rewrite count_runs_app. simpl. lia.
Qed.

Lemma at_most_runs_try_loop_run : preserves (at_most_runs 1) (_try_loop_run E).
Proof.
  unfold _try_loop_run.
  repeat (apply (at_most_runs_bind 0 1); [lia | | intros ?];
          [apply at_most_runs_same_runs;
           unfold stage_loop, as_state_dict, modify_loop; solve [same_runs_steps]|]).
  apply at_most_runs_loop_run.
Qed.

Lemma at_most_runs_power_iteration : preserves (at_most_runs 1) (power_iteration E).
Proof.
  unfold power_iteration, _collect_garbage.
  apply (at_most_runs_bind 0 1); [lia | apply at_most_runs_same_runs; same_runs_steps|].
  intros _. apply (at_most_runs_try_except 1 0); [lia | |].
  - apply (at_most_runs_bind 1 0); [lia | apply at_most_runs_try_loop_run|].
    intros _. apply at_most_runs_same_runs.
    pose proof same_runs_adjust_batch_size. pose proof (same_runs_reset_dataloaders E).
    same_runs_steps.
  - intros e. apply at_most_runs_same_runs.
    pose proof same_runs_adjust_batch_size. same_runs_steps.
Qed.

Lemma at_most_runs_power_loop n new_size :
  preserves (at_most_runs (Z.of_nat n)) (power_loop E n new_size).
Proof.
  revert new_size. induction n as [|n IH]; intros new_size.
  - apply at_most_runs_same_runs. simpl. same_runs_steps.
  - replace (Z.of_nat (S n)) with (1 + Z.of_nat n) by lia. simpl.
    apply at_most_runs_bind; [lia | apply at_most_runs_power_iteration|].
    intros [ns brk]. destruct brk; [|apply IH].
    apply (at_most_runs_weaken 0); [lia|]. apply at_most_runs_same_runs. same_runs_steps.
Qed.

Lemma within_budget_after_steady {A B} (m : M A) (k : A -> M B) :
  preserves steady m ->
  (forall a, preserves within_budget (k a)) ->
  preserves within_budget (bind m k).
Proof.
  intros Hm Hk w r w' H. unfold bind in H.
  destruct (m w) as [[a|e|] w1] eqn:E1.
  - destruct (Hm _ _ _ E1) as (Hr & Hmax). specialize (Hk _ _ _ _ H).
    unfold within_budget, at_most_runs in *. rewrite Hmax, Hr in Hk. exact Hk.
  - injection H as _ <-. destruct (Hm _ _ _ E1) as (Hr & _).
    unfold within_budget, at_most_runs. lia.
  - injection H as _ <-. destruct (Hm _ _ _ E1) as (Hr & _).
    unfold within_budget, at_most_runs. lia.
Qed.

Lemma within_budget_before_same_runs {A B} (m : M A) (k : A -> M B) :
  preserves within_budget m ->
  (forall a, preserves same_runs (k a)) ->
  preserves within_budget (bind m k).
Proof.
  intros Hm Hk w r w' H. unfold bind in H.
  destruct (m w) as [[a|e|] w1] eqn:E1.
  - specialize (Hm _ _ _ E1). specialize (Hk _ _ _ _ H).
    unfold within_budget, at_most_runs, same_runs in *. lia.
  - injection H as _ <-. exact (Hm _ _ _ E1).
  - injection H as _ <-. exact (Hm _ _ _ E1).
Qed.

Lemma within_budget_power_scaling new_size :
  preserves within_budget (_run_power_scaling E new_size).
Proof.
  intros w r w' H. unfold _run_power_scaling, bind, get_self in H.
  pose proof (at_most_runs_power_loop _ _ _ _ _ H) as Hb.
  unfold within_budget, at_most_runs in *. lia.
Qed.

Lemma within_budget_scale_batch_size fuel w r w' :
  mode (self w) = "power" ->
  scale_batch_size E fuel w = (r, w') ->
  within_budget w w'.
Proof.
  intros Hmode H.
  destruct (fast_dev_run (trainer w)) eqn:Hfast.
  { unfold scale_batch_size, bind, get_trainer, get_self in H. simpl in H.
    rewrite Hfast in H. injection H as _ <-. unfold within_budget, at_most_runs. lia. }
  rewrite (scale_batch_size_unfold E fuel w Hfast) in H.
  revert H. apply within_budget_after_steady; [apply steady_save_checkpoint|]. intros _.
  apply within_budget_after_steady; [apply steady_dump_params|]. intros _.
  apply within_budget_after_steady; [apply steady_reset_params|]. intros _.
  apply within_budget_after_steady; [apply steady_modify_trainer|]. intros _.
  apply within_budget_after_steady; [apply steady_adjust_batch_size|]. intros r0.
  apply within_budget_before_same_runs; [|intros ns; apply same_runs_finish].
  unfold search. rewrite (bool_decide_eq_true_2 _ Hmode).
  apply within_budget_power_scaling.
Qed.

End TrialBudget.

(** X11: growth mode runs at most [max_trials] trials, whatever the trials do
    and however the search ends: between the start and the end of
    [scale_batch_size] the call log gains at most max(0, [max_trials]) runs of
    the loop. *)
Theorem power_mode_runs_at_most_max_trials (E : Env) (fuel : nat) (w : World) :
  mode (self w) = "power" ->
  runs w <= runs (snd (scale_batch_size E fuel w))
         <= runs w + Z.max 0 (max_trials (self w)).
Proof.
  intros Hmode. destruct (scale_batch_size E fuel w) as [r w'] eqn:H.
  exact (within_budget_scale_batch_size E fuel w r w' Hmode H).
Qed.

Lemma power_mode_runs_at_most_max_trials_witness :
  runs (fit_world "power" 2 25 1000) <= runs (snd fatal_run)
  <= runs (fit_world "power" 2 25 1000) + Z.max 0 25.
Proof.
  apply (power_mode_runs_at_most_max_trials fatal_above_7 0 (fit_world "power" 2 25 1000)).
  reflexivity.
Defined.

(** ** The bisection always ends *)

Lemma bind_inv {A B} (m : M A) (k : A -> M B) w r w' :
  bind m k w = (r, w') ->
  (exists a w1, m w = (Returned a, w1) /\ k a w1 = (r, w'))
  \/ (exists e, m w = (Raised e, w') /\ r = Raised e)
  \/ (m w = (OutOfFuel, w') /\ r = OutOfFuel).
Proof.
  unfold bind. destruct (m w) as [[a|e|] w1]; intros H.
  - left. eauto.
  - right. left. injection H as <- <-. eauto.
  - right. right. injection H as <- <-. eauto.
Qed.

Lemma try_except_inv {A} (body : M A) (h : exn -> M A) w r w' :
  try_except_RuntimeError body h w = (r, w') ->
  body w = (r, w')
  \/ exists oom w1, body w = (Raised (RuntimeError oom), w1) /\ h (RuntimeError oom) w1 = (r, w').
Proof.
  unfold try_except_RuntimeError. destruct (body w) as [[a|e|] w1]; intros H; auto.
  destruct e; auto. right. eauto.
Qed.

Section FuelFree.

Lemma fuel_free_ret {A} (a : A) : fuel_free (ret a).
Proof. intros w. discriminate. Qed.

Lemma fuel_free_raise {A} e : fuel_free (@raise A e).
Proof. intros w. discriminate. Qed.

Lemma fuel_free_lift {A} (x : exn + A) : fuel_free (lift x).
Proof. destruct x; intros w; discriminate. Qed.

Lemma fuel_free_get_trainer : fuel_free get_trainer.
Proof. intros w. discriminate. Qed.

Lemma fuel_free_get_self : fuel_free get_self.
Proof. intros w. discriminate. Qed.

Lemma fuel_free_modify_trainer f : fuel_free (modify_trainer f).
Proof. intros w. discriminate. Qed.

Lemma fuel_free_modify_self f : fuel_free (modify_self f).
Proof. intros w. discriminate. Qed.

Lemma fuel_free_log_call c : fuel_free (log_call c).
Proof. intros w. discriminate. Qed.

Lemma fuel_free_bind {A B} (m : M A) (k : A -> M B) :
  fuel_free m -> (forall a, fuel_free (k a)) -> fuel_free (bind m k).
Proof.
  intros Hm Hk w. unfold bind. specialize (Hm w).
  destruct (m w) as [[a|e|] w1]; simpl in *; [apply Hk | discriminate | destruct (Hm eq_refl)].
Qed.

Lemma fuel_free_try_except {A} (body : M A) (h : exn -> M A) :
  fuel_free body -> (forall e, fuel_free (h e)) -> fuel_free (try_except_RuntimeError body h).
Proof.
  intros Hb Hh w. unfold try_except_RuntimeError. specialize (Hb w).
  destruct (body w) as [[a|e|] w1]; simpl in *; try discriminate; [|exact Hb].
  destruct e; try discriminate. apply Hh.
Qed.

Lemma fuel_free_dumped key : fuel_free (dumped key).
Proof.
  unfold dumped. apply fuel_free_bind; [apply fuel_free_get_self|].
  intros f. destruct (_ !! key); [apply fuel_free_ret | apply fuel_free_raise].
Qed.

Lemma fuel_free_loop_run E l : fuel_free (loop_run E l).
Proof.
  intros w. unfold loop_run, bind, log_call. simpl.
  destruct (env_run E l (trainer w)) as [[e|] t']; discriminate.
Qed.

Lemma fuel_free_save_checkpoint path : fuel_free (save_checkpoint path).
Proof. intros w. rewrite save_checkpoint_run. discriminate. Qed.

End FuelFree.

Ltac fuel_free_steps :=
  repeat first
    [ assumption
    | match goal with H : _ |- fuel_free _ => solve [apply H] end
    | apply fuel_free_loop_run
    | apply fuel_free_dumped
    | apply fuel_free_bind; [|intros ?]
    | apply fuel_free_try_except; [|intros ?]
    | apply fuel_free_ret
    | apply fuel_free_raise
    | apply fuel_free_lift
    | apply fuel_free_get_trainer
    | apply fuel_free_get_self
    | apply fuel_free_modify_trainer
    | apply fuel_free_modify_self
    | apply fuel_free_log_call
    | match goal with
      | |- fuel_free (if ?b then _ else _) => destruct b
      | |- fuel_free (match ?x with _ => _ end) => destruct x
      | |- fuel_free (let '(_, _) := ?x in _) => destruct x
      end ].

Lemma fuel_free_adjust_batch_size factor value desc :
  fuel_free (_adjust_batch_size factor value desc).
Proof. unfold _adjust_batch_size, stage_prefix, prefix_dataloaders. fuel_free_steps. Qed.

Lemma fuel_free_dump_params : fuel_free _dump_params.
Proof. unfold _dump_params, set_dumped, stage_loop, stage_prefix. fuel_free_steps. Qed.

Lemma fuel_free_reset_params : fuel_free _reset_params.
Proof. unfold _reset_params, modify_loop, stage_loop, stage_prefix. fuel_free_steps. Qed.

Lemma fuel_free_finish path ns : fuel_free (finish path ns).
Proof.
  unfold finish, _restore_params, progress_bar_enable, restore_checkpoint, remove_checkpoint,
    modify_loop, stage_loop, stage_prefix, as_logger, as_callbacks, as_int, as_limit, as_bool,
    as_state_dict.
  fuel_free_steps; intros w; try destruct (files w !! path); discriminate.
Qed.

Lemma adjust_batch_size_explicit_le factor x desc w r w' :
  _adjust_batch_size factor (Some x) desc w = (Returned r, w') -> fst r <= x.
Proof.
  intros H.
  destruct (adjust_batch_size_inv _ _ _ _ _ _ H) as [(b & d & Hb & Hd) | (_ & e & [=] & _)].
  destruct (adjust_batch_size_run factor (Some x) desc w b d Hb Hd) as (m' & _ & Hrun).
  rewrite Hrun in H. injection H as <- _. simpl. apply clamp_le.
Qed.

Section Ends.
Context (E : Env).

Lemma fuel_free_try_loop_run : fuel_free (_try_loop_run E).
Proof. unfold _try_loop_run, stage_loop, as_state_dict, modify_loop. fuel_free_steps. Qed.

Lemma fuel_free_reset_dataloaders : fuel_free (_reset_dataloaders E).
Proof. unfold _reset_dataloaders, reset_dataloader, stage_prefix. fuel_free_steps. Qed.

Lemma fuel_free_power_iteration : fuel_free (power_iteration E).
Proof.
  unfold power_iteration, _collect_garbage.
  pose proof fuel_free_try_loop_run. pose proof fuel_free_reset_dataloaders.
  pose proof fuel_free_adjust_batch_size. fuel_free_steps.
Qed.

Lemma fuel_free_power_loop n new_size : fuel_free (power_loop E n new_size).
Proof.
  revert new_size. induction n as [|n IH]; intros new_size; simpl.
  - fuel_free_steps.
  - pose proof fuel_free_power_iteration. fuel_free_steps.
Qed.

Lemma fuel_free_binary_iteration v : fuel_free (binary_iteration E v).
Proof.
  unfold binary_iteration, _collect_garbage.
  pose proof fuel_free_try_loop_run. pose proof fuel_free_reset_dataloaders.
  pose proof fuel_free_adjust_batch_size. fuel_free_steps.
Qed.

(** An iteration that goes on has either counted one more successful trial,
    within the budget, or has met an out-of-memory error at a candidate more
    than one above [low] and lowered the candidate. *)
Lemma binary_iteration_continues v w v' w1 :
  binary_iteration E v w = (Returned (v', false), w1) ->
  self w1 = self w
  /\ ((count v' = count v + 1 /\ count v' <= max_trials (self w))
      \/ (count v' = count v /\ low v' = low v /\ new_size v' < new_size v
          /\ 1 < new_size v - low v)).
Proof.
  intros H. split; [apply (frame_binary_iteration E v _ _ _ H)|].
  unfold binary_iteration, _collect_garbage in H.
  rewrite (bind_returned (ret tt) _ w tt w eq_refl) in H.
  apply try_except_inv in H as [Hbody | (oom & wa & _ & Hh)].
  - left.
    apply bind_inv in Hbody as [(u & wa & Hrun & Hk) | [(e & _ & [=]) | (_ & [=])]].
    destruct (frame_try_loop_run E _ _ _ Hrun) as (Hself & _).
    rewrite (bind_returned get_self _ wa (self wa) wa eq_refl) in Hk.
    cbv beta zeta in Hk. rewrite Hself in Hk.
    destruct (max_trials (self w) <? count v + 1) eqn:Hc; [inversion Hk|].
    apply Z.ltb_ge in Hc.
    assert (Hstep : forall factor value desc,
               (r <- _adjust_batch_size factor value desc ;;
                if snd r
                then _reset_dataloaders E ;;
                     ret ({| low := new_size v; high := high v; count := count v + 1;
                             new_size := fst r |}, false)
                else ret ({| low := new_size v; high := high v; count := count v + 1;
                             new_size := fst r |}, true)) wa
               = (Returned (v', false), w1) ->
               count v' = count v + 1 /\ count v' <= max_trials (self w)).
    { intros factor value desc Hs.
      apply bind_inv in Hs as [(r & wb & _ & Hs) | [(e & _ & [=]) | (_ & [=])]].
      destruct (snd r); [|inversion Hs].
      apply bind_inv in Hs as [(u' & wc & _ & Hs) | [(e & _ & [=]) | (_ & [=])]].
      inversion Hs. simpl. lia. }
    destruct (truthy (high v)) as [h|].
    + destruct (h - new_size v <=? 1); [inversion Hk|]. exact (Hstep _ _ _ Hk).
    + exact (Hstep _ _ _ Hk).
  - right. destruct oom; simpl in Hh; [|inversion Hh].
    rewrite (bind_returned (ret tt) _ wa tt wa eq_refl) in Hh.
    apply bind_inv in Hh as [(r & wb & Hadj & Hk) | [(e & _ & [=]) | (_ & [=])]].
    apply adjust_batch_size_explicit_le in Hadj.
    apply bind_inv in Hk as [(u & wc & _ & Hk) | [(e & _ & [=]) | (_ & [=])]].
    inversion Hk as [[Hv Hbrk Hw]]. simpl.
    apply Z.leb_gt in Hbrk.
    pose proof (midpoint_between (low v) (new_size v) Hbrk). lia.
Qed.

Lemma binary_loop_ends (successes gap : nat) v w :
  max_trials (self w) + 1 - count v <= Z.of_nat successes ->
  new_size v - low v <= Z.of_nat gap ->
  exists fuel, fst (binary_loop E fuel v w) <> OutOfFuel.
Proof.
  revert gap v w.
  induction successes as [|successes IHs]; intros gap;
    induction gap as [|gap IHg]; intros v w Hsucc Hgap;
    pose proof (fuel_free_binary_iteration v w) as Hfree;
    destruct (binary_iteration E v w) as [[[v' brk]|e|] w1] eqn:Hit;
    try (destruct (Hfree eq_refl));
    try (exists 1%nat; simpl; rewrite (bind_raised _ _ _ _ _ Hit); discriminate);
    (destruct brk;
     [exists 1%nat; simpl; rewrite (bind_returned _ _ _ _ _ Hit); discriminate|]);
    destruct (binary_iteration_continues v w v' w1 Hit)
      as (Hself & [(Hcount & Hbudget) | (Hcount & Hlow & Hless & Hwide)]);
    try lia.
  - destruct (IHg v' w1) as (fuel & Hfuel); [rewrite Hself; lia | lia |].
    exists (S fuel). simpl. rewrite (bind_returned _ _ _ _ _ Hit). exact Hfuel.
  - destruct (IHs (Z.to_nat (new_size v' - low v')) v' w1) as (fuel & Hfuel);
      [rewrite Hself; lia | lia |].
    exists (S fuel). simpl. rewrite (bind_returned _ _ _ _ _ Hit). exact Hfuel.
  - destruct (IHs (Z.to_nat (new_size v' - low v')) v' w1) as (fuel & Hfuel);
      [rewrite Hself; lia | lia |].
    exists (S fuel). simpl. rewrite (bind_returned _ _ _ _ _ Hit). exact Hfuel.
  - destruct (IHg v' w1) as (fuel & Hfuel); [rewrite Hself; lia | lia |].
    exists (S fuel). simpl. rewrite (bind_returned _ _ _ _ _ Hit). exact Hfuel.
Qed.

Lemma ends_search f new_size : ends (fun fuel => search E fuel f new_size).
Proof.
  intros w. unfold search, _run_power_scaling, _run_binary_scaling.
  destruct (bool_decide (mode f = "power")).
  - exists 0%nat. apply fuel_free_bind; [apply fuel_free_get_self|].
    intros f'. apply fuel_free_power_loop.
  - destruct (bool_decide (mode f = "binsearch")); [|exists 0%nat; discriminate].
    apply (binary_loop_ends (Z.to_nat (max_trials (self w) + 1)) (Z.to_nat (new_size - 1)));
      simpl; lia.
Qed.

Lemma ends_after {A B} (m : M A) (k : nat -> A -> M B) :
  fuel_free m ->
  (forall a, ends (fun fuel => k fuel a)) ->
  ends (fun fuel => bind m (k fuel)).
Proof.
  intros Hm Hk w. unfold bind. specialize (Hm w).
  destruct (m w) as [[a|e|] w1]; simpl in *.
  - apply Hk.
  - exists 0%nat. discriminate.
  - destruct (Hm eq_refl).
Qed.

Lemma ends_before {A B} (m : nat -> M A) (k : A -> M B) :
  ends m ->
  (forall a, fuel_free (k a)) ->
  ends (fun fuel => bind (m fuel) k).
Proof.
  intros Hm Hk w. destruct (Hm w) as (fuel & Hfuel). exists fuel. unfold bind.
  destruct (m fuel w) as [[a|e|] w1]; simpl in *; [apply Hk | discriminate | destruct (Hfuel eq_refl)].
Qed.

Lemma ends_scale_batch_size : ends (scale_batch_size E).
Proof.
  intros w. destruct (fast_dev_run (trainer w)) eqn:Hfast.
  { exists 0%nat. unfold scale_batch_size, bind, get_trainer, get_self. simpl.
    rewrite Hfast. discriminate. }
  assert (Hends : ends (fun fuel =>
                          save_checkpoint (ckpt_path E (trainer w)) ;;
                          _dump_params ;;
                          _reset_params ;;
                          progress_bar_disable ;;
                          r <- _adjust_batch_size 1 (Some (init_val (self w))) None ;;
                          new_size <- search E fuel (self w) (fst r) ;;
                          finish (ckpt_path E (trainer w)) new_size)).
  { apply ends_after; [apply fuel_free_save_checkpoint|]. intros _.
    apply ends_after; [apply fuel_free_dump_params|]. intros _.
    apply ends_after; [apply fuel_free_reset_params|]. intros _.
    apply ends_after; [apply fuel_free_modify_trainer|]. intros _.
    apply ends_after; [apply fuel_free_adjust_batch_size|]. intros r.
    apply ends_before; [apply ends_search | intros ns; apply fuel_free_finish]. }
  destruct (Hends w) as (fuel & Hfuel). exists fuel.
  rewrite (scale_batch_size_unfold E fuel w Hfast). exact Hfuel.
Qed.

End Ends.

Lemma refines_refl {A} (m : M A) : refines m m.
Proof. intros w r w' H _. exact H. Qed.

Lemma refines_trans {A} (m1 m2 m3 : M A) : refines m1 m2 -> refines m2 m3 -> refines m1 m3.
Proof. intros H12 H23 w r w' H Hr. apply H23; [apply H12|]; assumption. Qed.

Lemma refines_bind {A B} (m m' : M A) (k k' : A -> M B) :
  refines m m' -> (forall a, refines (k a) (k' a)) -> refines (bind m k) (bind m' k').
Proof.
  intros Hm Hk w r w' H Hr.
  apply bind_inv in H as [(a & w1 & Hmw & Hka) | [(e & Hmw & ->) | (_ & ->)]].
  - rewrite (bind_returned _ _ _ _ _ (Hm _ _ _ Hmw ltac:(discriminate))).
    apply Hk; assumption.
  - apply bind_raised. apply Hm; [exact Hmw | discriminate].
  - destruct (Hr eq_refl).
Qed.

Section MoreFuel.
Context (E : Env).

Lemma refines_binary_loop_succ fuel v :
  refines (binary_loop E fuel v) (binary_loop E (S fuel) v).
Proof.
  revert v. induction fuel as [|fuel IH]; intros v.
  - intros w r w' H Hr. injection H as <- _. destruct (Hr eq_refl).
  - change (refines
              (r <- binary_iteration E v ;;
               let '(v', break) := r in
               if break then ret (new_size v') else binary_loop E fuel v')
              (r <- binary_iteration E v ;;
               let '(v', break) := r in
               if break then ret (new_size v') else binary_loop E (S fuel) v')).
    apply refines_bind; [apply refines_refl|].
    intros [v' brk]. destruct brk; [apply refines_refl | apply IH].
Qed.

Lemma refines_binary_loop fuel fuel' v :
  (fuel <= fuel')%nat -> refines (binary_loop E fuel v) (binary_loop E fuel' v).
Proof.
  induction 1 as [|fuel' _ IH]; [apply refines_refl|].
  eapply refines_trans; [exact IH | apply refines_binary_loop_succ].
Qed.

Lemma refines_scale_batch_size fuel fuel' :
  (fuel <= fuel')%nat -> refines (scale_batch_size E fuel) (scale_batch_size E fuel').
Proof.
  intros Hle. unfold scale_batch_size, _run_binary_scaling.
  repeat first
    [ apply refines_refl
    | apply refines_binary_loop; exact Hle
    | apply refines_bind; [|intros ?]
    | match goal with
      | |- refines (if ?b then _ else _) _ => destruct b
      end ].
Qed.

End MoreFuel.

(** X12: the search always ends.  Whatever the trials do, [while True] of
    [_run_binary_scaling] is left after finitely many iterations: every
    success uses up one of the [max_trials] + 1 successes that the counter
    allows, and between two successes every out-of-memory error lowers the
    candidate, which cannot go on once it is within one of [low].  So for
    every collaborator and every world some amount of fuel is enough for
    [scale_batch_size] in either mode, and with more fuel outcome and world
    stay the same. *)
Theorem search_always_ends (E : Env) (w : World) :
  exists fuel,
    fst (scale_batch_size E fuel w) <> OutOfFuel
    /\ forall fuel', (fuel <= fuel')%nat ->
         scale_batch_size E fuel' w = scale_batch_size E fuel w.
Proof.
  destruct (ends_scale_batch_size E w) as (fuel & Hfuel).
  exists fuel. split; [exact Hfuel|].
  intros fuel' Hle.
  destruct (scale_batch_size E fuel w) as [r w'] eqn:H.
  exact (refines_scale_batch_size E fuel fuel' Hle w r w' H Hfuel).
Qed.

(** ** Growth mode against a memory threshold *)

Section GrowthAgainstThreshold.
Context (f : BatchSizeFinder) (T : Z).
Local Abbreviation E := (synthetic (batch_arg_name f) (RuntimeError true) (Some T)).


End GrowthAgainstThreshold.



(** ** When nothing runs out of memory *)

Section WithinDataset.
Context (f : BatchSizeFinder) (L T : Z) (L_nonneg : 0 <= L) (L_fits : L <= T).
Local Abbreviation E := (synthetic (batch_arg_name f) (RuntimeError true) (Some T)).

Lemma doubled_min b (n : nat) :
  b <= L ->
  Z.min (Z.min (2 * b) L * 2 ^ Z.of_nat n) L = Z.min (b * 2 ^ Z.of_nat (S n)) L.
Proof. intros Hb. pose proof (pow2_pos n). rewrite pow2_succ. nia. Qed.

Lemma doubled_fixed b (n : nat) :
  b <= L -> Z.min (2 * b) L = b -> Z.min (b * 2 ^ Z.of_nat n) L = b.
Proof. intros Hb Hfix. pose proof (pow2_pos n). nia. Qed.

Lemma power_loop_within_dataset (n : nat) l b d w :
  searching f l b d w ->
  bounded L d ->
  b <= L ->
  exists w',
    power_loop E n b w = (Returned (Z.min (b * 2 ^ Z.of_nat n) L), w')
    /\ batch_size_of w' = inr (Z.min (b * 2 ^ Z.of_nat n) L).
Proof.
  revert l b d w. induction n as [|n IH]; intros l b d w Hs Hd Hb.
  - exists w. simpl. rewrite Z.mul_1_r, Z.min_l by lia. split; [reflexivity|]. apply Hs.
  - destruct (power_iteration_fits f (Some T) l b d w Hs) as (w1 & Hit & Hs1).
    { unfold fits. apply negb_true_iff, Z.ltb_ge. lia. }
    rewrite (clamp_bounded L d _ Hd) in Hit, Hs1.
    simpl power_loop. rewrite (bind_returned _ _ _ _ _ Hit).
    destruct (Z.min (2 * b) L =? b) eqn:Hn.
    + apply Z.eqb_eq in Hn. exists w1.
      rewrite (doubled_fixed b (S n) Hb Hn). rewrite Hn in Hs1.
      split; [rewrite Hn; reflexivity | apply Hs1].
    + destruct (IH l (Z.min (2 * b) L) _ w1 Hs1 (rebatch_bounded L _ d L_nonneg Hd))
        as (w' & Hloop & Hbs); [lia|].
      rewrite (doubled_min b n Hb) in Hloop, Hbs. exists w'. split; assumption.
Qed.

Lemma binary_loop_within_dataset (k : nat) l v d w :
  searching f l (new_size v) d w ->
  bounded L d ->
  new_size v <= L ->
  high v = None ->
  Z.of_nat k = Z.max 0 (max_trials f - count v) ->
  exists fuel w',
    binary_loop E fuel v w = (Returned (Z.min (new_size v * 2 ^ Z.of_nat k) L), w')
    /\ batch_size_of w' = inr (Z.min (new_size v * 2 ^ Z.of_nat k) L).
Proof.
  revert l v d w. induction k as [|k IH]; intros l v d w Hs Hd Hb Hhigh Hk;
    destruct (binary_iteration_next f T l v d w Hs) as (w1 & Hit & Hs1 & _);
    unfold binary_next in Hit, Hs1; cbv beta zeta in Hit, Hs1;
    rewrite (proj2 (Z.ltb_ge T (new_size v))) in Hit, Hs1 by lia.
  - rewrite (proj2 (Z.ltb_lt (max_trials f) (count v + 1))) in Hit, Hs1 by lia.
    simpl in Hit, Hs1.
    exists 1%nat, w1. rewrite (binary_loop_break f T _ _ _ _ _ Hit). simpl.
    rewrite Z.mul_1_r, Z.min_l by lia. split; [reflexivity | apply Hs1].
  - rewrite (proj2 (Z.ltb_ge (max_trials f) (count v + 1))) in Hit, Hs1 by lia.
    rewrite Hhigh in Hit, Hs1. simpl in Hit, Hs1.
    rewrite (clamp_bounded L d _ Hd) in Hit, Hs1.
    destruct (Z.min (2 * new_size v) L =? new_size v) eqn:Hn; simpl in Hit, Hs1.
    + apply Z.eqb_eq in Hn.
      exists 1%nat, w1. rewrite (binary_loop_break f T _ _ _ _ _ Hit). simpl.
      rewrite (doubled_fixed _ (S k) Hb Hn). rewrite Hn in Hs1.
      split; [rewrite Hn; reflexivity | apply Hs1].
    + apply Z.eqb_neq in Hn.
      destruct (IH l {| low := new_size v; high := None; count := count v + 1;
                        new_size := Z.min (2 * new_size v) L |} _ w1 Hs1
                  (rebatch_bounded L _ d L_nonneg Hd))
        as (fuel & w' & Hloop & Hbs); simpl; [lia | reflexivity | lia |].
      simpl in Hloop, Hbs. rewrite (doubled_min _ k Hb) in Hloop, Hbs.
      exists (S fuel), w'. rewrite (binary_loop_continue f T _ _ _ _ _ Hit).
      split; assumption.
Qed.

End WithinDataset.

(** X14: when nothing can run out of memory -- the relevant dataloader has a
    known length over a dataset of [L] samples, and every size up to [L] fits
    (the threshold [T] is at least [L]) -- both strategies give the same
    size: [scale_batch_size] ends with min(init_val * 2^max_trials, L) as the
    optimum and in the model.  Growth followed by bisection never bisects; it
    runs like growth mode. *)
Theorem search_without_oom_fills_dataset
    (w : World) (l : LoopId) (p : Prefix) (b0 : Z) (d : DataLoader) (L T : Z) :
  fast_dev_run (trainer w) = false ->
  mode (self w) = "power" \/ mode (self w) = "binsearch" ->
  phase_loop (trainer w) = Some l ->
  phase_prefix (trainer w) = Some p ->
  batch_size_of w = inr b0 ->
  relevant_dataloader (trainer w) = Some d ->
  bounded L d ->
  0 <= L ->
  L <= T ->
  let E := synthetic (batch_arg_name (self w)) (RuntimeError true) (Some T) in
  let result := Z.min (init_val (self w) * 2 ^ Z.max 0 (max_trials (self w))) L in
  exists fuel w',
    scale_batch_size E fuel w
    = (if _early_exit (self w) then Raised _TunerExitException else Returned tt, w')
    /\ optimal_batch_size (self w') = result
    /\ batch_size_of w' = inr result.
Proof.
  intros Hfast Hmode Hl Hp Hb Hd Hbd HL HT E result.
  destruct (dump_params_run (checkpointed E w) l p Hl Hp) as (D & Hsnap & Hdump).
  fold (dumped_world E D w) in Hdump.
  destruct (snapshot_state_dict _ _ _ _ Hsnap) as (sd & Hsd).
  destruct (trials_start E (self w) (dumped_world E D w) l p b0 d sd Hl Hp Hb Hd Hsd)
    as (w3 & Hs3 & _ & Htrials).
  rewrite (clamp_bounded L d _ Hbd) in Hs3.
  assert (Hres : Z.min (Z.min (init_val (self w)) L
                        * 2 ^ Z.of_nat (Z.to_nat (max_trials (self w)))) L = result).
  { unfold result.
    replace (Z.of_nat (Z.to_nat (max_trials (self w)))) with (Z.max 0 (max_trials (self w)))
      by lia.
    pose proof (Z.pow_pos_nonneg 2 (Z.max 0 (max_trials (self w)))). nia. }
  assert (Hsearch : exists fuel w4,
             trials E fuel (self w) (dumped_world E D w) = (Returned result, w4)
             /\ batch_size_of w4 = inr result).
  { destruct Hmode as [Hmode | Hmode].
    - destruct (power_loop_within_dataset (self (dumped_world E D w)) L T HL HT
                  (Z.to_nat (max_trials (self w))) l _ d w3 Hs3 Hbd) as (w4 & Hloop & Hbs4);
        [lia|].
      rewrite Hres in Hloop, Hbs4.
      exists 0%nat, w4. split; [|exact Hbs4].
      rewrite Htrials, (clamp_bounded L d _ Hbd). unfold search.
      rewrite bool_decide_eq_true_2 by exact Hmode.
      unfold _run_power_scaling, get_self, bind.
      destruct Hs3 as (-> & _). exact Hloop.
    - destruct (binary_loop_within_dataset (self (dumped_world E D w)) L T HL HT
                  (Z.to_nat (max_trials (self w))) l
                  {| low := 1; high := None; count := 0;
                     new_size := Z.min (init_val (self w)) L |} d w3 Hs3 Hbd)
        as (fuel & w4 & Hloop & Hbs4); simpl; [lia | reflexivity | lia |].
      simpl in Hloop, Hbs4. rewrite Hres in Hloop, Hbs4.
      exists fuel, w4. split; [|exact Hbs4].
      rewrite Htrials, (clamp_bounded L d _ Hbd). unfold search.
      rewrite bool_decide_eq_false_2 by (rewrite Hmode; discriminate).
      rewrite bool_decide_eq_true_2 by exact Hmode.
      exact Hloop. }
  destruct Hsearch as (fuel & w4 & Hsearch & Hbs4).
  destruct (scale_batch_size_finishes E fuel w l p D result w4
              (synthetic_phase_stable _ _ _) Hfast Hl Hp Hsnap Hdump Hsearch)
    as (w' & Hrun & Hopt & Hbs & _).
  exists fuel, w'. split; [exact Hrun|]. split; [exact Hopt|]. rewrite Hbs. exact Hbs4.
Qed.

Lemma search_without_oom_fills_dataset_witness :
  exists fuel w',
    scale_batch_size (synthetic "batch_size" (RuntimeError true) (Some 5000)) fuel
      (fit_world "binsearch" 2 25 1000)
    = (Returned tt, w')
    /\ optimal_batch_size (self w') = Z.min (2 * 2 ^ Z.max 0 25) 1000
    /\ batch_size_of w' = inr (Z.min (2 * 2 ^ Z.max 0 25) 1000).
Proof.
  refine (search_without_oom_fills_dataset (fit_world "binsearch" 2 25 1000) fit_loop val 1
            {| has_len_all_ranks := true; dl_len := 1000; dataset_len := 1000 |} 1000 5000
            _ _ _ _ _ _ _ _ _).
  - reflexivity.
  - right. reflexivity.
  - reflexivity.
  - reflexivity.
  - reflexivity.
  - reflexivity.
  - repeat split. simpl. lia.
  - lia.
  - lia.
Defined.

(** ** Ending the run after the search *)

Section Throws.
Context (Q : exn -> Prop).

Lemma throws_ret {A} (a : A) : throws Q (ret a).
Proof. intros w e w' H. discriminate. Qed.

Lemma throws_raise {A} e : Q e -> throws Q (@raise A e).
Proof. intros He w e' w' H. injection H as <- _. exact He. Qed.

Lemma throws_out_of_fuel {A} : throws Q (@out_of_fuel A).
Proof. intros w e w' H. discriminate. Qed.

Lemma throws_lift {A} (x : exn + A) : (forall e, x = inl e -> Q e) -> throws Q (lift x).
Proof. destruct x; intros H; [apply throws_raise; auto | apply throws_ret]. Qed.

Lemma throws_get_trainer : throws Q get_trainer.
Proof. intros w e w' H. discriminate. Qed.

Lemma throws_get_self : throws Q get_self.
Proof. intros w e w' H. discriminate. Qed.

Lemma throws_modify_trainer f : throws Q (modify_trainer f).
Proof. intros w e w' H. discriminate. Qed.

Lemma throws_modify_self f : throws Q (modify_self f).
Proof. intros w e w' H. discriminate. Qed.

Lemma throws_log_call c : throws Q (log_call c).
Proof. intros w e w' H. discriminate. Qed.

Lemma throws_bind {A B} (m : M A) (k : A -> M B) :
  throws Q m -> (forall a, throws Q (k a)) -> throws Q (bind m k).
Proof.
  intros Hm Hk w e w' H.
  apply bind_inv in H as [(a & w1 & _ & Hka) | [(e' & Hmw & [= ->]) | (_ & [=])]].
  - eapply Hk, Hka.
  - eapply Hm, Hmw.
Qed.

Lemma throws_try_except {A} (body : M A) (h : exn -> M A) :
  throws Q body ->
  (forall e, throws Q (h e)) ->
  throws Q (try_except_RuntimeError body (fun e => if is_oom_error e then h e else raise e)).
Proof.
  intros Hb Hh w e w' H.
  apply try_except_inv in H as [H | (oom & w1 & Hbody & H)].
  - eapply Hb, H.
  - destruct oom; simpl in H; [eapply Hh, H|].
    injection H as <- _. eapply Hb, Hbody.
Qed.

Lemma throws_dumped key : Q (KeyError key) -> throws Q (dumped key).
Proof.
  intros HQ. unfold dumped. apply throws_bind; [apply throws_get_self|].
  intros f. destruct (_ !! key); [apply throws_ret | apply throws_raise, HQ].
Qed.

End Throws.

Lemma lightning_getattr_not_tuner_exit m name e :
  lightning_getattr m name = inl e -> not_tuner_exit e.
Proof.
  unfold lightning_getattr.
  repeat match goal with |- context [match ?x with _ => _ end] => destruct x end;
    intros H; inversion H; exact I.
Qed.

Lemma lightning_setattr_not_tuner_exit m name v e :
  lightning_setattr m name v = inl e -> not_tuner_exit e.
Proof.
  unfold lightning_setattr.
  repeat match goal with |- context [match ?x with _ => _ end] => destruct x end;
    intros H; inversion H; exact I.
Qed.

Lemma stage_loop_not_tuner_exit s e : RunningStage.loop s = inl e -> not_tuner_exit e.
Proof. destruct s; intros H; inversion H; exact I. Qed.

Ltac throws_steps :=
  repeat first
    [ assumption
    | match goal with H : _ |- throws _ _ => solve [apply H] end
    | apply throws_dumped; exact I
    | apply throws_bind; [|intros ?]
    | apply throws_try_except; [|intros ?]
    | apply throws_ret
    | apply throws_out_of_fuel
    | apply throws_raise; exact I
    | apply throws_lift; first [apply lightning_getattr_not_tuner_exit
                               | apply lightning_setattr_not_tuner_exit
                               | apply stage_loop_not_tuner_exit]
    | apply throws_get_trainer
    | apply throws_get_self
    | apply throws_modify_trainer
    | apply throws_modify_self
    | apply throws_log_call
    | match goal with
      | |- throws _ (if ?b then _ else _) => destruct b
      | |- throws _ (match ?x with _ => _ end) => destruct x
      | |- throws _ (let '(_, _) := ?x in _) => destruct x
      end ].

Lemma no_exit_adjust_batch_size factor value desc :
  throws not_tuner_exit (_adjust_batch_size factor value desc).
Proof. unfold _adjust_batch_size, stage_prefix, prefix_dataloaders. throws_steps. Qed.

Lemma no_exit_reset_params : throws not_tuner_exit _reset_params.
Proof. unfold _reset_params, modify_loop, stage_loop, stage_prefix. throws_steps. Qed.

Section NoExit.
Context (E : Env) (E_no_exit : trials_never_exit E).

Lemma no_exit_loop_run l : throws not_tuner_exit (loop_run E l).
Proof.
  intros w e w' H. unfold loop_run, bind, log_call in H. simpl in H.
  pose proof (E_no_exit l (trainer w)) as He.
  destruct (env_run E l (trainer w)) as [[e0|] t']; [|discriminate].
  injection H as <- _. apply He. reflexivity.
Qed.

Lemma no_exit_try_loop_run : throws not_tuner_exit (_try_loop_run E).
Proof.
  unfold _try_loop_run, stage_loop, as_state_dict, modify_loop.
  pose proof no_exit_loop_run. throws_steps.
Qed.

Lemma no_exit_reset_dataloaders : throws not_tuner_exit (_reset_dataloaders E).
Proof. unfold _reset_dataloaders, reset_dataloader, stage_prefix. throws_steps. Qed.

Lemma no_exit_power_iteration : throws not_tuner_exit (power_iteration E).
Proof.
  unfold power_iteration, _collect_garbage.
  pose proof no_exit_try_loop_run. pose proof no_exit_reset_dataloaders.
  pose proof no_exit_adjust_batch_size. throws_steps.
Qed.

Lemma no_exit_power_loop n new_size : throws not_tuner_exit (power_loop E n new_size).
Proof.
  revert new_size. induction n as [|n IH]; intros new_size; simpl.
  - throws_steps.
  - pose proof no_exit_power_iteration. throws_steps.
Qed.

Lemma no_exit_binary_iteration v : throws not_tuner_exit (binary_iteration E v).
Proof.
  unfold binary_iteration, _collect_garbage.
  pose proof no_exit_try_loop_run. pose proof no_exit_reset_dataloaders.
  pose proof no_exit_adjust_batch_size. throws_steps.
Qed.

Lemma no_exit_binary_loop fuel v : throws not_tuner_exit (binary_loop E fuel v).
Proof.
  revert v. induction fuel as [|n IH]; intros v; simpl.
  - throws_steps.
  - pose proof no_exit_binary_iteration. throws_steps.
Qed.

Lemma no_exit_trials fuel f : throws not_tuner_exit (trials E fuel f).
Proof.
  unfold trials, progress_bar_disable, search, _run_power_scaling, _run_binary_scaling.
  pose proof no_exit_reset_params. pose proof no_exit_adjust_batch_size.
  pose proof no_exit_power_loop. pose proof no_exit_binary_loop.
  throws_steps.
Qed.

End NoExit.

Lemma synthetic_never_exits name failure T :
  not_tuner_exit failure -> trials_never_exit (synthetic name failure T).
Proof.
  intros Hf l t e. simpl. unfold synthetic_run.
  destruct (lightning_getattr _ _); [discriminate|].
  destruct T as [T|]; [|discriminate].
  destruct (T <? _); [|discriminate]. intros [= <-]. exact Hf.
Qed.

(** X15: ending the run early comes after the restoration.  When the trials
    themselves raise no [_TunerExitException], a [scale_batch_size] that
    raises it does so because [_early_exit] is set, and only at its very end:
    the recorded trainer settings are back, the model/optimizer state is the
    checkpointed one and the checkpoint artifact is removed. *)
Theorem early_exit_follows_restoration (E : Env) (fuel : nat) (w w' : World) :
  phase_stable E ->
  trials_never_exit E ->
  fast_dev_run (trainer w) = false ->
  scale_batch_size E fuel w = (Raised _TunerExitException, w') ->
  _early_exit (self w) = true
  /\ (exists l p,
        phase_loop (trainer w) = Some l
        /\ phase_prefix (trainer w) = Some p
        /\ restored (trainer w) l p (trainer w'))
  /\ weights (lightning_module (trainer w')) = weights (lightning_module (trainer w))
  /\ files w' = delete (ckpt_path E (trainer w)) (files w).
Proof.
  intros Hstable Hne Hfast H.
  rewrite (scale_batch_size_split E fuel w Hfast) in H.
  rewrite (bind_returned _ _ _ _ _ (save_checkpoint_run _ w)) in H.
  fold (checkpointed E w) in H.
  destruct (phase_valid_cases (trainer w)) as [(l & p & Hl & Hp) | (Hfn & e & He)].
  2: { destruct (dump_params_invalid (checkpointed E w) e Hfn He) as (wx & Hx).
       rewrite (bind_raised _ _ _ _ _ Hx) in H. injection H as -> _.
       destruct (stage_loop_not_tuner_exit _ _ He). }
  destruct (dump_params_run (checkpointed E w) l p Hl Hp) as (D & Hsnap & Hdump).
  fold (dumped_world E D w) in Hdump.
  rewrite (bind_returned _ _ _ _ _ Hdump) in H.
  apply bind_inv in H as [(ns & w2 & Ht & Hfin) | [(e & Ht & [= <-]) | (_ & [=])]].
  2: { destruct (no_exit_trials E Hne fuel _ _ _ _ Ht). }
  destruct (frame_trials E fuel _ _ _ _ Ht) as (Hself & Hfiles & _).
  destruct (same_phase_trials E Hstable fuel _ _ _ _ Ht) as (Hfn & Hst).
  assert (Hsnap2 : snapshot_of (trainer w) l p (_dumped_params (self w2))).
  { rewrite Hself. exact Hsnap. }
  assert (Hfile : files w2 !! ckpt_path E (trainer w)
                  = Some (weights (lightning_module (trainer w)))).
  { rewrite Hfiles. simpl. apply lookup_insert_eq. }
  destruct (finish_run _ ns w2 (trainer w) l p _ Hsnap2 Hfn Hst Hl Hp Hfile)
    as (t' & Hfin' & Hres & Hw & _).
  rewrite Hfin', Hself in Hfin. simpl in Hfin.
  destruct (_early_exit (self w)); [|discriminate].
  injection Hfin as <-. simpl.
  split; [reflexivity|]. split; [exists l, p; auto|]. split; [exact Hw|].
  rewrite Hfiles. simpl. apply delete_insert_eq.
Qed.

Lemma early_exit_follows_restoration_witness :
  _early_exit (self early_exit_world) = true
  /\ (exists l p,
        phase_loop (trainer early_exit_world) = Some l
        /\ phase_prefix (trainer early_exit_world) = Some p
        /\ restored (trainer early_exit_world) l p (trainer (snd early_exit_run)))
  /\ weights (lightning_module (trainer (snd early_exit_run)))
     = weights (lightning_module (trainer early_exit_world))
  /\ files (snd early_exit_run)
     = delete (ckpt_path (synthetic "batch_size" (RuntimeError true) None)
                 (trainer early_exit_world))
         (files early_exit_world).
Proof.
  refine (early_exit_follows_restoration
            (synthetic "batch_size" (RuntimeError true) None) 0
            early_exit_world (snd early_exit_run) _ _ _ _).
  - apply synthetic_phase_stable.
  - apply synthetic_never_exits. exact I.
  - reflexivity.
  - vm_compute. reflexivity.
Defined.

(** ** The search stays in its phase *)

Lemma phase_call_same_phase t t' c :
  fn t' = fn t -> stage t' = stage t -> phase_call t' c -> phase_call t c.
Proof.
  intros Hfn Hst. destruct c; simpl; auto; unfold phase_loop, reset_prefix;
    rewrite Hfn, Hst; auto.
Qed.

Lemma no_call_refl w : no_call w w.
Proof. split; [apply same_phase_refl | reflexivity]. Qed.

Lemma no_call_trans w1 w2 w3 : no_call w1 w2 -> no_call w2 w3 -> no_call w1 w3.
Proof.
  intros (Hp1 & Hc1) (Hp2 & Hc2). split; [eapply same_phase_trans; eassumption | congruence].
Qed.

Lemma in_phase_refl w : in_phase w w.
Proof.
  split; [apply same_phase_refl|]. exists []. split; [symmetry; apply app_nil_r | constructor].
Qed.

Lemma in_phase_trans w1 w2 w3 : in_phase w1 w2 -> in_phase w2 w3 -> in_phase w1 w3.
Proof.
  intros (Hp1 & cs1 & Hc1 & Hall1) (Hp2 & cs2 & Hc2 & Hall2).
  split; [eapply same_phase_trans; eassumption|].
  exists (cs1 ++ cs2)%list. split.
  - rewrite Hc2, Hc1. symmetry. apply app_assoc.
  - apply Forall_app. split; [exact Hall1|].
    destruct Hp1 as (Hfn & Hst).
    eapply Forall_impl; [|exact Hall2]. intros c. apply phase_call_same_phase; assumption.
Qed.

Lemma no_call_in_phase {A} (m : M A) : preserves no_call m -> preserves in_phase m.
Proof.
  intros Hm w r w' H. destruct (Hm _ _ _ H) as (Hp & Hc). split; [exact Hp|].
  exists []. split; [rewrite Hc; symmetry; apply app_nil_r | constructor].
Qed.

Lemma no_call_modify_trainer f :
  (forall t, fn (f t) = fn t /\ stage (f t) = stage t) ->
  preserves no_call (modify_trainer f).
Proof. intros Hf w r w' H. injection H as _ <-. split; [apply Hf | reflexivity]. Qed.

Lemma no_call_modify_self f : preserves no_call (modify_self f).
Proof. intros w r w' H. injection H as _ <-. split; [split; reflexivity | reflexivity]. Qed.

Ltac no_call_steps :=
  repeat first
    [ progress preserves_steps no_call_refl no_call_trans
    | apply no_call_modify_self
    | apply no_call_modify_trainer; intros ?; split; reflexivity ].

Lemma no_call_adjust_batch_size factor value desc :
  preserves no_call (_adjust_batch_size factor value desc).
Proof. unfold _adjust_batch_size, stage_prefix, prefix_dataloaders. no_call_steps. Qed.

Lemma no_call_dump_params : preserves no_call _dump_params.
Proof. unfold _dump_params, set_dumped, stage_loop, stage_prefix. no_call_steps. Qed.

Lemma no_call_reset_params : preserves no_call _reset_params.
Proof. unfold _reset_params, modify_loop, stage_loop, stage_prefix. no_call_steps. Qed.

Lemma no_call_restore_params : preserves no_call _restore_params.
Proof.
  unfold _restore_params, modify_loop, stage_loop, stage_prefix, as_logger, as_callbacks,
    as_int, as_limit, as_bool, as_state_dict.
  no_call_steps.
Qed.

Lemma no_call_progress_bar (b : bool) :
  preserves no_call
    (modify_trainer (fun t => match progress_bar_callback t with
                              | Some _ => set_progress_bar (Some b) t
                              | None => t
                              end)).
Proof.
  apply no_call_modify_trainer. intros t. destruct (progress_bar_callback t); split; reflexivity.
Qed.

Section InPhase.
Context (E : Env) (E_stable : phase_stable E).

Lemma in_phase_save_checkpoint path : preserves in_phase (save_checkpoint path).
Proof.
  intros w r w' H. rewrite save_checkpoint_run in H. injection H as _ <-.
  split; [split; reflexivity|]. exists [save_checkpoint_call path].
  split; [reflexivity | repeat constructor].
Qed.

Lemma in_phase_restore_checkpoint path : preserves in_phase (restore_checkpoint path).
Proof.
  intros w r w' H. unfold restore_checkpoint, bind, log_call in H. simpl in H.
  destruct (files w !! path); injection H as _ <-;
    (split; [split; reflexivity|]; exists [restore_checkpoint_call path];
     split; [reflexivity | repeat constructor]).
Qed.

Lemma in_phase_remove_checkpoint path : preserves in_phase (remove_checkpoint path).
Proof.
  intros w r w' H. unfold remove_checkpoint, bind, log_call in H. injection H as _ <-.
  split; [split; reflexivity|]. exists [remove_checkpoint_call path].
  split; [reflexivity | repeat constructor].
Qed.

Lemma in_phase_try_loop_run : preserves in_phase (_try_loop_run E).
Proof.
  intros w r w' H.
  unfold _try_loop_run, dumped, loop_run, log_call, modify_loop, modify_trainer, get_self,
    get_trainer, stage_loop, bind in H.
  simpl in H.
  assert (Hrun : forall l sd,
             phase_loop (trainer w) = Some l ->
             (let '(r0, t') :=
                env_run E l
                  (set_loop l
                     (set_restarting false
                        (loops (set_loop l (load_state_dict sd (loops (trainer w) l))
                                  (trainer w)) l))
                     (set_loop l (load_state_dict sd (loops (trainer w) l)) (trainer w))) in
              (match r0 with Some e => Raised e | None => Returned tt end,
               {| trainer := t'; self := self w; files := files w;
                  calls := (calls w ++ [loop_run_call l])%list |})) = (r, w') ->
             in_phase w w').
  { intros l sd Hl Hr.
    match type of Hr with
    | context [env_run E l ?t] =>
        destruct (E_stable t) as [Hst _]; specialize (Hst l);
        destruct (env_run E l t) as [r0 t']
    end.
    injection Hr as _ <-. split; [exact Hst|].
    exists [loop_run_call l]. split; [reflexivity | repeat constructor; exact Hl]. }
  unfold phase_loop in Hrun.
  destruct (bool_decide (fn (trainer w) = TrainerFn.FITTING)); simpl in H.
  - destruct (_dumped_params (self w) !! "loop_state_dict") as [[| | | | |sd]|]; simpl in H;
      try (injection H as _ <-; apply in_phase_refl).
    exact (Hrun fit_loop sd eq_refl H).
  - destruct (RunningStage.loop (stage (trainer w))) as [e|l]; simpl in H;
      [injection H as _ <-; apply in_phase_refl|].
    destruct (_dumped_params (self w) !! "loop_state_dict") as [[| | | | |sd]|]; simpl in H;
      try (injection H as _ <-; apply in_phase_refl).
    exact (Hrun l sd eq_refl H).
Qed.

Lemma in_phase_reset_dataloaders : preserves in_phase (_reset_dataloaders E).
Proof.
  intros w r w' H.
  unfold _reset_dataloaders, reset_dataloader, log_call, modify_trainer, get_trainer,
    stage_prefix, bind in H.
  simpl in H.
  destruct (bool_decide (fn (trainer w) = TrainerFn.FITTING)) eqn:Hfit; simpl in H.
  - injection H as _ <-. split.
    + destruct (E_stable (trainer w)) as [_ H1]. specialize (H1 train).
      destruct (E_stable (env_reset E train (trainer w))) as [_ H2]. specialize (H2 val).
      split; simpl; [destruct H1, H2; congruence | destruct H1, H2; congruence].
    + exists [reset_dataloader_call train; reset_dataloader_call val]. simpl.
      rewrite <- app_assoc. split; [reflexivity|].
      constructor; [|constructor; [|constructor]];
        simpl; unfold reset_prefix; rewrite Hfit; auto.
  - destruct (RunningStage.dataloader_prefix (stage (trainer w))) as [p|] eqn:Hp; simpl in H.
    + injection H as _ <-. split.
      * destruct (E_stable (trainer w)) as [_ H1]. exact (H1 p).
      * exists [reset_dataloader_call p]. split; [reflexivity|].
        constructor; [|constructor]. simpl. unfold reset_prefix. rewrite Hfit. exact Hp.
    + injection H as _ <-. apply in_phase_refl.
Qed.

Ltac in_phase_steps := preserves_steps in_phase_refl in_phase_trans.

Lemma in_phase_adjust_batch_size factor value desc :
  preserves in_phase (_adjust_batch_size factor value desc).
Proof. apply no_call_in_phase, no_call_adjust_batch_size. Qed.

Lemma in_phase_power_iteration : preserves in_phase (power_iteration E).
Proof.
  unfold power_iteration, _collect_garbage.
  pose proof in_phase_try_loop_run. pose proof in_phase_reset_dataloaders.
  pose proof in_phase_adjust_batch_size. in_phase_steps.
Qed.

Lemma in_phase_power_loop n new_size : preserves in_phase (power_loop E n new_size).
Proof.
  revert new_size. induction n as [|n IH]; intros new_size; simpl.
  - in_phase_steps.
  - pose proof in_phase_power_iteration. in_phase_steps.
Qed.

Lemma in_phase_binary_iteration v : preserves in_phase (binary_iteration E v).
Proof.
  unfold binary_iteration, _collect_garbage.
  pose proof in_phase_try_loop_run. pose proof in_phase_reset_dataloaders.
  pose proof in_phase_adjust_batch_size. in_phase_steps.
Qed.

Lemma in_phase_binary_loop fuel v : preserves in_phase (binary_loop E fuel v).
Proof.
  revert v. induction fuel as [|n IH]; intros v; simpl.
  - in_phase_steps.
  - pose proof in_phase_binary_iteration. in_phase_steps.
Qed.

Lemma in_phase_scale_batch_size fuel : preserves in_phase (scale_batch_size E fuel).
Proof.
  unfold scale_batch_size, _run_power_scaling, _run_binary_scaling, progress_bar_disable,
    progress_bar_enable.
  pose proof in_phase_save_checkpoint. pose proof in_phase_restore_checkpoint.
  pose proof in_phase_remove_checkpoint.
  pose proof (no_call_in_phase _ no_call_dump_params).
  pose proof (no_call_in_phase _ no_call_reset_params).
  pose proof (no_call_in_phase _ no_call_restore_params).
  pose proof (fun b => no_call_in_phase _ (no_call_progress_bar b)).
  pose proof in_phase_adjust_batch_size.
  pose proof in_phase_power_loop. pose proof in_phase_binary_loop.
  assert (forall f, preserves in_phase (modify_self f))
    by (intros f; apply no_call_in_phase, no_call_modify_self).
  in_phase_steps.
Qed.

End InPhase.

(** X16: the search stays in its phase.  With collaborators that do not
    switch the trainer to another function or stage, every trial of
    [scale_batch_size] runs the loop of the running phase (the fit loop during
    a fit, the stage's own loop otherwise) and every dataloader reset concerns
    that phase (training and validation during a fit, the stage's own
    dataloaders otherwise), however the search ends. *)
Theorem search_stays_in_its_phase (E : Env) (fuel : nat) (w : World) :
  phase_stable E ->
  exists cs,
    calls (snd (scale_batch_size E fuel w)) = (calls w ++ cs)%list
    /\ Forall (phase_call (trainer w)) cs.
Proof.
  intros Hstable. destruct (scale_batch_size E fuel w) as [r w'] eqn:H.
  exact (proj2 (in_phase_scale_batch_size E Hstable fuel _ _ _ H)).
Qed.

Lemma search_stays_in_its_phase_witness :
  exists cs,
    calls (snd validate_run) = (calls (validate_world "power" 2 3 1000) ++ cs)%list
    /\ Forall (phase_call (trainer (validate_world "power" 2 3 1000))) cs.
Proof.
  apply (search_stays_in_its_phase (synthetic "batch_size" (RuntimeError true) (Some 20)) 0
           (validate_world "power" 2 3 1000)).
  apply synthetic_phase_stable.
Defined.

(** ** The optimum and the model *)

Lemma same_field_refl name w : same_field name w w.
Proof. split; reflexivity. Qed.

Lemma same_field_trans name w1 w2 w3 :
  same_field name w1 w2 -> same_field name w2 w3 -> same_field name w1 w3.
Proof. intros [? ?] [? ?]. split; congruence. Qed.

Lemma same_field_modify_trainer name f :
  (forall t, lightning_module (f t) = lightning_module t) ->
  preserves (same_field name) (modify_trainer f).
Proof.
  intros Hf w r w' H. injection H as _ <-. split; [reflexivity|]. simpl. rewrite Hf. reflexivity.
Qed.

Lemma same_field_log_call name c : preserves (same_field name) (log_call c).
Proof. intros w r w' H. injection H as _ <-. split; reflexivity. Qed.

Ltac same_field_steps name :=
  repeat first
    [ progress preserves_steps (same_field_refl name) (same_field_trans name)
    | apply same_field_log_call
    | apply same_field_modify_trainer; intros ?; reflexivity ].

Lemma holds_same_field name n w w' : holds name n w -> same_field name w w' -> holds name n w'.
Proof. intros (Hn & Hg) (Hs & Hf). split; [rewrite Hs; exact Hn | rewrite Hf; exact Hg]. Qed.

Lemma adjust_batch_size_holds name factor value desc w r w' :
  batch_arg_name (self w) = name ->
  _adjust_batch_size factor value desc w = (Returned r, w') ->
  holds name (fst r) w'.
Proof.
  intros Hname H.
  destruct (adjust_batch_size_inv _ _ _ _ _ _ H) as [(b & d & Hb & Hd) | (_ & e & [=] & _)].
  destruct (adjust_batch_size_run factor value desc w b d Hb Hd) as (m' & Hset & Hrun).
  rewrite Hrun in H. injection H as <- <-.
  destruct (lightning_setattr_getattr _ _ _ (clamp d (proposal b factor value)) Hb)
    as (m'' & Hset' & Hget & _).
  unfold batch_size_of in *. rewrite Hset in Hset'. injection Hset' as <-.
  split; [exact Hname|]. simpl. rewrite <- Hname. exact Hget.
Qed.

Lemma finish_returns name path ns w w' :
  finish path ns w = (Returned tt, w') ->
  optimal_batch_size (self w') = ns
  /\ batch_arg_name (self w') = batch_arg_name (self w)
  /\ lightning_getattr (lightning_module (trainer w')) name
     = lightning_getattr (lightning_module (trainer w)) name.
Proof.
  intros Hfin. unfold finish in Hfin. unfold bind at 1 in Hfin.
  destruct (_restore_params w) as [[[]|e|] w3] eqn:Hr; try discriminate.
  destruct (keeps_model_restore_params _ _ _ Hr) as (Hs3 & _ & _ & Hm3).
  unfold progress_bar_enable, restore_checkpoint, remove_checkpoint, log_call,
    modify_trainer, modify_self, get_self, bind in Hfin. simpl in Hfin.
  destruct (files w3 !! path); simpl in Hfin; [|discriminate].
  destruct (_early_exit (self w3)); [discriminate|].
  injection Hfin as <-. simpl. rewrite Hs3.
  split; [reflexivity|]. split; [reflexivity|].
  unfold lightning_getattr.
  destruct (progress_bar_callback (trainer w3)); simpl; rewrite Hm3; reflexivity.
Qed.

Section Holds.
Context (E : Env) (name : string) (E_keeps : keeps_field E name).

Lemma same_field_loop_run l : preserves (same_field name) (loop_run E l).
Proof.
  intros w r w' H. unfold loop_run, bind, log_call in H. simpl in H.
  destruct (E_keeps (trainer w)) as [Hrun _]. specialize (Hrun l).
  destruct (env_run E l (trainer w)) as [re t'].
  injection H as _ <-. split; [reflexivity | exact Hrun].
Qed.

Lemma same_field_reset_dataloader p : preserves (same_field name) (reset_dataloader E p).
Proof.
  intros w r w' H. unfold reset_dataloader, bind, log_call, modify_trainer in H.
  injection H as _ <-. split; [reflexivity|]. apply (E_keeps (trainer w)).
Qed.

Lemma same_field_try_loop_run : preserves (same_field name) (_try_loop_run E).
Proof.
  unfold _try_loop_run, stage_loop, as_state_dict, modify_loop.
  pose proof same_field_loop_run. same_field_steps name.
Qed.

Lemma same_field_reset_dataloaders : preserves (same_field name) (_reset_dataloaders E).
Proof.
  unfold _reset_dataloaders, stage_prefix.
  pose proof same_field_reset_dataloader. same_field_steps name.
Qed.

Lemma same_field_reset_params : preserves (same_field name) _reset_params.
Proof. unfold _reset_params, modify_loop, stage_loop, stage_prefix. same_field_steps name. Qed.

Lemma same_field_progress_bar_disable : preserves (same_field name) progress_bar_disable.
Proof.
  apply same_field_modify_trainer. intros t. destruct (progress_bar_callback t); reflexivity.
Qed.

(** After an adjustment, and the reset that follows a change of size, the
    model holds the adjusted size. *)
Lemma adjusted_and_reset_holds {A} factor value desc (g : Z * bool -> A) (brk : bool) w a b w1 :
  batch_arg_name (self w) = name ->
  (r <- _adjust_batch_size factor value desc ;;
   if snd r then _reset_dataloaders E ;; ret (g r, brk) else ret (g r, true)) w
  = (Returned (a, b), w1) ->
  exists r, a = g r /\ holds name (fst r) w1.
Proof.
  intros Hname H.
  apply bind_inv in H as [(r & wb & Hadj & H) | [(e & _ & [=]) | (_ & [=])]].
  pose proof (adjust_batch_size_holds name _ _ _ _ _ _ Hname Hadj) as Hh.
  exists r. destruct (snd r).
  - apply bind_inv in H as [(u & wc & Hreset & H) | [(e & _ & [=]) | (_ & [=])]].
    injection H as <- _ <-. split; [reflexivity|].
    exact (holds_same_field _ _ _ _ Hh (same_field_reset_dataloaders _ _ _ Hreset)).
  - injection H as <- _ <-. auto.
Qed.

(** The finder in the world that the handler of a trial starts from. *)
Lemma handler_self {A} (body : M A) w oom wa :
  preserves frame body ->
  body w = (Raised (RuntimeError oom), wa) ->
  self wa = self w.
Proof. intros Hfr Hbody. apply (Hfr _ _ _ Hbody). Qed.

Lemma power_iteration_holds w n brk w1 :
  batch_arg_name (self w) = name ->
  power_iteration E w = (Returned (n, brk), w1) ->
  holds name n w1.
Proof.
  intros Hname H. unfold power_iteration, _collect_garbage in H.
  rewrite (bind_returned (ret tt) _ w tt w eq_refl) in H.
  apply try_except_inv in H as [H | (oom & wa & Hbody & H)].
  - apply bind_inv in H as [(u & wa & Hrun & H) | [(e & _ & [=]) | (_ & [=])]].
    destruct (same_field_try_loop_run _ _ _ Hrun) as (Hself & _).
    assert (Hname' : batch_arg_name (self wa) = name) by (rewrite Hself; exact Hname).
    apply bind_inv in H as [(r & wb & Hadj & H) | [(e & _ & [=]) | (_ & [=])]].
    pose proof (adjust_batch_size_holds name _ _ _ _ _ _ Hname' Hadj) as Hh.
    destruct r as [ns changed]. destruct changed.
    + apply bind_inv in H as [(u' & wc & Hreset & H) | [(e & _ & [=]) | (_ & [=])]].
      injection H as <- _ <-.
      exact (holds_same_field _ _ _ _ Hh (same_field_reset_dataloaders _ _ _ Hreset)).
    + injection H as <- _ <-. exact Hh.
  - apply handler_self in Hbody.
    2: { pose proof (frame_try_loop_run E). pose proof (frame_reset_dataloaders E).
         pose proof frame_adjust_batch_size. frame_steps. }
    destruct oom; simpl in H; [|discriminate].
    rewrite (bind_returned (ret tt) _ wa tt wa eq_refl) in H.
    apply bind_inv in H as [(r & wb & Hadj & H) | [(e & _ & [=]) | (_ & [=])]].
    injection H as <- _ <-.
    apply (adjust_batch_size_holds name _ _ _ _ _ _) in Hadj; [exact Hadj|].
    rewrite Hbody. exact Hname.
Qed.

Lemma power_loop_holds k b w r w' :
  holds name b w ->
  power_loop E k b w = (Returned r, w') ->
  holds name r w'.
Proof.
  revert b w. induction k as [|k IH]; intros b w Hh H; simpl in H.
  - injection H as <- <-. exact Hh.
  - apply bind_inv in H as [([n brk] & w1 & Hit & H) | [(e & _ & [=]) | (_ & [=])]].
    pose proof (power_iteration_holds _ _ _ _ (proj1 Hh) Hit) as Hh1.
    destruct brk; [injection H as <- <-; exact Hh1 | exact (IH _ _ Hh1 H)].
Qed.

Lemma binary_iteration_holds v w v' brk w1 :
  holds name (new_size v) w ->
  binary_iteration E v w = (Returned (v', brk), w1) ->
  holds name (new_size v') w1.
Proof.
  intros Hh H. pose proof (proj1 Hh) as Hname.
  unfold binary_iteration, _collect_garbage in H.
  rewrite (bind_returned (ret tt) _ w tt w eq_refl) in H.
  apply try_except_inv in H as [H | (oom & wa & Hbody & H)].
  - apply bind_inv in H as [(u & wa & Hrun & H) | [(e & _ & [=]) | (_ & [=])]].
    pose proof (same_field_try_loop_run _ _ _ Hrun) as Hsf.
    pose proof (holds_same_field _ _ _ _ Hh Hsf) as Hha.
    rewrite (bind_returned get_self _ wa (self wa) wa eq_refl) in H.
    cbv beta zeta in H.
    destruct (max_trials (self wa) <? count v + 1); [injection H as <- _ <-; exact Hha|].
    destruct (truthy (high v)) as [h|].
    + destruct (h - new_size v <=? 1); [injection H as <- _ <-; exact Hha|].
      destruct (adjusted_and_reset_holds _ _ _
                  (fun r => {| low := new_size v; high := high v; count := count v + 1;
                               new_size := fst r |}) false _ _ _ _ (proj1 Hha) H)
        as (r & -> & Hr).
      exact Hr.
    + destruct (adjusted_and_reset_holds _ _ _
                  (fun r => {| low := new_size v; high := high v; count := count v + 1;
                               new_size := fst r |}) false _ _ _ _ (proj1 Hha) H)
        as (r & -> & Hr).
      exact Hr.
  - apply handler_self in Hbody.
    2: { pose proof (frame_try_loop_run E). pose proof (frame_reset_dataloaders E).
         pose proof frame_adjust_batch_size. frame_steps. }
    destruct oom; simpl in H; [|discriminate].
    rewrite (bind_returned (ret tt) _ wa tt wa eq_refl) in H.
    apply bind_inv in H as [(r & wb & Hadj & H) | [(e & _ & [=]) | (_ & [=])]].
    apply (adjust_batch_size_holds name) in Hadj; [|rewrite Hbody; exact Hname].
    apply bind_inv in H as [(u & wc & Hreset & H) | [(e & _ & [=]) | (_ & [=])]].
    injection H as <- _ <-. simpl.
    destruct (snd r).
    + exact (holds_same_field _ _ _ _ Hadj (same_field_reset_dataloaders _ _ _ Hreset)).
    + injection Hreset as _ <-. exact Hadj.
Qed.

Lemma binary_loop_holds fuel v w r w' :
  holds name (new_size v) w ->
  binary_loop E fuel v w = (Returned r, w') ->
  holds name r w'.
Proof.
  revert v w. induction fuel as [|fuel IH]; intros v w Hh H; simpl in H; [discriminate|].
  apply bind_inv in H as [([v' brk] & w1 & Hit & H) | [(e & _ & [=]) | (_ & [=])]].
  pose proof (binary_iteration_holds _ _ _ _ _ Hh Hit) as Hh1.
  destruct brk; [injection H as <- <-; exact Hh1 | exact (IH _ _ Hh1 H)].
Qed.

Lemma trials_holds fuel f w ns w2 :
  batch_arg_name (self w) = name ->
  trials E fuel f w = (Returned ns, w2) ->
  holds name ns w2.
Proof.
  intros Hname H. unfold trials in H.
  apply bind_inv in H as [(u & w1 & Hreset & H) | [(e & _ & [=]) | (_ & [=])]].
  destruct (same_field_reset_params _ _ _ Hreset) as (Hs1 & _).
  apply bind_inv in H as [(u' & w1' & Hpb & H) | [(e & _ & [=]) | (_ & [=])]].
  destruct (same_field_progress_bar_disable _ _ _ Hpb) as (Hs1' & _).
  apply bind_inv in H as [(r & w3 & Hadj & H) | [(e & _ & [=]) | (_ & [=])]].
  apply (adjust_batch_size_holds name) in Hadj; [|rewrite Hs1', Hs1; exact Hname].
  unfold search, _run_power_scaling, _run_binary_scaling in H.
  destruct (bool_decide (mode f = "power")).
  - rewrite (bind_returned get_self _ w3 (self w3) w3 eq_refl) in H.
    exact (power_loop_holds _ _ _ _ _ Hadj H).
  - destruct (bool_decide (mode f = "binsearch")).
    + exact (binary_loop_holds _ {| low := 1; high := None; count := 0; new_size := fst r |}
               _ _ _ Hadj H).
    + injection H as <- <-. exact Hadj.
Qed.

End Holds.

Lemma synthetic_keeps_field name failure T : keeps_field (synthetic name failure T) name.
Proof.
  intros t. split.
  - intros l. simpl. unfold synthetic_run.
    destruct (lightning_getattr (lightning_module t) name) eqn:Hg; [exact Hg|].
    destruct T as [T|]; [destruct (T <? _)|]; exact Hg.
  - intros p. simpl. unfold synthetic_reset.
    destruct (lightning_getattr (lightning_module t) name) eqn:Hg; [exact Hg|].
    destruct p; exact Hg.
Qed.

(** X17: the optimum is the size left in the model.  With collaborators that
    leave the batch size field alone, a [scale_batch_size] that returns has
    recorded as [optimal_batch_size] exactly the batch size that the model
    holds afterwards, in either mode and whichever way the strategy ended. *)
Theorem optimum_is_left_in_the_model (E : Env) (fuel : nat) (w w' : World) :
  keeps_field E (batch_arg_name (self w)) ->
  fast_dev_run (trainer w) = false ->
  scale_batch_size E fuel w = (Returned tt, w') ->
  batch_size_of w' = inr (optimal_batch_size (self w')).
Proof.
  intros Hkeep Hfast H.
  rewrite (scale_batch_size_split E fuel w Hfast) in H.
  rewrite (bind_returned _ _ _ _ _ (save_checkpoint_run _ w)) in H.
  fold (checkpointed E w) in H.
  apply bind_inv in H as [(u & wd & Hdump & H) | [(e & _ & [=]) | (_ & [=])]].
  assert (Hname : batch_arg_name (self wd) = batch_arg_name (self w)).
  { destruct (phase_valid_cases (trainer w)) as [(l & p & Hl & Hp) | (Hfn & e & He)].
    - destruct (dump_params_run (checkpointed E w) l p Hl Hp) as (D & _ & Hrun).
      rewrite Hrun in Hdump. injection Hdump as _ <-. reflexivity.
    - destruct (dump_params_invalid (checkpointed E w) e Hfn He) as (wx & Hx).
      rewrite Hx in Hdump. discriminate. }
  apply bind_inv in H as [(ns & w2 & Ht & H) | [(e & _ & [=]) | (_ & [=])]].
  destruct (trials_holds E _ Hkeep fuel _ _ _ _ Hname Ht) as (Hname2 & Hget).
  destruct (finish_returns (batch_arg_name (self w)) _ _ _ _ H) as (Hopt & Hname' & Hget').
  unfold batch_size_of. rewrite Hname', Hname2, Hget', Hopt. exact Hget.
Qed.

Lemma optimum_is_left_in_the_model_witness :
  batch_size_of (snd validate_run) = inr (optimal_batch_size (self (snd validate_run))).
Proof.
  refine (optimum_is_left_in_the_model
            (synthetic "batch_size" (RuntimeError true) (Some 20)) 0
            (validate_world "power" 2 3 1000) (snd validate_run) _ _ _).
  - apply synthetic_keeps_field.
  - reflexivity.
  - vm_compute. reflexivity.
Defined.
